(** * Trace dumpers for an MLflow tracking server: a shallow embedding

    The repository holds four near-duplicate scripts that page through the
    experiments, runs and artifacts of a tracking server and assemble one JSON
    document:

    - [experiment_trace_dumper.py]       (module [ExperimentTraceDumper])
    - [mlflow_trace_dumper.py]           (module [MLflowTraceDumper])
    - [mlflow/mlflow_trace_dumper.py]    (module [MlflowDirTraceDumper])
    - [mlflow/langraph_trace_dumper.py]  (module [LangGraphTraceDumper])

    Modelling decisions, shared by all four:

    - A Python value that can occur in a parsed response or in the document is
      a [json]; a [dict] is an association list in insertion order (a parsed
      object has no duplicate keys).
    - A Python [str] is represented by its UTF-8 encoding, so [String.length]
      is the byte length and [len] counts the bytes that start a code point;
      a lone surrogate, which a JSON escape can produce, is represented by
      the three bytes of its generalised encoding.
      [str.lower] maps the characters whose lower case holds an ASCII
      character (A-Z, U+212A and U+0130) as Python does and leaves every
      other character as it is: the scripts only search lowered text for
      ASCII keywords, which cannot tell the difference.
    - A float is kept as the literal of the response text; the scripts do
      not compute with floats.
    - The server is a function from requests to replies: a snapshot that the
      read-only GET calls of the scripts do not change.
    - A method is a computation [M A]: the chronological list of its
      observable events (requests sent, log records, files written) together
      with its outcome, a value or a raised exception.  Exceptions fall into
      the two classes the handlers tell apart:
      [requests.exceptions.RequestException] and every other [Exception].
    - [response.json()] on a body that is not JSON raises
      [requests.exceptions.JSONDecodeError], which is a [RequestException]
      (requests 2.27 and later).
    - [json.dumps] and [str] on a value that is not a [str] are library
      functions taken as parameters of the environment; [datetime.now()] is
      the argument [now] of a dump method.

    The embedding comes first (modules [Py], [Fetchers] and one module per
    script), then the vocabulary of the statements ([Doc], [Shape],
    [Examples]), then the lemmas and the theorems. *)

From Stdlib Require Import String Ascii List ZArith Bool Lia DecimalString.
Import ListNotations.
Local Open Scope string_scope.
Local Open Scope Z_scope.
Local Open Scope list_scope.
Set Warnings "-register-all".

(** ** Python values *)

Module Py.

Inductive json : Type :=
| JNull
| JBool (b : bool)
| JInt (n : Z)
| JFloat (literal : string)
| JStr (s : string)
| JArr (items : list json)
| JObj (fields : list (string * json)).

Definition dict := list (string * json).

(** [d.get(k)] on a dict: the first (and only) binding of [k]. *)
Fixpoint dict_get (d : dict) (k : string) : option json :=
  match d with
  | [] => None
  | (k', v) :: d' => if String.eqb k' k then Some v else dict_get d' k
  end.

(** [d[k] = v]: an existing key keeps its position, a new key goes last. *)
Fixpoint dict_set (d : dict) (k : string) (v : json) : dict :=
  match d with
  | [] => [(k, v)]
  | (k', v') :: d' =>
      if String.eqb k' k then (k', v) :: d' else (k', v') :: dict_set d' k v
  end.

(** In-place update of the value stored under an existing key. *)
Fixpoint dict_update (d : dict) (k : string) (f : json -> json) : dict :=
  match d with
  | [] => []
  | (k', v') :: d' =>
      if String.eqb k' k then (k', f v') :: d' else (k', v') :: dict_update d' k f
  end.

Fixpoint dict_remove (d : dict) (k : string) : dict :=
  match d with
  | [] => []
  | (k', v') :: d' =>
      if String.eqb k' k then dict_remove d' k else (k', v') :: dict_remove d' k
  end.

(** ** Strings *)

Definition is_continuation (c : ascii) : bool :=
  let n := nat_of_ascii c in (128 <=? n)%nat && (n <? 192)%nat.

(** [len(s)]: the number of code points. *)
Fixpoint str_len (s : string) : nat :=
  match s with
  | EmptyString => O
  | String c s' => if is_continuation c then str_len s' else S (str_len s')
  end.

(** The characters of [s], as iteration over a [str] yields them. *)
Fixpoint str_chars (s : string) : list string :=
  match s with
  | EmptyString => []
  | String c s' =>
      match str_chars s' with
      | String b x :: xs =>
          if is_continuation b then String c (String b x) :: xs
          else String c EmptyString :: String b x :: xs
      | l => String c EmptyString :: l
      end
  end.

Definition lower_ascii (c : ascii) : ascii :=
  let n := nat_of_ascii c in
  if (65 <=? n)%nat && (n <=? 90)%nat then ascii_of_nat (n + 32) else c.

(** [s.lower()].  Besides A-Z two characters have a lower case that holds an
    ASCII character: U+0130 (bytes C4 B0) becomes [i] followed by U+0307
    (bytes CC 87), and U+212A, the Kelvin sign (bytes E2 84 AA), becomes [k].
    The lower case of every other character outside ASCII holds no ASCII
    character, and the character is left as it is. *)
Fixpoint lower (s : string) : string :=
  match s with
  | EmptyString => EmptyString
  | String c s' =>
      match s' with
      | String c1 rest1 =>
          if Ascii.eqb c (ascii_of_nat 196) && Ascii.eqb c1 (ascii_of_nat 176) then
            String (ascii_of_nat 105)
              (String (ascii_of_nat 204) (String (ascii_of_nat 135) (lower rest1)))
          else
            match rest1 with
            | String c2 rest2 =>
                if Ascii.eqb c (ascii_of_nat 226) && Ascii.eqb c1 (ascii_of_nat 132)
                   && Ascii.eqb c2 (ascii_of_nat 170)
                then String (ascii_of_nat 107) (lower rest2)
                else String (lower_ascii c) (lower s')
            | EmptyString => String (lower_ascii c) (lower s')
            end
      | EmptyString => String (lower_ascii c) EmptyString
      end
  end.

(** [kw in s] *)
Fixpoint str_in (kw s : string) : bool :=
  String.prefix kw s ||
  match s with
  | EmptyString => false
  | String _ s' => str_in kw s'
  end.

(** [any(keyword in s for keyword in keywords)] *)
Definition any_in (keywords : list string) (s : string) : bool :=
  existsb (fun keyword => str_in keyword s) keywords.

(** Decimal rendering of a length, as an f-string prints it. *)
Definition str_of_nat (n : nat) : string :=
  NilEmpty.string_of_uint (Nat.to_uint n).

(** ** Outcomes *)

Inductive exn : Type :=
| RequestException   (* requests.exceptions.RequestException and subclasses *)
| OtherException.    (* KeyError, TypeError, AttributeError, ... *)

Inductive res (A : Type) : Type :=
| Ok (a : A)
| Raise (e : exn).
Arguments Ok {A} a.
Arguments Raise {A} e.

Definition res_map {A B} (f : A -> B) (r : res A) : res B :=
  match r with Ok a => Ok (f a) | Raise e => Raise e end.

Definition is_ok {A} (r : res A) : bool :=
  match r with Ok _ => true | Raise _ => false end.

(** [j.get(k, default)]: only a dict has [get]. *)
Definition py_get (j : json) (k : string) (default : json) : res json :=
  match j with
  | JObj d => Ok (match dict_get d k with Some v => v | None => default end)
  | _ => Raise OtherException
  end.

(** [j[k]] with a string key: [KeyError] or [TypeError] unless [j] is a dict
    that binds [k]. *)
Definition py_index (j : json) (k : string) : res json :=
  match j with
  | JObj d => match dict_get d k with Some v => Ok v | None => Raise OtherException end
  | _ => Raise OtherException
  end.

(** [for x in j]: a list yields its items, a dict its keys, a str its
    characters; nothing else is iterable. *)
Definition py_iter (j : json) : res (list json) :=
  match j with
  | JArr l => Ok l
  | JObj d => Ok (map (fun kv => JStr (fst kv)) d)
  | JStr s => Ok (map JStr (str_chars s))
  | _ => Raise OtherException
  end.

(** [len(j)] *)
Definition py_len (j : json) : res nat :=
  match j with
  | JArr l => Ok (length l)
  | JObj d => Ok (length d)
  | JStr s => Ok (str_len s)
  | _ => Raise OtherException
  end.

(** [j.items()] *)
Definition py_items (j : json) : res dict :=
  match j with
  | JObj d => Ok d
  | _ => Raise OtherException
  end.

(** [j.lower()]: only a str has [lower]. *)
Definition py_lower (j : json) : res string :=
  match j with
  | JStr s => Ok (lower s)
  | _ => Raise OtherException
  end.

Definition float_literal_is_zero (lit : string) : bool :=
  (fix go (s : string) : bool :=
     match s with
     | EmptyString => true
     | String c s' =>
         if (Ascii.eqb c "e" || Ascii.eqb c "E")%char then true
         else (Ascii.eqb c "0" || Ascii.eqb c "." || Ascii.eqb c "-" || Ascii.eqb c "+")%char
              && go s'
     end) lit.

(** Truth value of [j] in a condition. *)
Definition truthy (j : json) : bool :=
  match j with
  | JNull => false
  | JBool b => b
  | JInt n => negb (n =? 0)
  | JFloat lit => negb (float_literal_is_zero lit)
  | JStr s => negb (String.eqb s "")
  | JArr l => match l with [] => false | _ => true end
  | JObj d => match d with [] => false | _ => true end
  end.

(** ** The server and the events of a computation *)

Inductive request : Type :=
| ExperimentsGet (experiment_id : json)
| ExperimentsList
| RunsSearch (experiment_id : json) (max_results : Z)
| RunsGet (run_id : json)
| MetricsGetHistory (run_id : json)
| ArtifactsList (run_id : json)
| ArtifactsDownload (run_id : json) (path : json)
| TracesSearch (run_id : json).

(** A response carries its status, its decoded text, and the result of parsing
    that text as JSON ([None] when it does not parse). *)
Record response : Type := {
  status_code : Z;
  text : string;
  json_body : option json
}.

Inductive reply : Type :=
| ConnectionError          (* the transport fails: [session.get] raises *)
| Answer (r : response).

Inductive level : Type := DEBUG | INFO | WARNING | ERROR.

Inductive event : Type :=
| Get (rq : request)
| Log (lvl : level) (message : string)
| FileOpened (path : string)       (* open(path, 'w'): truncates the file if it opens *)
| FileWritten (path : string) (document : json).   (* the write has completed *)

Record env : Type := {
  mlflow_url : string;              (* self.mlflow_url *)
  serve : request -> reply;         (* the server behind self.session *)
  writable : string -> bool;        (* does the write of the dump to this path complete *)
  json_dumps : json -> string;      (* json.dumps(., indent=2) *)
  py_repr : json -> string          (* str(.) of a value that is not a str *)
}.

(** ** Computations *)

Definition M (A : Type) : Type := (list event * res A)%type.

Definition events {A} (m : M A) : list event := fst m.
Definition value {A} (m : M A) : res A := snd m.

(** The value of a computation that does not raise ([d] otherwise). *)
Definition outcome {A} (d : A) (m : M A) : A :=
  match value m with Ok a => a | Raise _ => d end.

Definition ret {A} (a : A) : M A := ([], Ok a).
Definition raise {A} (e : exn) : M A := ([], Raise e).
Definition lift {A} (r : res A) : M A := ([], r).

Definition bind {A B} (m : M A) (f : A -> M B) : M B :=
  match m with
  | (l, Ok a) => let (l', r) := f a in (l ++ l', r)
  | (l, Raise e) => (l, Raise e)
  end.

(** [try: m  except requests.exceptions.RequestException: handler] *)
Definition try_request {A} (m : M A) (handler : M A) : M A :=
  match m with
  | (l, Raise RequestException) => let (l', r) := handler in (l ++ l', r)
  | _ => m
  end.

(** [try: m  except Exception: handler] *)
Definition try_any {A} (m : M A) (handler : M A) : M A :=
  match m with
  | (l, Raise _) => let (l', r) := handler in (l ++ l', r)
  | _ => m
  end.

Definition log (lvl : level) (message : string) : M unit :=
  ([Log lvl message], Ok tt).

(** [for x in items: s = body x s] *)
Fixpoint for_each {A S} (items : list A) (body : A -> S -> M S) (s : S) : M S :=
  match items with
  | [] => ret s
  | x :: rest => bind (body x s) (for_each rest body)
  end.

(** The per-item computations of a loop, run in order. *)
Fixpoint map_m {A B} (g : A -> M B) (items : list A) : M (list B) :=
  match items with
  | [] => ret []
  | x :: rest => bind (g x) (fun y => bind (map_m g rest) (fun ys => ret (y :: ys)))
  end.

(** Mutation of a dict or list the script itself has built. *)
Definition on_dict (f : dict -> dict) (j : json) : json :=
  match j with JObj d => JObj (f d) | _ => j end.

(** [j[k] = v] *)
Definition set_item (k : string) (v : json) : json -> json :=
  on_dict (fun d => dict_set d k v).

(** [j[k]] mutated by [f] *)
Definition in_item (k : string) (f : json -> json) : json -> json :=
  on_dict (fun d => dict_update d k f).

(** [+= n] *)
Definition add_int (n : Z) (j : json) : json :=
  match j with JInt m => JInt (m + n) | _ => j end.

(** [.append(v)] *)
Definition append (v : json) (j : json) : json :=
  match j with JArr l => JArr (l ++ [v]) | _ => j end.

Declare Scope py_scope.
Delimit Scope py_scope with py.
Notation "x <- m ;; k" := (bind m (fun x => k))
  (at level 61, m at next level, right associativity) : py_scope.
Notation "m ;; k" := (bind m (fun _ => k))
  (at level 61, right associativity) : py_scope.
Local Open Scope py_scope.

Section Session.
Variable E : env.

(** [self.session.get(url, params=...)] *)
Definition session_get (rq : request) : M response :=
  match serve E rq with
  | ConnectionError => ([Get rq], Raise RequestException)
  | Answer r => ([Get rq], Ok r)
  end.

(** [response.raise_for_status()]: [HTTPError] on a 4xx or 5xx status. *)
Definition raise_for_status (r : response) : M unit :=
  if (400 <=? status_code r) && (status_code r <? 600)
  then raise RequestException else ret tt.

(** [response.json()]: [requests.exceptions.JSONDecodeError], a
    [RequestException], when the body is not JSON. *)
Definition response_json (r : response) : M json :=
  match json_body r with
  | Some j => ret j
  | None => raise RequestException
  end.

(** [str(j)], as an f-string or [str()] renders a value. *)
Definition py_str (j : json) : string :=
  match j with JStr s => s | _ => py_repr E j end.

(** [with open(path, 'w', encoding='utf-8') as f: json.dump(doc, f, ...)].
    The file is opened for writing, which truncates it, and the document is
    written.  The block can raise at the open or later, in [json.dump], on a
    str that cannot be encoded or on the device: then the write has not
    completed, and the file may be missing, empty or hold a part of the text.
    A dump writes one document, the one the server determines, so whether its
    write completes is taken from the path. *)
Definition write_json (path : string) (doc : json) : M unit :=
  if writable E path then ([FileOpened path; FileWritten path doc], Ok tt)
  else ([FileOpened path], Raise OtherException).

(** The "save to file if specified" block of every dump method; [saved] and
    [failed] are its two log records. *)
Definition save (document : json) (output_file : option string)
                (saved failed : string) : M unit :=
  match output_file with
  | Some path =>
      if negb (String.eqb path "") then
        try_any
          (write_json path document ;;
           log INFO saved)
          (log ERROR failed)
      else ret tt
  | None => ret tt
  end.
End Session.

End Py.

Import Py.
Local Open Scope py_scope.

(** ** Fetchers that are the same in every script *)

Module Fetchers.
Section Methods.
Variable E : env.

Definition get_all_experiments : M json :=
  try_request
    (response <- session_get E ExperimentsList ;;
     raise_for_status response ;;
     body <- response_json response ;;
     experiments <- lift (py_get body "experiments" (JArr [])) ;;
     _ <- lift (py_len experiments) ;;
     log INFO "Found {len(experiments)} experiments" ;;
     ret experiments)
    (log ERROR "Failed to get experiments: {e}" ;;
     ret (JArr [])).

Definition get_runs_for_experiment (experiment_id : json) : M json :=
  try_request
    (response <- session_get E (RunsSearch experiment_id 1000) ;;
     raise_for_status response ;;
     body <- response_json response ;;
     runs <- lift (py_get body "runs" (JArr [])) ;;
     _ <- lift (py_len runs) ;;
     log INFO "Found {len(runs)} runs for experiment {experiment_id}" ;;
     ret runs)
    (log ERROR "Failed to get runs for experiment {experiment_id}: {e}" ;;
     ret (JArr [])).
End Methods.
End Fetchers.

(** ** experiment_trace_dumper.py *)

Module ExperimentTraceDumper.

Definition artifact_keywords : list string :=
  ["trace"; "langraph"; "agent"; "execution"; "workflow"; "flow"].

Definition metadata_keywords : list string :=
  ["trace"; "langraph"; "agent"].

Section Methods.
Variable E : env.

Definition get_experiment_info (experiment_id : json) : M json :=
  try_request
    (response <- session_get E (ExperimentsGet experiment_id) ;;
     raise_for_status response ;;
     body <- response_json response ;;
     experiment <- lift (py_get body "experiment" (JObj [])) ;;
     _ <- lift (py_get experiment "name" (JStr "Unknown")) ;;
     log INFO "Found experiment: {experiment.get('name', 'Unknown')} (ID: {experiment_id})" ;;
     ret experiment)
    (log ERROR "Failed to get experiment {experiment_id}: {e}" ;;
     ret JNull).

Definition get_runs_for_experiment := Fetchers.get_runs_for_experiment E.

(** Method 1 of [get_traces_for_run]: the traces API endpoint. *)
Definition traces_from_api (run_id : json) (traces : list json) : M (list json) :=
  response <- session_get E (TracesSearch run_id) ;;
  if status_code response =? 200 then
    body <- response_json response ;;
    api_traces <- lift (py_get body "traces" (JArr [])) ;;
    items <- lift (py_iter api_traces) ;;
    traces <- for_each items (fun trace traces =>
      trace_id <- lift (py_get trace "trace_id"
                          (JStr ("api_trace_" ++ str_of_nat (length traces)))) ;;
      ret (traces ++ [JObj [("trace_id", trace_id);
                            ("source", JStr "api");
                            ("data", trace);
                            ("content", JStr (json_dumps E trace))]])) traces ;;
    log INFO "Found {len(api_traces)} traces via API for run {run_id}" ;;
    ret traces
  else ret traces.

(** The body of the artifact loop of method 2. *)
Definition artifact_step (run_id : json) (artifact : json) (traces : list json)
  : M (list json) :=
  artifact_path <- lift (py_get artifact "path" (JStr "")) ;;
  lowered <- lift (py_lower artifact_path) ;;
  if any_in artifact_keywords lowered then
    try_any
      (artifact_response <- session_get E (ArtifactsDownload run_id artifact_path) ;;
       if status_code artifact_response =? 200 then
         let trace_content := text artifact_response in
         let traces := traces ++ [JObj [("trace_id", artifact_path);
                                        ("source", JStr "artifact");
                                        ("artifact_path", artifact_path);
                                        ("content", JStr trace_content);
                                        ("size", JInt (Z.of_nat (str_len trace_content)))]] in
         log INFO "Downloaded trace artifact: {artifact_path}" ;;
         ret traces
       else ret traces)
      (log WARNING "Failed to download trace artifact {artifact_path}: {e}" ;;
       ret traces)
  else ret traces.

(** Method 2 of [get_traces_for_run]: trace data from artifacts. *)
Definition traces_from_artifacts (run_id : json) (traces : list json) : M (list json) :=
  artifacts_response <- session_get E (ArtifactsList run_id) ;;
  if status_code artifacts_response =? 200 then
    body <- response_json artifacts_response ;;
    artifacts <- lift (py_get body "files" (JArr [])) ;;
    items <- lift (py_iter artifacts) ;;
    for_each items (artifact_step run_id) traces
  else ret traces.

(** Method 3 of [get_traces_for_run]: run tags and parameters. *)
Definition traces_from_metadata (run_id : json) (traces : list json) : M (list json) :=
  run_response <- session_get E (RunsGet run_id) ;;
  if status_code run_response =? 200 then
    body <- response_json run_response ;;
    run_data <- lift (py_get body "run" (JObj [])) ;;
    data <- lift (py_get run_data "data" (JObj [])) ;;
    tags <- lift (py_get data "tags" (JObj [])) ;;
    data <- lift (py_get run_data "data" (JObj [])) ;;
    params <- lift (py_get data "params" (JObj [])) ;;
    tag_items <- lift (py_items tags) ;;
    let trace_tags :=
      filter (fun kv => any_in metadata_keywords (lower (fst kv))) tag_items in
    param_items <- lift (py_items params) ;;
    let trace_params :=
      filter (fun kv => any_in metadata_keywords (lower (fst kv))) param_items in
    if truthy (JObj trace_tags) || truthy (JObj trace_params) then
      let traces :=
        traces ++ [JObj [("trace_id", JStr ("metadata_trace_" ++ py_str E run_id));
                         ("source", JStr "metadata");
                         ("trace_tags", JObj trace_tags);
                         ("trace_params", JObj trace_params);
                         ("content", JStr (json_dumps E
                            (JObj [("tags", JObj trace_tags);
                                   ("params", JObj trace_params)])))]] in
      log INFO "Found trace metadata for run {run_id}" ;;
      ret traces
    else ret traces
  else ret traces.

Definition get_traces_for_run (run_id : json) : M (list json) :=
  try_request
    (traces <- traces_from_api run_id [] ;;
     traces <- traces_from_artifacts run_id traces ;;
     traces <- traces_from_metadata run_id traces ;;
     log INFO "Total traces found for run {run_id}: {len(traces)}" ;;
     ret traces)
    (log ERROR "Failed to get traces for run {run_id}: {e}" ;;
     ret []).

Definition get_run_details (run_id : json) : M json :=
  try_request
    (response <- session_get E (RunsGet run_id) ;;
     raise_for_status response ;;
     body <- response_json response ;;
     run_data <- lift (py_get body "run" (JObj [])) ;;
     metrics_response <- session_get E (MetricsGetHistory run_id) ;;
     metrics <- (if status_code metrics_response =? 200 then
                   body <- response_json metrics_response ;;
                   lift (py_get body "metrics" (JArr []))
                 else ret (JArr [])) ;;
     artifacts_response <- session_get E (ArtifactsList run_id) ;;
     artifacts <- (if status_code artifacts_response =? 200 then
                     body <- response_json artifacts_response ;;
                     lift (py_get body "files" (JArr []))
                   else ret (JArr [])) ;;
     ret (JObj [("run_data", run_data);
                ("metrics", metrics);
                ("artifacts", artifacts)]))
    (log ERROR "Failed to get run details for {run_id}: {e}" ;;
     ret JNull).

(** The body of the run loop of [dump_experiment_traces]. *)
Definition run_step (run : json) (experiment_traces : json) : M json :=
  info <- lift (py_index run "info") ;;
  run_id <- lift (py_index info "run_id") ;;
  info <- lift (py_index run "info") ;;
  _ <- lift (py_get info "run_name" (JStr "Unknown")) ;;
  log INFO "Processing run: {run_name} (ID: {run_id})" ;;
  run_details <- get_run_details run_id ;;
  traces <- get_traces_for_run run_id ;;
  let run_data := JObj [("run_info", run);
                        ("run_details", run_details);
                        ("traces", JArr traces)] in
  let experiment_traces :=
    in_item "metadata"
      (in_item "total_traces" (add_int (Z.of_nat (length traces))))
      experiment_traces in
  let experiment_traces := in_item "runs" (append run_data) experiment_traces in
  log INFO "  Found {len(traces)} traces for run {run_name}" ;;
  ret experiment_traces.

(** [now] is the reading of [datetime.now().isoformat()]. *)
Definition dump_experiment_traces (experiment_id : json)
    (output_file : option string) (now : string) : M json :=
  log INFO "Starting trace dump for experiment {experiment_id}..." ;;
  experiment_info <- get_experiment_info experiment_id ;;
  if negb (truthy experiment_info) then
    log ERROR "Experiment {experiment_id} not found" ;;
    ret (JObj [])
  else
    experiment_name <- lift (py_get experiment_info "name" (JStr "Unknown")) ;;
    let experiment_traces :=
      JObj [("metadata", JObj [("mlflow_url", JStr (mlflow_url E));
                               ("experiment_id", experiment_id);
                               ("experiment_name", experiment_name);
                               ("dump_timestamp", JStr now);
                               ("total_runs", JInt 0);
                               ("total_traces", JInt 0)]);
            ("experiment_info", experiment_info);
            ("runs", JArr [])] in
    runs <- get_runs_for_experiment experiment_id ;;
    n <- lift (py_len runs) ;;
    let experiment_traces :=
      in_item "metadata" (set_item "total_runs" (JInt (Z.of_nat n)))
        experiment_traces in
    items <- lift (py_iter runs) ;;
    experiment_traces <- for_each items run_step experiment_traces ;;
    save E experiment_traces output_file
      "Experiment trace dump saved to: {output_file}"
      "Failed to save trace dump to file: {e}" ;;
    log INFO "Experiment trace dump completed. Found {total_traces} traces across {total_runs} runs." ;;
    ret experiment_traces.

End Methods.

End ExperimentTraceDumper.

(** ** mlflow_trace_dumper.py *)

Module MLflowTraceDumper.

Definition trace_keywords : list string := ["trace"; "langraph"; "agent"].

(** What [experiment_data["runs"]] holds after the run loop: the loop mutates
    the run dicts of the very list that [experiment_data["runs"]] aliases, so
    a list shows the mutated runs; any other value is left as it was. *)
Definition runs_after_loop (runs : json) (mutated : list json) : json :=
  match runs with JArr _ => JArr mutated | _ => runs end.

Section Methods.
Variable E : env.

Definition get_all_experiments := Fetchers.get_all_experiments E.
Definition get_runs_for_experiment := Fetchers.get_runs_for_experiment E.

(** The body of the artifact loop of the fallback of [get_traces_for_run]. *)
Definition fallback_step (run_id : json) (artifact : json) (traces : list json)
  : M (list json) :=
  path <- lift (py_get artifact "path" (JStr "")) ;;
  lowered <- lift (py_lower path) ;;
  if any_in trace_keywords lowered then
    try_any
      (path <- lift (py_index artifact "path") ;;
       artifact_response <- session_get E (ArtifactsDownload run_id path) ;;
       if status_code artifact_response =? 200 then
         let trace_content := text artifact_response in
         ret (traces ++ [JObj [("trace_id", path);
                               ("content", JStr trace_content);
                               ("artifact_path", path);
                               ("size", JInt (Z.of_nat (str_len trace_content)))]])
       else ret traces)
      (_ <- lift (py_index artifact "path") ;;
       log WARNING "Failed to download trace artifact {artifact['path']}: {e}" ;;
       ret traces)
  else ret traces.

Definition get_traces_for_run (run_id : json) : M json :=
  try_request
    (response <- session_get E (TracesSearch run_id) ;;
     if status_code response =? 200 then
       body <- response_json response ;;
       traces <- lift (py_get body "traces" (JArr [])) ;;
       _ <- lift (py_len traces) ;;
       log INFO "Found {len(traces)} traces for run {run_id}" ;;
       ret traces
     else
       (* Fallback: try to get trace data from artifacts *)
       artifacts_response <- session_get E (ArtifactsList run_id) ;;
       if status_code artifacts_response =? 200 then
         body <- response_json artifacts_response ;;
         artifacts <- lift (py_get body "files" (JArr [])) ;;
         items <- lift (py_iter artifacts) ;;
         traces <- for_each items (fallback_step run_id) [] ;;
         log INFO "Found {len(traces)} trace artifacts for run {run_id}" ;;
         ret (JArr traces)
       else ret (JArr []))
    (log ERROR "Failed to get traces for run {run_id}: {e}" ;;
     ret (JArr [])).

(** The body of the artifact loop of [get_trace_data]. *)
Definition download_step (run_id : json) (artifact : json) (trace_data : json)
  : M json :=
  path <- lift (py_get artifact "path" (JStr "")) ;;
  lowered <- lift (py_lower path) ;;
  if any_in trace_keywords lowered then
    try_any
      (path <- lift (py_index artifact "path") ;;
       artifact_response <- session_get E (ArtifactsDownload run_id path) ;;
       if status_code artifact_response =? 200 then
         ret (set_item ("artifact_" ++ py_str E path)
                (JStr (text artifact_response)) trace_data)
       else ret trace_data)
      (_ <- lift (py_index artifact "path") ;;
       log WARNING "Failed to download artifact {artifact['path']}: {e}" ;;
       ret trace_data)
  else ret trace_data.

(** The part of [get_trace_data] up to and including the artifact loop; the
    script under [mlflow/] has it verbatim, without the ["traces"] entry. *)
Definition run_snapshot (run_id : json) (trace_data : json -> json) : M json :=
  response <- session_get E (RunsGet run_id) ;;
  raise_for_status response ;;
  body <- response_json response ;;
  run_data <- lift (py_get body "run" (JObj [])) ;;
  let trace_data := trace_data run_data in
  metrics_response <- session_get E (MetricsGetHistory run_id) ;;
  trace_data <- (if status_code metrics_response =? 200 then
                   body <- response_json metrics_response ;;
                   metrics <- lift (py_get body "metrics" (JArr [])) ;;
                   ret (set_item "metrics" metrics trace_data)
                 else ret trace_data) ;;
  params_response <- session_get E (RunsGet run_id) ;;
  trace_data <- (if status_code params_response =? 200 then
                   body <- response_json params_response ;;
                   run_info <- lift (py_get body "run" (JObj [])) ;;
                   data <- lift (py_get run_info "data" (JObj [])) ;;
                   params <- lift (py_get data "params" (JObj [])) ;;
                   let trace_data := set_item "parameters" params trace_data in
                   data <- lift (py_get run_info "data" (JObj [])) ;;
                   tags <- lift (py_get data "tags" (JObj [])) ;;
                   ret (set_item "tags" tags trace_data)
                 else ret trace_data) ;;
  artifacts_response <- session_get E (ArtifactsList run_id) ;;
  if status_code artifacts_response =? 200 then
    body <- response_json artifacts_response ;;
    artifacts <- lift (py_get body "files" (JArr [])) ;;
    let trace_data := set_item "artifacts" artifacts trace_data in
    items <- lift (py_iter artifacts) ;;
    for_each items (download_step run_id) trace_data
  else ret trace_data.

Definition get_trace_data (run_id : json) : M json :=
  try_request
    (trace_data <- run_snapshot run_id (fun run_data =>
       JObj [("run_id", run_id);
             ("run_data", run_data);
             ("metrics", JObj []);
             ("parameters", JObj []);
             ("tags", JObj []);
             ("artifacts", JArr []);
             ("traces", JArr [])]) ;;
     traces <- get_traces_for_run run_id ;;
     ret (set_item "traces" traces trace_data))
    (log ERROR "Failed to get trace data for run {run_id}: {e}" ;;
     ret JNull).

(** [run['trace_data'] = ...] and the count update, shared by the run loops
    of both dump methods: the mutated run and the number of traces to add. *)
Definition attach_trace_data (processing : string) (run : json) : M (json * nat) :=
  info <- lift (py_index run "info") ;;
  run_id <- lift (py_index info "run_id") ;;
  info <- lift (py_index run "info") ;;
  _ <- lift (py_get info "run_name" (JStr "Unknown")) ;;
  log INFO processing ;;
  trace_data <- get_trace_data run_id ;;
  if truthy trace_data then
    let run := set_item "trace_data" trace_data run in
    traces <- lift (py_get trace_data "traces" (JArr [])) ;;
    n <- lift (py_len traces) ;;
    ret (run, n)
  else
    ret (set_item "trace_data" JNull run, O).

Definition add_total_traces (n : nat) : json -> json :=
  in_item "metadata" (in_item "total_traces" (add_int (Z.of_nat n))).

Definition dump_experiment_traces (experiment_id : json)
    (output_file : option string) (now : string) : M json :=
  log INFO "Starting trace dump for experiment {experiment_id}..." ;;
  let experiment_traces :=
    JObj [("metadata", JObj [("mlflow_url", JStr (mlflow_url E));
                             ("experiment_id", experiment_id);
                             ("dump_timestamp", JStr now);
                             ("total_runs", JInt 0);
                             ("total_traces", JInt 0)]);
          ("runs", JArr [])] in
  runs <- get_runs_for_experiment experiment_id ;;
  n <- lift (py_len runs) ;;
  let experiment_traces :=
    in_item "metadata" (set_item "total_runs" (JInt (Z.of_nat n)))
      experiment_traces in
  items <- lift (py_iter runs) ;;
  experiment_traces <- for_each items (fun run experiment_traces =>
    run_n <- attach_trace_data "Processing run: {run_name} (ID: {run_id})" run ;;
    ret (in_item "runs" (append (fst run_n))
           (add_total_traces (snd run_n) experiment_traces))) experiment_traces ;;
  save E experiment_traces output_file
    "Experiment trace dump saved to: {output_file}"
    "Failed to save trace dump to file: {e}" ;;
  log INFO "Experiment trace dump completed. Found {total_traces} traces across {total_runs} runs." ;;
  ret experiment_traces.

(** The body of the experiment loop of [dump_all_traces]. *)
Definition experiment_step (experiment : json) (all_traces : json) : M json :=
  experiment_id <- lift (py_index experiment "experiment_id") ;;
  _ <- lift (py_get experiment "name" (JStr "Unknown")) ;;
  log INFO "Processing experiment: {experiment_name} (ID: {experiment_id})" ;;
  let experiment_data := JObj [("experiment_info", experiment);
                               ("runs", JArr [])] in
  runs <- get_runs_for_experiment experiment_id ;;
  n <- lift (py_len runs) ;;
  let all_traces :=
    in_item "metadata" (in_item "total_runs" (add_int (Z.of_nat n))) all_traces in
  items <- lift (py_iter runs) ;;
  state <- for_each items (fun run state =>
    run_n <- attach_trace_data "  Processing run: {run_name} (ID: {run_id})" run ;;
    ret (add_total_traces (snd run_n) (fst state), snd state ++ [fst run_n]))
    (all_traces, []) ;;
  let experiment_data :=
    set_item "runs" (runs_after_loop runs (snd state)) experiment_data in
  ret (in_item "experiments" (append experiment_data) (fst state)).

Definition dump_all_traces (output_file : option string) (now : string) : M json :=
  log INFO "Starting trace dump process..." ;;
  let all_traces :=
    JObj [("metadata", JObj [("mlflow_url", JStr (mlflow_url E));
                             ("dump_timestamp", JStr now);
                             ("total_experiments", JInt 0);
                             ("total_runs", JInt 0);
                             ("total_traces", JInt 0)]);
          ("experiments", JArr [])] in
  experiments <- get_all_experiments ;;
  n <- lift (py_len experiments) ;;
  let all_traces :=
    in_item "metadata" (set_item "total_experiments" (JInt (Z.of_nat n)))
      all_traces in
  items <- lift (py_iter experiments) ;;
  all_traces <- for_each items experiment_step all_traces ;;
  save E all_traces output_file
    "Trace dump saved to: {output_file}"
    "Failed to save trace dump to file: {e}" ;;
  log INFO "Trace dump completed. Found {total_traces} traces across {total_runs} runs in {total_experiments} experiments." ;;
  ret all_traces.

End Methods.

End MLflowTraceDumper.

(** ** mlflow/mlflow_trace_dumper.py *)

Module MlflowDirTraceDumper.

Section Methods.
Variable E : env.

Definition get_all_experiments := Fetchers.get_all_experiments E.
Definition get_runs_for_experiment := Fetchers.get_runs_for_experiment E.

(** This script has no [get_traces_for_run] and its trace data has no
    ["traces"] entry. *)
Definition get_trace_data (run_id : json) : M json :=
  try_request
    (MLflowTraceDumper.run_snapshot E run_id (fun run_data =>
       JObj [("run_id", run_id);
             ("run_data", run_data);
             ("metrics", JObj []);
             ("parameters", JObj []);
             ("tags", JObj []);
             ("artifacts", JArr [])]))
    (log ERROR "Failed to get trace data for run {run_id}: {e}" ;;
     ret JNull).

(** The body of the run loop: the mutated run and the amount added to
    [total_traces]. *)
Definition attach_trace_data (run : json) : M (json * nat) :=
  info <- lift (py_index run "info") ;;
  run_id <- lift (py_index info "run_id") ;;
  info <- lift (py_index run "info") ;;
  _ <- lift (py_get info "run_name" (JStr "Unknown")) ;;
  log INFO "  Processing run: {run_name} (ID: {run_id})" ;;
  trace_data <- get_trace_data run_id ;;
  if truthy trace_data then
    ret (set_item "trace_data" trace_data run, 1%nat)
  else
    ret (set_item "trace_data" JNull run, O).

(** The body of the experiment loop of [dump_all_traces]. *)
Definition experiment_step (experiment : json) (all_traces : json) : M json :=
  experiment_id <- lift (py_index experiment "experiment_id") ;;
  _ <- lift (py_get experiment "name" (JStr "Unknown")) ;;
  log INFO "Processing experiment: {experiment_name} (ID: {experiment_id})" ;;
  let experiment_data := JObj [("experiment_info", experiment);
                               ("runs", JArr [])] in
  runs <- get_runs_for_experiment experiment_id ;;
  n <- lift (py_len runs) ;;
  let all_traces :=
    in_item "metadata" (in_item "total_runs" (add_int (Z.of_nat n))) all_traces in
  items <- lift (py_iter runs) ;;
  state <- for_each items (fun run state =>
    run_n <- attach_trace_data run ;;
    ret (MLflowTraceDumper.add_total_traces (snd run_n) (fst state),
         snd state ++ [fst run_n]))
    (all_traces, []) ;;
  let experiment_data :=
    set_item "runs" (MLflowTraceDumper.runs_after_loop runs (snd state))
      experiment_data in
  ret (in_item "experiments" (append experiment_data) (fst state)).

Definition dump_all_traces (output_file : option string) (now : string) : M json :=
  log INFO "Starting trace dump process..." ;;
  let all_traces :=
    JObj [("metadata", JObj [("mlflow_url", JStr (mlflow_url E));
                             ("dump_timestamp", JStr now);
                             ("total_experiments", JInt 0);
                             ("total_runs", JInt 0);
                             ("total_traces", JInt 0)]);
          ("experiments", JArr [])] in
  experiments <- get_all_experiments ;;
  n <- lift (py_len experiments) ;;
  let all_traces :=
    in_item "metadata" (set_item "total_experiments" (JInt (Z.of_nat n)))
      all_traces in
  items <- lift (py_iter experiments) ;;
  all_traces <- for_each items experiment_step all_traces ;;
  save E all_traces output_file
    "Trace dump saved to: {output_file}"
    "Failed to save trace dump to file: {e}" ;;
  log INFO "Trace dump completed. Found {total_traces} traces across {total_runs} runs in {total_experiments} experiments." ;;
  ret all_traces.

End Methods.

End MlflowDirTraceDumper.

(** ** mlflow/langraph_trace_dumper.py *)

Module LangGraphTraceDumper.

Definition run_keywords : list string := ["langraph"; "agent"; "trace"].

Definition trace_file_patterns : list string :=
  ["trace.json"; "trace.jsonl"; "langraph_trace"; "agent_trace";
   "trace_data"; "execution_trace"; "workflow_trace"].

Definition info_keywords : list string := ["langraph"; "agent"; "trace"; "workflow"].

Section Methods.
Variable E : env.

Definition get_all_experiments := Fetchers.get_all_experiments E.
Definition get_runs_for_experiment := Fetchers.get_runs_for_experiment E.

Definition _is_langraph_trace (run_data : json) : M bool :=
  data <- lift (py_get run_data "data" (JObj [])) ;;
  tags <- lift (py_get data "tags" (JObj [])) ;;
  tag_items <- lift (py_items tags) ;;
  if existsb (fun kv =>
       any_in run_keywords (lower (fst kv))
       || any_in run_keywords (lower (py_str E (snd kv)))) tag_items
  then ret true
  else
    info <- lift (py_get run_data "info" (JObj [])) ;;
    run_name <- lift (py_get info "run_name" (JStr "")) ;;
    run_name <- lift (py_lower run_name) ;;
    if any_in run_keywords run_name then ret true
    else
      info <- lift (py_get run_data "info" (JObj [])) ;;
      experiment_name <- lift (py_get info "experiment_id" (JStr "")) ;;
      experiment_name <- lift (py_lower experiment_name) ;;
      if any_in run_keywords experiment_name then ret true
      else ret false.

(** The body of the artifact loop of [get_langraph_trace_data]. *)
Definition trace_file_step (run_id : json) (artifact : json) (trace_data : json)
  : M json :=
  artifact_path <- lift (py_get artifact "path" (JStr "")) ;;
  lowered <- lift (py_lower artifact_path) ;;
  if any_in trace_file_patterns lowered then
    try_any
      (artifact_response <- session_get E (ArtifactsDownload run_id artifact_path) ;;
       if status_code artifact_response =? 200 then
         let trace_content := text artifact_response in
         let trace_data :=
           in_item "trace_files"
             (append (JObj [("path", artifact_path);
                            ("content", JStr trace_content);
                            ("size", JInt (Z.of_nat (str_len trace_content)))]))
             trace_data in
         (* json.loads(trace_content), or the text when it is not JSON *)
         match json_body artifact_response with
         | Some trace_json =>
             ret (in_item "langraph_trace"
                    (set_item (py_str E artifact_path) trace_json) trace_data)
         | None =>
             ret (in_item "langraph_trace"
                    (set_item (py_str E artifact_path) (JStr trace_content)) trace_data)
         end
       else ret trace_data)
      (log WARNING "Failed to download trace file {artifact_path}: {e}" ;;
       ret trace_data)
  else ret trace_data.

(** [langraph_info[prefix + key] = value] for every matching key. *)
Definition collect_info (prefix : string) (items : dict) (langraph_info : dict) : dict :=
  fold_left (fun info kv =>
    if any_in info_keywords (lower (fst kv))
    then dict_set info (prefix ++ fst kv) (snd kv) else info) items langraph_info.

Definition get_langraph_trace_data (run_id : json) : M json :=
  try_request
    (response <- session_get E (RunsGet run_id) ;;
     raise_for_status response ;;
     body <- response_json response ;;
     run_data <- lift (py_get body "run" (JObj [])) ;;
     is_trace <- _is_langraph_trace run_data ;;
     if negb is_trace then ret JNull
     else
       run_info <- lift (py_get run_data "info" (JObj [])) ;;
       data <- lift (py_get run_data "data" (JObj [])) ;;
       let trace_data := JObj [("run_id", run_id);
                               ("run_info", run_info);
                               ("run_data", data);
                               ("langraph_trace", JObj []);
                               ("artifacts", JArr []);
                               ("trace_files", JArr [])] in
       artifacts_response <- session_get E (ArtifactsList run_id) ;;
       trace_data <- (if status_code artifacts_response =? 200 then
                        body <- response_json artifacts_response ;;
                        artifacts <- lift (py_get body "files" (JArr [])) ;;
                        let trace_data := set_item "artifacts" artifacts trace_data in
                        items <- lift (py_iter artifacts) ;;
                        for_each items (trace_file_step run_id) trace_data
                      else ret trace_data) ;;
       data <- lift (py_get run_data "data" (JObj [])) ;;
       tags <- lift (py_get data "tags" (JObj [])) ;;
       data <- lift (py_get run_data "data" (JObj [])) ;;
       params <- lift (py_get data "params" (JObj [])) ;;
       tag_items <- lift (py_items tags) ;;
       let langraph_info := collect_info "tag_" tag_items [] in
       param_items <- lift (py_items params) ;;
       let langraph_info := collect_info "param_" param_items langraph_info in
       if truthy (JObj langraph_info) then
         ret (set_item "langraph_info" (JObj langraph_info) trace_data)
       else ret trace_data)
    (log ERROR "Failed to get LangGraph trace data for run {run_id}: {e}" ;;
     ret JNull).

(** The body of the run loop of [dump_langraph_traces]. *)
Definition run_step (experiment : json) (run : json) (all_traces : json) : M json :=
  info <- lift (py_index run "info") ;;
  run_id <- lift (py_index info "run_id") ;;
  info <- lift (py_index run "info") ;;
  _ <- lift (py_get info "run_name" (JStr "Unknown")) ;;
  log INFO "  Processing run: {run_name} (ID: {run_id})" ;;
  trace_data <- get_langraph_trace_data run_id ;;
  if truthy trace_data then
    let trace_data := set_item "experiment_info" experiment trace_data in
    let all_traces := in_item "langraph_traces" (append trace_data) all_traces in
    let all_traces :=
      in_item "metadata" (in_item "total_langraph_traces" (add_int 1)) all_traces in
    log INFO "    Found LangGraph trace data" ;;
    ret all_traces
  else
    log DEBUG "    No LangGraph trace data found" ;;
    ret all_traces.

(** The body of the experiment loop of [dump_langraph_traces]. *)
Definition experiment_step (experiment : json) (all_traces : json) : M json :=
  experiment_id <- lift (py_index experiment "experiment_id") ;;
  _ <- lift (py_get experiment "name" (JStr "Unknown")) ;;
  log INFO "Processing experiment: {experiment_name} (ID: {experiment_id})" ;;
  runs <- get_runs_for_experiment experiment_id ;;
  n <- lift (py_len runs) ;;
  let all_traces :=
    in_item "metadata" (in_item "total_runs" (add_int (Z.of_nat n))) all_traces in
  items <- lift (py_iter runs) ;;
  for_each items (run_step experiment) all_traces.

Definition dump_langraph_traces (output_file : option string) (now : string) : M json :=
  log INFO "Starting LangGraph trace dump process..." ;;
  let all_traces :=
    JObj [("metadata", JObj [("mlflow_url", JStr (mlflow_url E));
                             ("dump_timestamp", JStr now);
                             ("total_experiments", JInt 0);
                             ("total_runs", JInt 0);
                             ("total_langraph_traces", JInt 0)]);
          ("langraph_traces", JArr [])] in
  experiments <- get_all_experiments ;;
  n <- lift (py_len experiments) ;;
  let all_traces :=
    in_item "metadata" (set_item "total_experiments" (JInt (Z.of_nat n)))
      all_traces in
  items <- lift (py_iter experiments) ;;
  all_traces <- for_each items experiment_step all_traces ;;
  save E all_traces output_file
    "LangGraph trace dump saved to: {output_file}"
    "Failed to save trace dump to file: {e}" ;;
  log INFO "LangGraph trace dump completed. Found {total_langraph_traces} LangGraph traces across {total_runs} runs in {total_experiments} experiments." ;;
  ret all_traces.

End Methods.

End LangGraphTraceDumper.

(** ** experiment_trace_dumper.py: the constructor and [main]

    [main] is modelled from the parsed arguments on.  Besides the events of
    the dumper it checks the [/health] endpoint and prints, which can fail;
    its result is the chronological list of these effects and the exit status
    of the script.
    The server of the environment is the one the session reaches with the
    credentials of the arguments.  [--verbose] only changes which log records
    the logging module emits; the effects list the records the script
    logs. *)

Module ExperimentTraceDumperMain.

Record args : Type := {
  arg_mlflow_url : string;          (* --mlflow_url, required *)
  arg_experiment_id : string;       (* --experiment_id, required *)
  arg_username : option string;     (* --username *)
  arg_password : option string;     (* --password *)
  arg_output : option string;       (* --output *)
  arg_verbose : bool                (* --verbose *)
}.

Inductive effect : Type :=
| Health (url : string)            (* GET <url>/health *)
| Of (ev : event)                  (* a request, log record or file of the dumper *)
| Print (line : string).

(** What [main] runs against: the answer of the health endpoint, the lines
    standard output accepts ([print] raises [UnicodeEncodeError] on text the
    stream cannot encode, and [OSError] on a stream that is closed), and the
    server, file system and library functions ([mlflow_url] is set by the
    constructor). *)
Record world : Type := {
  health : reply;
  printable : string -> bool;
  base : env
}.

Definition C (A : Type) : Type := (list effect * res A)%type.

Definition cbind {A B} (m : C A) (f : A -> C B) : C B :=
  match m with
  | (l, Ok a) => let (l', r) := f a in (l ++ l', r)
  | (l, Raise e) => (l, Raise e)
  end.

Definition cret {A} (a : A) : C A := ([], Ok a).
Definition clift {A} (r : res A) : C A := ([], r).
(** A method of the dumper, run from [main]. *)
Definition of_dumper {A} (m : M A) : C A := (map Of (events m), value m).

Fixpoint cfor_each {A} (items : list A) (body : A -> C unit) : C unit :=
  match items with
  | [] => cret tt
  | x :: rest => cbind (body x) (fun _ => cfor_each rest body)
  end.

(** [s.rstrip('/')] *)
Fixpoint rstrip_slash (s : string) : string :=
  match s with
  | EmptyString => EmptyString
  | String c s' =>
      match rstrip_slash s' with
      | EmptyString => if Ascii.eqb c "/" then EmptyString else String c EmptyString
      | rest => String c rest
      end
  end.

(** A float literal of a JSON text is greater than zero. *)
Definition float_positive (literal : string) : bool :=
  negb (float_literal_is_zero literal)
  && negb (String.prefix "-" literal)
  && negb (String.eqb literal "NaN").

(** [j > 0]: [TypeError] unless [j] is a number. *)
Definition py_positive (j : json) : res bool :=
  match j with
  | JInt n => Ok (0 <? n)
  | JBool b => Ok b
  | JFloat literal => Ok (float_positive literal)
  | _ => Raise OtherException
  end.

Definition newline : string := String (ascii_of_nat 10) EmptyString.

Section Main.
Variable W : world.

(** [print(line)]: the line is written, or the call raises and nothing of
    the line is. *)
Definition print (line : string) : C unit :=
  if printable W line then ([Print line], Ok tt)
  else ([], Raise OtherException).

(** The environment of the dumper that [__init__] builds for [mlflow_url]. *)
Definition dumper_env (mlflow_url : string) : env :=
  {| mlflow_url := rstrip_slash mlflow_url;
     serve := serve (base W);
     writable := writable (base W);
     json_dumps := json_dumps (base W);
     py_repr := py_repr (base W) |}.

Definition _test_connection (E : env) : C unit :=
  match health W with
  | ConnectionError =>
      ([Health (Py.mlflow_url E);
        Of (Log ERROR "Failed to connect to MLflow server: {e}")],
       Raise RequestException)
  | Answer response =>
      if status_code response =? 200 then
        ([Health (Py.mlflow_url E);
          Of (Log INFO "Successfully connected to MLflow server")], Ok tt)
      else
        ([Health (Py.mlflow_url E);
          Of (Log WARNING "MLflow server responded with status code: {response.status_code}")],
         Ok tt)
  end.

(** [ExperimentTraceDumper(mlflow_url, username, password)] *)
Definition __init__ (mlflow_url : string) : C env :=
  let E := dumper_env mlflow_url in
  cbind (_test_connection E) (fun _ => cret E).

(** [print(f"<label>{traces['metadata'][key]}")] *)
Definition print_metadata (E : env) (label : string) (traces : json) (key : string)
  : C unit :=
  cbind (clift (py_index traces "metadata")) (fun metadata =>
  cbind (clift (py_index metadata key)) (fun v =>
  print (label ++ py_str E v))).

(** The body of the loop of the trace breakdown. *)
Definition print_run (E : env) (run : json) : C unit :=
  cbind (clift (py_index run "run_info")) (fun run_info =>
  cbind (clift (py_index run_info "info")) (fun info =>
  cbind (clift (py_get info "run_name" (JStr "Unknown"))) (fun run_name =>
  cbind (clift (py_index run "run_info")) (fun run_info =>
  cbind (clift (py_index run_info "info")) (fun info =>
  cbind (clift (py_index info "run_id")) (fun run_id =>
  cbind (clift (py_index run "traces")) (fun run_traces =>
  cbind (clift (py_len run_traces)) (fun trace_count =>
  print ("  - " ++ py_str E run_name ++ " (" ++ py_str E run_id ++ "): "
         ++ str_of_nat trace_count ++ " traces"))))))))).

(** The summary [main] prints for the document [traces]. *)
Definition print_summary (E : env) (traces : json) (output : string) : C unit :=
  cbind (print (newline ++ "=== Experiment Trace Dump Summary ===")) (fun _ =>
  cbind (print_metadata E "Experiment ID: " traces "experiment_id") (fun _ =>
  cbind (print_metadata E "Experiment Name: " traces "experiment_name") (fun _ =>
  cbind (print_metadata E "MLflow URL: " traces "mlflow_url") (fun _ =>
  cbind (print_metadata E "Dump timestamp: " traces "dump_timestamp") (fun _ =>
  cbind (print_metadata E "Total runs: " traces "total_runs") (fun _ =>
  cbind (print_metadata E "Total traces found: " traces "total_traces") (fun _ =>
  cbind (print ("Output file: " ++ output)) (fun _ =>
  cbind (clift (py_index traces "metadata")) (fun metadata =>
  cbind (clift (py_index metadata "total_traces")) (fun total_traces =>
  cbind (clift (py_positive total_traces)) (fun positive =>
  if positive then
    cbind (print (newline ++ "Trace breakdown by run:")) (fun _ =>
    cbind (clift (py_index traces "runs")) (fun runs =>
    cbind (clift (py_iter runs)) (fun items =>
    cfor_each items (print_run E))))
  else cret tt))))))))))).

(** [args.output] after the default is filled in. *)
Definition output_path (a : args) : string :=
  match arg_output a with
  | Some output =>
      if negb (String.eqb output "") then output
      else "experiment_" ++ arg_experiment_id a ++ "_traces.json"
  | None => "experiment_" ++ arg_experiment_id a ++ "_traces.json"
  end.

(** [main()] after [parse_args]: the effects and the exit status. *)
Definition main (a : args) (now : string) : list effect * Z :=
  let output := output_path a in
  let attempt :=
    cbind (__init__ (arg_mlflow_url a)) (fun E =>
    cbind (of_dumper
             (ExperimentTraceDumper.dump_experiment_traces E
                (JStr (arg_experiment_id a)) (Some output) now)) (fun traces =>
    print_summary E traces output)) in
  match attempt with
  | (effects, Ok _) => (effects, 0)
  | (effects, Raise _) =>
      (effects ++ [Of (Log ERROR "Failed to dump experiment traces: {e}")], 1)
  end.

End Main.

End ExperimentTraceDumperMain.

(** ** Reading a document *)

Module Doc.

(** [j[k]], [JNull] where there is no such entry. *)
Definition field (k : string) (j : json) : json :=
  match j with
  | JObj d => match dict_get d k with Some v => v | None => JNull end
  | _ => JNull
  end.

Definition items_of (j : json) : list json :=
  match j with JArr l => l | _ => [] end.

(** [len(j)], [0] where [j] has no length. *)
Definition size_of (j : json) : nat :=
  match py_len j with Ok n => n | Raise _ => O end.

(** [doc["metadata"][k]] when it is an integer. *)
Definition metadata_count (k : string) (doc : json) : option Z :=
  match field k (field "metadata" doc) with
  | JInt n => Some n
  | _ => None
  end.

(** The five dump methods of the four scripts. *)
Inductive dump_method : Type :=
| ExperimentDump      (* experiment_trace_dumper.py, dump_experiment_traces *)
| SingleDump          (* mlflow_trace_dumper.py, dump_experiment_traces *)
| AllDump             (* mlflow_trace_dumper.py, dump_all_traces *)
| DirAllDump          (* mlflow/mlflow_trace_dumper.py, dump_all_traces *)
| LangGraphDump.      (* mlflow/langraph_trace_dumper.py, dump_langraph_traces *)

Definition run_dump (m : dump_method) (E : env) (experiment_id : json)
    (output_file : option string) (now : string) : M json :=
  match m with
  | ExperimentDump =>
      ExperimentTraceDumper.dump_experiment_traces E experiment_id output_file now
  | SingleDump =>
      MLflowTraceDumper.dump_experiment_traces E experiment_id output_file now
  | AllDump => MLflowTraceDumper.dump_all_traces E output_file now
  | DirAllDump => MlflowDirTraceDumper.dump_all_traces E output_file now
  | LangGraphDump => LangGraphTraceDumper.dump_langraph_traces E output_file now
  end.

Definition total_key (m : dump_method) : string :=
  match m with
  | LangGraphDump => "total_langraph_traces"
  | _ => "total_traces"
  end.

(** The run entries a document records. *)
Definition recorded_runs (m : dump_method) (doc : json) : list json :=
  match m with
  | ExperimentDump | SingleDump => items_of (field "runs" doc)
  | AllDump | DirAllDump =>
      flat_map (fun experiment_data => items_of (field "runs" experiment_data))
               (items_of (field "experiments" doc))
  | LangGraphDump => items_of (field "langraph_traces" doc)
  end.

(** What each method counts for one recorded run: the length of the run's
    trace list where the script keeps one; otherwise one per run that carries
    trace data. *)
Definition counted_for_run (m : dump_method) (run : json) : nat :=
  match m with
  | ExperimentDump => size_of (field "traces" run)
  | SingleDump | AllDump => size_of (field "traces" (field "trace_data" run))
  | DirAllDump => if truthy (field "trace_data" run) then 1%nat else O
  | LangGraphDump => 1%nat
  end.

Definition counted (m : dump_method) (doc : json) : nat :=
  list_sum (map (counted_for_run m) (recorded_runs m doc)).

(** The trace contents the script under [mlflow/] embeds for a run: its
    trace data keeps each downloaded artifact under the key
    [artifact_<path>]. *)
Definition downloaded_artifacts (run : json) : nat :=
  match field "trace_data" run with
  | JObj d => length (filter (fun kv => String.prefix "artifact_" (fst kv)) d)
  | _ => O
  end.

(** The document with [dump_timestamp] taken out of its metadata. *)
Definition without_timestamp (doc : json) : json :=
  in_item "metadata" (on_dict (fun md => dict_remove md "dump_timestamp")) doc.

Definition event_without_timestamp (ev : event) : event :=
  match ev with
  | FileWritten path doc => FileWritten path (without_timestamp doc)
  | _ => ev
  end.

(** The same environment over another file system. *)
Definition with_writable (w : string -> bool) (E : env) : env :=
  {| mlflow_url := mlflow_url E;
     serve := serve E;
     writable := w;
     json_dumps := json_dumps E;
     py_repr := py_repr E |}.

Definition is_request (ev : event) : bool :=
  match ev with Get _ => true | _ => false end.

Definition is_write (ev : event) : bool :=
  match ev with FileWritten _ _ => true | _ => false end.

(** The invariant of every dump loop: the document is a dict whose metadata
    holds under [count_key] the sum of [count] over the list stored under
    [list_key], plus [extra] for what has been counted but not yet stored. *)
Definition tallied (count_key list_key : string) (count : json -> nat)
    (extra : Z) (doc : json) : Prop :=
  exists d md T R,
    doc = JObj d /\
    dict_get d "metadata" = Some (JObj md) /\
    dict_get md count_key = Some (JInt T) /\
    dict_get d list_key = Some (JArr R) /\
    T = Z.of_nat (list_sum (map count R)) + extra.

(** ** Conditions on the server *)

(** The request is answered with status 200 and the JSON [body]. *)
Definition answers (E : env) (rq : request) (body : json) : Prop :=
  exists r, serve E rq = Answer r /\ status_code r = 200 /\ json_body r = Some body.

(** The request is answered with status 200 and the text [content]. *)
Definition answers_text (E : env) (rq : request) (content : string) : Prop :=
  exists r, serve E rq = Answer r /\ status_code r = 200 /\ text r = content.

(** The request is answered, with a status other than 200. *)
Definition declines (E : env) (rq : request) : Prop :=
  exists r, serve E rq = Answer r /\ status_code r <> 200.

(** The request fails: the transport raises, or the status is 4xx or 5xx. *)
Definition fails (E : env) (rq : request) : Prop :=
  serve E rq = ConnectionError \/
  exists r, serve E rq = Answer r /\
            (400 <=? status_code r) && (status_code r <? 600) = true.

(** The experiment-info fetch fails, or it finds no experiment: the body is
    not JSON or holds no (or an empty) ["experiment"]. *)
Definition experiment_unavailable (E : env) (experiment_id : json) : Prop :=
  fails E (ExperimentsGet experiment_id) \/
  exists r, serve E (ExperimentsGet experiment_id) = Answer r /\
            (400 <=? status_code r) && (status_code r <? 600) = false /\
            (json_body r = None \/
             exists body, json_body r = Some body /\
                          py_get body "experiment" (JObj []) = Ok (JObj [])).

(** An artifact whose path is a str that holds none of the keywords (an
    absent path counts as the empty str). *)
Definition quiet_artifact (keywords : list string) (artifact : json) : bool :=
  match py_get artifact "path" (JStr "") with
  | Ok (JStr path) => negb (any_in keywords (lower path))
  | _ => false
  end.

(** An artifact whose path holds a keyword and whose download answers 200
    with [content]. *)
Definition trace_artifact (E : env) (keywords : list string) (run_id artifact : json)
    (path content : string) : Prop :=
  py_get artifact "path" (JStr "") = Ok (JStr path) /\
  any_in keywords (lower path) = true /\
  answers_text E (ArtifactsDownload run_id (JStr path)) content.

(** The record the artifact fallback of [mlflow_trace_dumper.py] appends. *)
Definition fallback_record (path content : string) : json :=
  JObj [("trace_id", JStr path);
        ("content", JStr content);
        ("artifact_path", JStr path);
        ("size", JInt (Z.of_nat (str_len content)))].

(** The artifacts of a run as [mlflow_trace_dumper.py] sees them, with the
    records its fallback derives: at most one trace artifact among quiet
    ones. *)
Inductive artifacts_of (E : env) (run_id : json) : list json -> list json -> Prop :=
| all_quiet_artifacts files :
    forallb (quiet_artifact MLflowTraceDumper.trace_keywords) files = true ->
    artifacts_of E run_id files []
| one_trace_artifact before artifact after path content :
    forallb (quiet_artifact MLflowTraceDumper.trace_keywords) (before ++ after) = true ->
    trace_artifact E MLflowTraceDumper.trace_keywords run_id artifact path content ->
    artifacts_of E run_id (before ++ artifact :: after) [fallback_record path content].

(** The [artifact]-variant record of [experiment_trace_dumper.py]. *)
Definition artifact_record (path content : string) : json :=
  JObj [("trace_id", JStr path);
        ("source", JStr "artifact");
        ("artifact_path", JStr path);
        ("content", JStr content);
        ("size", JInt (Z.of_nat (str_len content)))].

(** The entry of [trace_files] in [mlflow/langraph_trace_dumper.py]. *)
Definition trace_file_record (path content : string) : json :=
  JObj [("path", JStr path);
        ("content", JStr content);
        ("size", JInt (Z.of_nat (str_len content)))].

(** The [metadata]-variant record of [experiment_trace_dumper.py]. *)
Definition metadata_record (E : env) (run_id : json) (trace_tags trace_params : dict)
  : json :=
  JObj [("trace_id", JStr ("metadata_trace_" ++ py_str E run_id));
        ("source", JStr "metadata");
        ("trace_tags", JObj trace_tags);
        ("trace_params", JObj trace_params);
        ("content", JStr (json_dumps E (JObj [("tags", JObj trace_tags);
                                              ("params", JObj trace_params)])))].

(** The key of a tag or parameter holds a keyword, whatever its case. *)
Definition key_matches (keywords : list string) (kv : string * json) : bool :=
  any_in keywords (lower (fst kv)).

(** The scan C4 describes: tag keys, tag values and parameter keys. *)
Definition scan_with_tag_values (keywords : list string) (tags params : dict) : bool :=
  existsb (fun kv => key_matches keywords kv
                     || match snd kv with
                        | JStr v => any_in keywords (lower v)
                        | _ => false
                        end) tags
  || existsb (key_matches keywords) params.

Fixpoint is_ascii_text (s : string) : bool :=
  match s with
  | EmptyString => true
  | String c s' => (nat_of_ascii c <? 128)%nat && is_ascii_text s'
  end.

(** [run['info']['run_id']] *)
Definition run_id_of (run : json) : res json :=
  match py_index run "info" with
  | Ok info => py_index info "run_id"
  | Raise e => Raise e
  end.

(** Trace search holds nothing for the run. *)
Definition no_api_traces (E : env) (run_id : json) : Prop :=
  declines E (TracesSearch run_id) \/
  exists body, answers E (TracesSearch run_id) body /\
               py_get body "traces" (JArr []) = Ok (JArr []).

(** No artifact of the run has a path that holds a keyword. *)
Definition no_trace_artifact (E : env) (keywords : list string) (run_id : json) : Prop :=
  declines E (ArtifactsList run_id) \/
  exists body files,
    answers E (ArtifactsList run_id) body /\
    py_get body "files" (JArr []) = Ok (JArr files) /\
    forallb (quiet_artifact keywords) files = true.

(** No tag key or parameter key of the run holds a keyword. *)
Definition no_trace_metadata (E : env) (keywords : list string) (run_id : json) : Prop :=
  declines E (RunsGet run_id) \/
  exists body run_data data tags params,
    answers E (RunsGet run_id) body /\
    py_get body "run" (JObj []) = Ok run_data /\
    py_get run_data "data" (JObj []) = Ok data /\
    py_get data "tags" (JObj []) = Ok (JObj tags) /\
    py_get data "params" (JObj []) = Ok (JObj params) /\
    existsb (key_matches keywords) tags = false /\
    existsb (key_matches keywords) params = false.

(** The run-detail fetch answers 200 with a run whose data is a dict, the
    metric history answers with a dict or declines, and the artifact listing
    answers 200 with [files]. *)
Definition detail_served (E : env) (run_id : json) (files : list json) : Prop :=
  (exists body run_data data,
      answers E (RunsGet run_id) body /\
      py_get body "run" (JObj []) = Ok run_data /\
      py_get run_data "data" (JObj []) = Ok (JObj data)) /\
  (declines E (MetricsGetHistory run_id) \/
   exists metrics, answers E (MetricsGetHistory run_id) (JObj metrics)) /\
  (exists body,
      answers E (ArtifactsList run_id) body /\
      py_get body "files" (JArr []) = Ok (JArr files)).

(** The three counts of a [dump_all_traces] document. *)
Definition totals (doc : json) : option Z * option Z * option Z :=
  (metadata_count "total_experiments" doc,
   metadata_count "total_runs" doc,
   metadata_count "total_traces" doc).

Definition requests (evs : list event) : list request :=
  flat_map (fun ev => match ev with Get rq => [rq] | _ => [] end) evs.

Definition save_failure : event :=
  Log ERROR "Failed to save trace dump to file: {e}".

End Doc.
Import Doc.

(** ** The dump methods in two phases

    Every run loop first computes something from the run alone and then
    records it in the document.  The definitions below name the two phases:
    what is gathered from the server, and the document built from it. *)

Module Shape.

(** [experiment_info.get('name', 'Unknown')] of an experiment dict. *)
Definition name_of (experiment_info : json) : json :=
  match py_get experiment_info "name" (JStr "Unknown") with
  | Ok name => name
  | Raise _ => JStr "Unknown"
  end.

(** [doc["runs"].append(entry); doc["metadata"]["total_traces"] += n] *)
Definition record_run (y : json * nat) (doc : json) : json :=
  in_item "runs" (append (fst y))
    (in_item "metadata" (in_item "total_traces" (add_int (Z.of_nat (snd y)))) doc).

Definition record_all (ys : list (json * nat)) (doc : json) : json :=
  fold_left (fun doc y => record_run y doc) ys doc.

Section Methods.
Variable E : env.

(** *** experiment_trace_dumper.py *)

(** What the run loop of [dump_experiment_traces] computes for one run: its
    entry of the run list and the number of its traces. *)
Definition collect_run (run : json) : M (json * nat) :=
  info <- lift (py_index run "info") ;;
  run_id <- lift (py_index info "run_id") ;;
  info <- lift (py_index run "info") ;;
  _ <- lift (py_get info "run_name" (JStr "Unknown")) ;;
  log INFO "Processing run: {run_name} (ID: {run_id})" ;;
  run_details <- ExperimentTraceDumper.get_run_details E run_id ;;
  traces <- ExperimentTraceDumper.get_traces_for_run E run_id ;;
  log INFO "  Found {len(traces)} traces for run {run_name}" ;;
  ret (JObj [("run_info", run);
             ("run_details", run_details);
             ("traces", JArr traces)], length traces).

(** The run list entry of a run: [run_data] of the run loop. *)
Definition run_entry (run : json) : json :=
  match run_id_of run with
  | Ok run_id =>
      JObj [("run_info", run);
            ("run_details", outcome JNull (ExperimentTraceDumper.get_run_details E run_id));
            ("traces", JArr (outcome [] (ExperimentTraceDumper.get_traces_for_run E run_id)))]
  | Raise _ => JNull
  end.

(** The run has an id and neither of its two fetches raises. *)
Definition processable (run : json) : bool :=
  match run_id_of run with
  | Ok run_id =>
      is_ok (value (ExperimentTraceDumper.get_run_details E run_id))
      && is_ok (value (ExperimentTraceDumper.get_traces_for_run E run_id))
  | Raise _ => false
  end.

(** The document of [dump_experiment_traces] with [total_traces] traces
    counted and the run entries [runs] stored. *)
Definition experiment_document (experiment_id experiment_info experiment_name : json)
    (now : string) (total_runs : nat) (total_traces : Z) (runs : list json) : json :=
  JObj [("metadata", JObj [("mlflow_url", JStr (mlflow_url E));
                           ("experiment_id", experiment_id);
                           ("experiment_name", experiment_name);
                           ("dump_timestamp", JStr now);
                           ("total_runs", JInt (Z.of_nat total_runs));
                           ("total_traces", JInt total_traces)]);
        ("experiment_info", experiment_info);
        ("runs", JArr runs)].

(** Everything [dump_experiment_traces] fetches: [None] when the experiment
    is not found, otherwise the experiment, its name, the number of runs and
    what was collected for each run. *)
Definition gather (experiment_id : json)
  : M (option (json * json * nat * list (json * nat))) :=
  log INFO "Starting trace dump for experiment {experiment_id}..." ;;
  experiment_info <- ExperimentTraceDumper.get_experiment_info E experiment_id ;;
  if negb (truthy experiment_info) then
    log ERROR "Experiment {experiment_id} not found" ;;
    ret None
  else
    experiment_name <- lift (py_get experiment_info "name" (JStr "Unknown")) ;;
    runs <- ExperimentTraceDumper.get_runs_for_experiment E experiment_id ;;
    n <- lift (py_len runs) ;;
    items <- lift (py_iter runs) ;;
    ys <- map_m collect_run items ;;
    ret (Some (experiment_info, experiment_name, n, ys)).

(** The tail common to the dump methods: save, report, return. *)
Definition deliver (document : json) (output_file : option string)
    (saved failed completed : string) : M json :=
  save E document output_file saved failed ;;
  log INFO completed ;;
  ret document.

Definition finish (experiment_id : json) (output_file : option string) (now : string)
    (gathered : option (json * json * nat * list (json * nat))) : M json :=
  match gathered with
  | None => ret (JObj [])
  | Some (experiment_info, experiment_name, n, ys) =>
      deliver
        (record_all ys
           (experiment_document experiment_id experiment_info experiment_name now n
              0 []))
        output_file
        "Experiment trace dump saved to: {output_file}"
        "Failed to save trace dump to file: {e}"
        "Experiment trace dump completed. Found {total_traces} traces across {total_runs} runs."
  end.

(** *** mlflow_trace_dumper.py, dump_experiment_traces *)

Definition single_document (experiment_id : json) (now : string) (total_runs : nat)
    (total_traces : Z) (runs : list json) : json :=
  JObj [("metadata", JObj [("mlflow_url", JStr (mlflow_url E));
                           ("experiment_id", experiment_id);
                           ("dump_timestamp", JStr now);
                           ("total_runs", JInt (Z.of_nat total_runs));
                           ("total_traces", JInt total_traces)]);
        ("runs", JArr runs)].

Definition single_attach : json -> M (json * nat) :=
  MLflowTraceDumper.attach_trace_data E "Processing run: {run_name} (ID: {run_id})".

(** The run as the run loop leaves it, with its [trace_data] entry. *)
Definition attached (run : json) : json :=
  fst (outcome (JNull, O) (single_attach run)).

Definition single_gather (experiment_id : json) : M (nat * list (json * nat)) :=
  log INFO "Starting trace dump for experiment {experiment_id}..." ;;
  runs <- MLflowTraceDumper.get_runs_for_experiment E experiment_id ;;
  n <- lift (py_len runs) ;;
  items <- lift (py_iter runs) ;;
  ys <- map_m single_attach items ;;
  ret (n, ys).

Definition single_finish (experiment_id : json) (output_file : option string)
    (now : string) (gathered : nat * list (json * nat)) : M json :=
  deliver
    (record_all (snd gathered)
       (single_document experiment_id now (fst gathered) 0 []))
    output_file
    "Experiment trace dump saved to: {output_file}"
    "Failed to save trace dump to file: {e}"
    "Experiment trace dump completed. Found {total_traces} traces across {total_runs} runs.".

(** *** The experiment loop of both [dump_all_traces] methods, over the run
    loop body [attach] of the script. *)
Definition experiment_step_over (attach : json -> M (json * nat))
    (experiment : json) (all_traces : json) : M json :=
  experiment_id <- lift (py_index experiment "experiment_id") ;;
  _ <- lift (py_get experiment "name" (JStr "Unknown")) ;;
  log INFO "Processing experiment: {experiment_name} (ID: {experiment_id})" ;;
  let experiment_data := JObj [("experiment_info", experiment);
                               ("runs", JArr [])] in
  runs <- Fetchers.get_runs_for_experiment E experiment_id ;;
  n <- lift (py_len runs) ;;
  let all_traces :=
    in_item "metadata" (in_item "total_runs" (add_int (Z.of_nat n))) all_traces in
  items <- lift (py_iter runs) ;;
  state <- for_each items (fun run state =>
    run_n <- attach run ;;
    ret (MLflowTraceDumper.add_total_traces (snd run_n) (fst state),
         snd state ++ [fst run_n]))
    (all_traces, []) ;;
  let experiment_data :=
    set_item "runs" (MLflowTraceDumper.runs_after_loop runs (snd state))
      experiment_data in
  ret (in_item "experiments" (append experiment_data) (fst state)).

End Methods.

(** What a [dump_all_traces] document counts for one experiment entry. *)
Definition per_experiment (count : json -> nat) (experiment_data : json) : nat :=
  list_sum (map count (items_of (field "runs" experiment_data))).

End Shape.
Import Shape.

(** ** Further vocabulary: what a computation lets escape and which files it touches *)

Module Effects.

(** No [RequestException] leaves the computation. *)
Definition calm {A} (m : M A) : Prop := value m <> Raise RequestException.

(** The file events of a list of events, in order. *)
Definition file_events (evs : list event) : list event :=
  flat_map (fun ev => match ev with
                      | FileOpened _ | FileWritten _ _ => [ev]
                      | _ => []
                      end) evs.

(** The computation touches no file. *)
Definition dry {A} (m : M A) : Prop := file_events (events m) = [].

(** The file events of saving [doc] to [path]: the file is opened for
    writing, and holds the document when the write completes; when it does
    not, the file is left as the failed write left it. *)
Definition save_events (E : env) (path : string) (doc : json) : list event :=
  if writable E path then [FileOpened path; FileWritten path doc]
  else [FileOpened path].

(** The file events of a dump: it saves the returned document to
    [output_file] when the path is not empty and a document (not the empty
    dict of an experiment that was not found) is returned, and touches no
    file otherwise. *)
Definition expected_file_events (E : env) (output_file : option string)
    (result : res json) : list event :=
  match output_file, result with
  | Some path, Ok doc =>
      if negb (String.eqb path "") && truthy doc then save_events E path doc else []
  | _, _ => []
  end.

(** The computation saves its result to [output_file] when the path is not
    empty, and touches no other file. *)
Definition saves_result (E : env) (output_file : option string) (m : M json) : Prop :=
  file_events (events m) =
  match output_file, value m with
  | Some path, Ok doc =>
      if negb (String.eqb path "") then save_events E path doc else []
  | _, _ => []
  end.

End Effects.
Import Effects.

(** ** Further vocabulary: what the passes produce *)

Module Passes.

Definition is_dict (j : json) : bool :=
  match j with JObj _ => true | _ => false end.

(** The record the API pass of [experiment_trace_dumper.py] appends for
    [trace] when [index] records are already in the list. *)
Definition api_record (E : env) (index : nat) (trace : json) : json :=
  JObj [("trace_id",
         match py_get trace "trace_id" (JStr ("api_trace_" ++ str_of_nat index)) with
         | Ok trace_id => trace_id
         | Raise _ => JNull
         end);
        ("source", JStr "api");
        ("data", trace);
        ("content", JStr (json_dumps E trace))].

Fixpoint api_records (E : env) (index : nat) (traces : list json) : list json :=
  match traces with
  | [] => []
  | trace :: rest => api_record E index trace :: api_records E (S index) rest
  end.

(** An artifact that is a dict whose path, when present, is a str. *)
Definition well_formed_artifact (artifact : json) : bool :=
  match py_get artifact "path" (JStr "") with
  | Ok (JStr _) => true
  | _ => false
  end.

(** What the artifact pass of [experiment_trace_dumper.py] derives from one
    well-formed artifact: a record when the path holds a keyword and the
    download answers 200, nothing otherwise. *)
Definition artifact_yield (E : env) (run_id artifact : json) : list json :=
  match py_get artifact "path" (JStr "") with
  | Ok (JStr path) =>
      if any_in ExperimentTraceDumper.artifact_keywords (lower path) then
        match serve E (ArtifactsDownload run_id (JStr path)) with
        | Answer r =>
            if status_code r =? 200 then [artifact_record path (text r)] else []
        | ConnectionError => []
        end
      else []
  | _ => []
  end.

(** The download the artifact pass requests for one artifact: its path when
    it is a str that holds a keyword. *)
Definition trace_path (keywords : list string) (artifact : json) : list json :=
  match py_get artifact "path" (JStr "") with
  | Ok (JStr path) => if any_in keywords (lower path) then [JStr path] else []
  | _ => []
  end.

(** The request is answered without an error status, with the JSON [body]. *)
Definition accepted (E : env) (rq : request) (body : json) : Prop :=
  exists r, serve E rq = Answer r /\
            (400 <=? status_code r) && (status_code r <? 600) = false /\
            json_body r = Some body.

(** The three ways a listing request that is only read on status 200 can
    turn out.  [listed]: it contributes [items], the list under [key] of a
    200 answer, or the empty list when the status is not 200.  [broken]: it
    raises a [RequestException], by a transport error or a 200 answer whose
    body is not JSON.  [malformed]: it answers 200 with JSON that is not a
    dict. *)
Definition listed (E : env) (rq : request) (key : string) (items : json) : Prop :=
  (declines E rq /\ items = JArr []) \/
  exists body, answers E rq body /\ py_get body key (JArr []) = Ok items.

Definition broken (E : env) (rq : request) : Prop :=
  serve E rq = ConnectionError \/
  exists r, serve E rq = Answer r /\ status_code r = 200 /\ json_body r = None.

Definition malformed (E : env) (rq : request) (key : string) : Prop :=
  exists body e, answers E rq body /\ py_get body key (JArr []) = Raise e.

(** The request fails, or is answered with a body that is not JSON. *)
Definition unusable (E : env) (rq : request) : Prop :=
  fails E rq \/
  exists r, serve E rq = Answer r /\ json_body r = None.

End Passes.
Import Passes.

(** ** Further vocabulary: the documents of the dumps over all experiments *)

Module Documents.

(** [all_traces] of both [dump_all_traces] methods when the experiment loop
    starts: [total_experiments] is set, nothing else is counted. *)
Definition all_document (E : env) (now : string) (total_experiments : nat) : json :=
  JObj [("metadata", JObj [("mlflow_url", JStr (mlflow_url E));
                           ("dump_timestamp", JStr now);
                           ("total_experiments", JInt (Z.of_nat total_experiments));
                           ("total_runs", JInt 0);
                           ("total_traces", JInt 0)]);
        ("experiments", JArr [])].

(** [all_traces] of [dump_langraph_traces] when the experiment loop starts. *)
Definition langraph_document (E : env) (now : string) (total_experiments : nat) : json :=
  JObj [("metadata", JObj [("mlflow_url", JStr (mlflow_url E));
                           ("dump_timestamp", JStr now);
                           ("total_experiments", JInt (Z.of_nat total_experiments));
                           ("total_runs", JInt 0);
                           ("total_langraph_traces", JInt 0)]);
        ("langraph_traces", JArr [])].

(** What [_is_langraph_trace] looks at, for a run with the tags [tags], the
    run name [run_name] and the experiment id [experiment_id]: every tag key
    and the text of every tag value, then the run name, then the experiment
    id. *)
Definition langraph_hit (E : env) (tags : dict) (run_name experiment_id : string) : bool :=
  existsb (fun kv =>
             any_in LangGraphTraceDumper.run_keywords (lower (fst kv))
             || any_in LangGraphTraceDumper.run_keywords (lower (py_str E (snd kv))))
          tags
  || any_in LangGraphTraceDumper.run_keywords (lower run_name)
  || any_in LangGraphTraceDumper.run_keywords (lower experiment_id).

End Documents.
Import Documents.

(** ** Further vocabulary: the effects of [main] *)

Module MainEffects.
Import ExperimentTraceDumperMain.

(** The lines printed, in order. *)
Definition printed (effects : list effect) : list string :=
  flat_map (fun ef => match ef with Print line => [line] | _ => [] end) effects.

(** The events of the dumper, in order. *)
Definition dumper_events (effects : list effect) : list event :=
  flat_map (fun ef => match ef with Of ev => [ev] | _ => [] end) effects.

(** The line of the trace breakdown for one run entry. *)
Definition run_line (E : env) (run : json) : string :=
  let info := field "info" (field "run_info" run) in
  "  - "
  ++ py_str E (match py_get info "run_name" (JStr "Unknown") with
               | Ok run_name => run_name
               | Raise _ => JNull
               end)
  ++ " (" ++ py_str E (field "run_id" info) ++ "): "
  ++ str_of_nat (size_of (field "traces" run)) ++ " traces".

Definition summary_header : string :=
  newline ++ "=== Experiment Trace Dump Summary ===".

(** The lines of the summary of the document [traces], in order. *)
Definition summary_lines (E : env) (traces : json) (output : string) : list string :=
  let metadata := field "metadata" traces in
  [summary_header;
   "Experiment ID: " ++ py_str E (field "experiment_id" metadata);
   "Experiment Name: " ++ py_str E (field "experiment_name" metadata);
   "MLflow URL: " ++ py_str E (field "mlflow_url" metadata);
   "Dump timestamp: " ++ py_str E (field "dump_timestamp" metadata);
   "Total runs: " ++ py_str E (field "total_runs" metadata);
   "Total traces found: " ++ py_str E (field "total_traces" metadata);
   "Output file: " ++ output]%string
  ++ match py_positive (field "total_traces" metadata) with
     | Ok true =>
         (newline ++ "Trace breakdown by run:")%string
         :: map (run_line E) (items_of (field "runs" traces))
     | _ => []
     end.

(** The lines [main] tries to print for the document the dump returns: the
    summary, of which only the header is reached for the empty dict of an
    experiment that was not found. *)
Definition attempted_lines (E : env) (traces : json) (output : string) : list string :=
  if truthy traces then summary_lines E traces output else [summary_header].

(** The lines that get printed when [lines] are printed in order: those
    before the first one that standard output refuses. *)
Fixpoint printable_prefix (accepts : string -> bool) (lines : list string) : list string :=
  match lines with
  | [] => []
  | line :: rest => if accepts line then line :: printable_prefix accepts rest else []
  end.

End MainEffects.
Import MainEffects.

(** ** Concrete servers *)

Module Examples.

Definition ok (body : json) : reply :=
  Answer {| status_code := 200; text := ""; json_body := Some body |}.

Definition ok_text (content : string) : reply :=
  Answer {| status_code := 200; text := content; json_body := None |}.

Definition status (code : Z) : reply :=
  Answer {| status_code := code; text := ""; json_body := None |}.

Definition env_of (server : request -> reply) : env :=
  {| mlflow_url := "http://localhost:5000";
     serve := server;
     writable := fun _ => true;
     json_dumps := fun _ => "<json>";
     py_repr := fun _ => "<value>" |}.

Definition exp1 : json :=
  JObj [("experiment_id", JStr "exp-1"); ("name", JStr "demo")].

Definition run_named (run_id : string) : json :=
  JObj [("info", JObj [("run_id", JStr run_id); ("run_name", JStr run_id)])].

(** One experiment ["exp-1"] with two runs: ["r1"] holds the artifact
    ["run/trace.json"] next to a model file, ["r2"] holds nothing.  Trace
    search answers with [traces_status]. *)
Definition two_runs (traces_status : Z) (rq : request) : reply :=
  match rq with
  | ExperimentsList => ok (JObj [("experiments", JArr [exp1])])
  | ExperimentsGet (JStr "exp-1") => ok (JObj [("experiment", exp1)])
  | RunsSearch (JStr "exp-1") _ =>
      ok (JObj [("runs", JArr [run_named "r1"; run_named "r2"])])
  | RunsGet (JStr "r1") => ok (JObj [("run", run_named "r1")])
  | RunsGet (JStr "r2") => ok (JObj [("run", run_named "r2")])
  | MetricsGetHistory _ => ok (JObj [("metrics", JArr [])])
  | ArtifactsList (JStr "r1") =>
      ok (JObj [("files", JArr [JObj [("path", JStr "model/model.pkl")];
                                JObj [("path", JStr "run/trace.json")]])])
  | ArtifactsList _ => ok (JObj [("files", JArr [])])
  | ArtifactsDownload (JStr "r1") (JStr "run/trace.json") => ok_text "{}"
  | TracesSearch _ =>
      Answer {| status_code := traces_status; text := "";
                json_body := Some (JObj [("traces", JArr [])]) |}
  | _ => status 404
  end.

(** One experiment with one run that has no artifacts, tags or traces. *)
Definition bare_run (rq : request) : reply :=
  match rq with
  | ExperimentsList => ok (JObj [("experiments", JArr [exp1])])
  | RunsSearch (JStr "exp-1") _ => ok (JObj [("runs", JArr [run_named "r1"])])
  | RunsGet (JStr "r1") => ok (JObj [("run", run_named "r1")])
  | ArtifactsList _ => ok (JObj [("files", JArr [])])
  | _ => status 404
  end.

(** A run with one trace behind the traces API and one trace artifact; the
    run-detail fetch answers with [detail]. *)
Definition api_and_artifact (detail : reply) (rq : request) : reply :=
  match rq with
  | TracesSearch (JStr "r1") =>
      ok (JObj [("traces", JArr [JObj [("trace_id", JStr "tr-1")]])])
  | ArtifactsList (JStr "r1") =>
      ok (JObj [("files", JArr [JObj [("path", JStr "run/trace.json")]])])
  | ArtifactsDownload (JStr "r1") (JStr "run/trace.json") => ok_text "{}"
  | RunsGet (JStr "r1") => detail
  | _ => status 404
  end.

(** A run whose tags are [tags] and that has nothing else. *)
Definition tagged_run (tags : dict) (rq : request) : reply :=
  match rq with
  | RunsGet (JStr "r1") =>
      ok (JObj [("run", JObj [("info", JObj [("run_id", JStr "r1")]);
                              ("data", JObj [("tags", JObj tags);
                                             ("params", JObj [("epochs", JStr "3")])])])])
  | _ => status 404
  end.

(** The two bytes of the UTF-8 encoding of U+00E9, one character. *)
Definition e_acute : string :=
  String (ascii_of_nat 195) (String (ascii_of_nat 169) EmptyString).

(** The three bytes of the UTF-8 encoding of U+212A, the Kelvin sign, whose
    lower case is [k]. *)
Definition kelvin_sign : string :=
  String (ascii_of_nat 226) (String (ascii_of_nat 132)
    (String (ascii_of_nat 170) EmptyString)).

(** A run with two artifacts: ["out/wor<U+212A>flow_trace"], which only
    matches a pattern once it is lowered, and ["run/trace.json"]. *)
Definition kelvin_artifacts (rq : request) : reply :=
  match rq with
  | ArtifactsList (JStr "r1") =>
      ok (JObj [("files",
                 JArr [JObj [("path", JStr ("out/wor" ++ kelvin_sign ++ "flow_trace"))];
                       JObj [("path", JStr "run/trace.json")]])])
  | ArtifactsDownload (JStr "r1") _ => ok_text "{}"
  | _ => status 404
  end.

(** A run whose only artifact, ["run/trace.json"], holds [content]. *)
Definition one_artifact (content : string) (rq : request) : reply :=
  match rq with
  | ArtifactsList (JStr "r1") =>
      ok (JObj [("files", JArr [JObj [("path", JStr "run/trace.json")]])])
  | ArtifactsDownload (JStr "r1") (JStr "run/trace.json") => ok_text content
  | _ => status 404
  end.

(** Three runs; the run-detail fetch of ["r2"] answers with status 500. *)
Definition middle_run_fails (rq : request) : reply :=
  match rq with
  | RunsSearch (JStr "exp-1") _ =>
      ok (JObj [("runs", JArr [run_named "r1"; run_named "r2"; run_named "r3"])])
  | RunsGet (JStr "r1") => ok (JObj [("run", run_named "r1")])
  | RunsGet (JStr "r2") => status 500
  | RunsGet (JStr "r3") => ok (JObj [("run", run_named "r3")])
  | ArtifactsList (JStr "r3") =>
      ok (JObj [("files", JArr [JObj [("path", JStr "agent.log")]])])
  | ArtifactsDownload (JStr "r3") (JStr "agent.log") => ok_text "step 1"
  | ArtifactsList _ => ok (JObj [("files", JArr [])])
  | _ => status 404
  end.

End Examples.

(** ** Further servers *)

Module MoreExamples.
Import Examples.

(** A server that answers every request with status 500. *)
Definition broken (rq : request) : reply := status 500.

(** A server whose transport fails for every request. *)
Definition unreachable (rq : request) : reply := ConnectionError.

(** Trace search holds one trace with an id and two without. *)
Definition three_api_traces (rq : request) : reply :=
  match rq with
  | TracesSearch (JStr "r1") =>
      ok (JObj [("traces", JArr [JObj [("step", JInt 1)];
                                 JObj [("trace_id", JStr "tr-7")];
                                 JObj [("step", JInt 3)]])])
  | _ => status 404
  end.

(** Three artifacts with a keyword in the path: the first downloads, the
    second answers 403, the transport fails for the third. *)
Definition flaky_downloads (rq : request) : reply :=
  match rq with
  | ArtifactsList (JStr "r1") =>
      ok (JObj [("files", JArr [JObj [("path", JStr "a/trace.json")];
                                JObj [("path", JStr "b/agent.log")];
                                JObj [("path", JStr "c/Flow.txt")];
                                JObj [("path", JStr "model.pkl")]])])
  | ArtifactsDownload (JStr "r1") (JStr "a/trace.json") => ok_text "[]"
  | ArtifactsDownload (JStr "r1") (JStr "b/agent.log") => status 403
  | ArtifactsDownload (JStr "r1") (JStr "c/Flow.txt") => ConnectionError
  | _ => status 404
  end.

(** The run record is served; the metric history answers with [metrics] and
    the artifact listing with [artifacts]. *)
Definition details (metrics artifacts : reply) (rq : request) : reply :=
  match rq with
  | RunsGet (JStr "r1") => ok (JObj [("run", run_named "r1")])
  | MetricsGetHistory (JStr "r1") => metrics
  | ArtifactsList (JStr "r1") => artifacts
  | _ => status 404
  end.

(** One experiment with three runs: the name of the first holds a keyword,
    the name of the second does not, and the third cannot be fetched. *)
Definition mixed_runs (rq : request) : reply :=
  match rq with
  | ExperimentsList => ok (JObj [("experiments", JArr [exp1])])
  | RunsSearch (JStr "exp-1") _ =>
      ok (JObj [("runs", JArr [run_named "agent-1"; run_named "baseline";
                               run_named "lost"])])
  | RunsGet (JStr "agent-1") => ok (JObj [("run", run_named "agent-1")])
  | RunsGet (JStr "baseline") => ok (JObj [("run", run_named "baseline")])
  | _ => status 404
  end.

(** The arguments [--mlflow_url http://localhost:5000/ --experiment_id <id>]. *)
Definition args_for (experiment_id : string) : ExperimentTraceDumperMain.args :=
  {| ExperimentTraceDumperMain.arg_mlflow_url := "http://localhost:5000/";
     ExperimentTraceDumperMain.arg_experiment_id := experiment_id;
     ExperimentTraceDumperMain.arg_username := None;
     ExperimentTraceDumperMain.arg_password := None;
     ExperimentTraceDumperMain.arg_output := None;
     ExperimentTraceDumperMain.arg_verbose := false |}.

(** The server [two_runs] behind a health endpoint that answers [health],
    with a standard output that accepts the lines [accepts] holds for. *)
Definition world_of (health : reply) (accepts : string -> bool)
  : ExperimentTraceDumperMain.world :=
  {| ExperimentTraceDumperMain.health := health;
     ExperimentTraceDumperMain.printable := accepts;
     ExperimentTraceDumperMain.base := env_of (two_runs 200) |}.

(** A standard output that cannot encode the name of the experiment. *)
Definition refuses_name (line : string) : bool :=
  negb (String.eqb line "Experiment Name: demo").

End MoreExamples.

(** ** Laws of computations *)

Module Laws.

Lemma bind_ret_l {A B} (a : A) (f : A -> M B) : bind (ret a) f = f a.
Proof. unfold bind, ret. destruct (f a). reflexivity. Qed.

Lemma bind_ret_r {A} (m : M A) : bind m ret = m.
Proof. destruct m as [l [a|e]]; cbn; [rewrite app_nil_r|]; reflexivity. Qed.

Lemma bind_assoc {A B C} (m : M A) (f : A -> M B) (g : B -> M C) :
  bind (bind m f) g = bind m (fun a => bind (f a) g).
Proof.
  destruct m as [l [a|e]]; cbn; [|reflexivity].
  destruct (f a) as [l1 [b|e]]; cbn; [|reflexivity].
  destruct (g b) as [l2 r]. rewrite app_assoc. reflexivity.
Qed.

Lemma bind_ext {A B} (m : M A) (f g : A -> M B) :
  (forall a, f a = g a) -> bind m f = bind m g.
Proof. intros H. destruct m as [l [a|e]]; cbn; [rewrite H|]; reflexivity. Qed.

Lemma value_bind {A B} (m : M A) (f : A -> M B) :
  value (bind m f) =
  match value m with Ok a => value (f a) | Raise e => Raise e end.
Proof.
  destruct m as [l [a|e]]; cbn; [|reflexivity]. destruct (f a); reflexivity.
Qed.

Lemma events_bind {A B} (m : M A) (f : A -> M B) :
  events (bind m f) =
  events m ++ match value m with Ok a => events (f a) | Raise _ => [] end.
Proof.
  destruct m as [l [a|e]]; cbn; [|rewrite app_nil_r; reflexivity].
  destruct (f a); reflexivity.
Qed.

Lemma value_bind_ok {A B} (m : M A) (f : A -> M B) (b : B) :
  value (bind m f) = Ok b -> exists a, value m = Ok a /\ value (f a) = Ok b.
Proof.
  rewrite value_bind. destruct (value m) as [a|e]; [eauto|discriminate].
Qed.

Lemma value_bind_of {A B} (m : M A) (f : A -> M B) (a : A) :
  value m = Ok a -> value (bind m f) = value (f a).
Proof. intros H. rewrite value_bind, H. reflexivity. Qed.

Lemma value_lift {A} (r : res A) : value (lift r) = r.
Proof. reflexivity. Qed.

Lemma value_try_request {A} (m h : M A) :
  value (try_request m h) =
  match value m with Raise RequestException => value h | r => r end.
Proof.
  destruct m as [l [a|[|]]]; cbn; try reflexivity. destruct h; reflexivity.
Qed.

Lemma value_try_any {A} (m h : M A) :
  value (try_any m h) =
  match value m with Raise _ => value h | r => r end.
Proof.
  destruct m as [l [a|e]]; cbn; try reflexivity. destruct h; reflexivity.
Qed.

Lemma events_try_request {A} (m h : M A) :
  events (try_request m h) =
  events m ++ match value m with Raise RequestException => events h | _ => [] end.
Proof.
  destruct m as [l [a|[|]]]; cbn; rewrite ?app_nil_r; try reflexivity.
  destruct h; reflexivity.
Qed.

(** A loop whose body computes something from the item alone and then
    records it in the state is the list of those computations followed by
    the recording. *)
Lemma for_each_collect {A B S} (g : A -> M B) (upd : B -> S -> S)
      (body : A -> S -> M S) :
  (forall x s, body x s = bind (g x) (fun y => ret (upd y s))) ->
  forall items s,
    for_each items body s =
    bind (map_m g items) (fun ys => ret (fold_left (fun s y => upd y s) ys s)).
Proof.
  intros H items. induction items as [|x rest IH]; intros s; cbn [for_each map_m].
  - rewrite bind_ret_l. reflexivity.
  - rewrite H, !bind_assoc. apply bind_ext. intros y.
    rewrite bind_ret_l, IH, bind_assoc. apply bind_ext. intros ys.
    rewrite bind_ret_l. reflexivity.
Qed.

Lemma map_m_ok {A B} (g : A -> M B) (items : list A) (ys : list B) :
  value (map_m g items) = Ok ys ->
  Forall2 (fun x y => value (g x) = Ok y) items ys.
Proof.
  revert ys. induction items as [|x rest IH]; intros ys H; cbn in H.
  - injection H as <-. constructor.
  - apply value_bind_ok in H as (y & Hy & H).
    apply value_bind_ok in H as (ys' & Hys & H).
    injection H as <-. constructor; auto.
Qed.

Lemma map_m_all_ok {A B} (d : B) (g : A -> M B) (items : list A) :
  Forall (fun x => is_ok (value (g x)) = true) items ->
  value (map_m g items) = Ok (map (fun x => outcome d (g x)) items).
Proof.
  induction 1 as [|x rest Hx _ IH]; cbn [map_m map]; [reflexivity|].
  rewrite !value_bind. unfold outcome at 1.
  destruct (value (g x)) as [y|e]; [|discriminate].
  rewrite value_bind, IH. reflexivity.
Qed.

(** A property of the state that every iteration preserves holds after the
    loop. *)
Lemma for_each_invariant {A S} (P : S -> Prop) (body : A -> S -> M S)
      (items : list A) :
  (forall x s s', In x items -> P s -> value (body x s) = Ok s' -> P s') ->
  forall s s', P s -> value (for_each items body s) = Ok s' -> P s'.
Proof.
  induction items as [|x rest IH]; intros Hbody s s' Hs H; cbn in H.
  - injection H as <-. exact Hs.
  - apply value_bind_ok in H as (s1 & H1 & H).
    apply (IH (fun y t t' Hy => Hbody y t t' (or_intror Hy)) s1 s'); [|exact H].
    apply (Hbody x s s1); [left; reflexivity|exact Hs|exact H1].
Qed.

(** *** Dicts *)

Lemma dict_get_update_same d k f :
  dict_get (dict_update d k f) k = option_map f (dict_get d k).
Proof.
  induction d as [|[k' v] d IH]; cbn; [reflexivity|].
  destruct (String.eqb k' k) eqn:Hk; cbn; rewrite Hk; auto.
Qed.

Lemma dict_get_update_other d k k' f :
  k <> k' -> dict_get (dict_update d k' f) k = dict_get d k.
Proof.
  intros Hne. induction d as [|[k0 v] d IH]; cbn; [reflexivity|].
  destruct (String.eqb k0 k') eqn:Hk'; cbn.
  - apply String.eqb_eq in Hk'. subst k0.
    destruct (String.eqb_spec k' k); [congruence|reflexivity].
  - rewrite IH. reflexivity.
Qed.

Lemma dict_get_set_same d k v : dict_get (dict_set d k v) k = Some v.
Proof.
  induction d as [|[k' v'] d IH]; cbn.
  - rewrite String.eqb_refl. reflexivity.
  - destruct (String.eqb k' k) eqn:Hk; cbn; rewrite Hk; auto.
Qed.

Lemma dict_get_set_other d k k' v :
  k <> k' -> dict_get (dict_set d k' v) k = dict_get d k.
Proof.
  intros Hne. induction d as [|[k0 v0] d IH]; cbn.
  - destruct (String.eqb_spec k' k); [congruence|reflexivity].
  - destruct (String.eqb k0 k') eqn:Hk'; cbn.
    + apply String.eqb_eq in Hk'. subst k0.
      destruct (String.eqb_spec k' k); [congruence|reflexivity].
    + rewrite IH. reflexivity.
Qed.

Lemma field_set_item_same k v d : field k (JObj (dict_set d k v)) = v.
Proof. cbn. rewrite dict_get_set_same. reflexivity. Qed.

Lemma field_set_item_other k k' v j :
  k <> k' -> field k (set_item k' v j) = field k j.
Proof.
  intros Hne. destruct j; try reflexivity. cbn.
  rewrite dict_get_set_other by exact Hne. reflexivity.
Qed.

Lemma py_index_dict j k v : py_index j k = Ok v -> exists d, j = JObj d.
Proof. destruct j; try discriminate. eauto. Qed.

Lemma py_get_dict j k dflt v : py_get j k dflt = Ok v -> exists d, j = JObj d.
Proof. destruct j; try discriminate. eauto. Qed.

(** *** Requests *)

Lemma value_session_get E rq r :
  serve E rq = Answer r -> value (session_get E rq) = Ok r.
Proof. intros H. unfold session_get. rewrite H. reflexivity. Qed.

Lemma value_session_get_error E rq :
  serve E rq = ConnectionError ->
  value (session_get E rq) = Raise RequestException.
Proof. intros H. unfold session_get. rewrite H. reflexivity. Qed.

Lemma value_response_json r body :
  json_body r = Some body -> value (response_json r) = Ok body.
Proof. intros H. unfold response_json. rewrite H. reflexivity. Qed.

Lemma value_raise_for_status_200 r :
  status_code r = 200 -> value (raise_for_status r) = Ok tt.
Proof. intros H. unfold raise_for_status. rewrite H. reflexivity. Qed.

(** *** The save block *)

Lemma value_save E doc out saved failed : value (save E doc out saved failed) = Ok tt.
Proof.
  unfold save. destruct out as [path|]; [|reflexivity].
  destruct (negb (path =? "")%string); [|reflexivity].
  rewrite value_try_any, value_bind. unfold write_json.
  destruct (writable E path); reflexivity.
Qed.

(** *** The tally invariant *)

Lemma tallied_count ck lk c extra n doc :
  lk <> "metadata" ->
  tallied ck lk c extra doc ->
  tallied ck lk c (extra + n) (in_item "metadata" (in_item ck (add_int n)) doc).
Proof.
  intros Hlk (d & md & T & R & -> & Hmd & HT & HR & ->).
  exists (dict_update d "metadata" (in_item ck (add_int n))),
         (dict_update md ck (add_int n)),
         (Z.of_nat (list_sum (map c R)) + extra + n), R.
  repeat split.
  - rewrite dict_get_update_same, Hmd. reflexivity.
  - rewrite dict_get_update_same, HT. reflexivity.
  - rewrite dict_get_update_other by exact Hlk. exact HR.
  - lia.
Qed.

Lemma tallied_append ck lk c extra x doc :
  lk <> "metadata" ->
  tallied ck lk c extra doc ->
  tallied ck lk c (extra - Z.of_nat (c x)) (in_item lk (append x) doc).
Proof.
  intros Hlk (d & md & T & R & -> & Hmd & HT & HR & ->).
  exists (dict_update d lk (append x)), md,
         (Z.of_nat (list_sum (map c R)) + extra), (R ++ [x]).
  repeat split.
  - rewrite dict_get_update_other by congruence. exact Hmd.
  - exact HT.
  - rewrite dict_get_update_same, HR. reflexivity.
  - rewrite map_app, list_sum_app. cbn. lia.
Qed.

Lemma tallied_meta_set ck lk c extra k v doc :
  k <> ck -> lk <> "metadata" ->
  tallied ck lk c extra doc ->
  tallied ck lk c extra (in_item "metadata" (set_item k v) doc).
Proof.
  intros Hk Hlk (d & md & T & R & -> & Hmd & HT & HR & ->).
  exists (dict_update d "metadata" (set_item k v)), (dict_set md k v),
         (Z.of_nat (list_sum (map c R)) + extra), R.
  repeat split.
  - rewrite dict_get_update_same, Hmd. reflexivity.
  - rewrite dict_get_set_other by congruence. exact HT.
  - rewrite dict_get_update_other by exact Hlk. exact HR.
Qed.

Lemma tallied_meta_update ck lk c extra k f doc :
  k <> ck -> lk <> "metadata" ->
  tallied ck lk c extra doc ->
  tallied ck lk c extra (in_item "metadata" (in_item k f) doc).
Proof.
  intros Hk Hlk (d & md & T & R & -> & Hmd & HT & HR & ->).
  exists (dict_update d "metadata" (in_item k f)), (dict_update md k f),
         (Z.of_nat (list_sum (map c R)) + extra), R.
  repeat split.
  - rewrite dict_get_update_same, Hmd. reflexivity.
  - rewrite dict_get_update_other by congruence. exact HT.
  - rewrite dict_get_update_other by exact Hlk. exact HR.
Qed.

Lemma tallied_read ck lk c doc :
  tallied ck lk c 0 doc ->
  metadata_count ck doc =
  Some (Z.of_nat (list_sum (map c (items_of (field lk doc))))).
Proof.
  intros (d & md & T & R & -> & Hmd & HT & HR & ->).
  unfold metadata_count, field. rewrite Hmd, HT, HR. cbn.
  rewrite Z.add_0_r. reflexivity.
Qed.

Lemma tallied_extra ck lk c extra extra' doc :
  extra = extra' -> tallied ck lk c extra doc -> tallied ck lk c extra' doc.
Proof. intros ->. exact id. Qed.

Lemma list_sum_flat_map {A B} (c : B -> nat) (f : A -> list B) (l : list A) :
  list_sum (map c (flat_map f l)) =
  list_sum (map (fun x => list_sum (map c (f x))) l).
Proof.
  induction l as [|x l IH]; cbn; [reflexivity|].
  rewrite map_app, list_sum_app, IH. reflexivity.
Qed.

End Laws.

(** ** The aggregate count of each dump method *)

Module Tally.
Import Laws.

Section Methods.
Variable E : env.

(** *** experiment_trace_dumper.py *)

Lemma etd_run_step_tallied run doc doc' :
  tallied "total_traces" "runs" (counted_for_run ExperimentDump) 0 doc ->
  value (ExperimentTraceDumper.run_step E run doc) = Ok doc' ->
  tallied "total_traces" "runs" (counted_for_run ExperimentDump) 0 doc'.
Proof.
  intros Hdoc H. unfold ExperimentTraceDumper.run_step in H.
  repeat (apply value_bind_ok in H as (? & _ & H)).
  injection H as <-.
  eapply tallied_extra; [|apply tallied_append; [discriminate|];
                          apply tallied_count; [discriminate|exact Hdoc]].
  cbn. lia.
Qed.

Lemma etd_tally eid out now doc :
  value (ExperimentTraceDumper.dump_experiment_traces E eid out now) = Ok doc ->
  doc <> JObj [] ->
  tallied "total_traces" "runs" (counted_for_run ExperimentDump) 0 doc.
Proof.
  intros H Hne. unfold ExperimentTraceDumper.dump_experiment_traces in H.
  apply value_bind_ok in H as (_ & _ & H).
  apply value_bind_ok in H as (info & _ & H).
  destruct (negb (truthy info)).
  - apply value_bind_ok in H as (_ & _ & H). injection H as <-. congruence.
  - apply value_bind_ok in H as (name & _ & H).
    apply value_bind_ok in H as (runs & _ & H).
    apply value_bind_ok in H as (n & _ & H).
    apply value_bind_ok in H as (items & _ & H).
    apply value_bind_ok in H as (doc1 & Hloop & H).
    apply value_bind_ok in H as (_ & _ & H).
    apply value_bind_ok in H as (_ & _ & H).
    injection H as <-.
    eapply for_each_invariant; [| |exact Hloop].
    + intros x s s' _. apply etd_run_step_tallied.
    + do 4 eexists. cbn. repeat split; reflexivity.
Qed.

(** *** mlflow_trace_dumper.py *)

Lemma attach_counts msg run y :
  value (MLflowTraceDumper.attach_trace_data E msg run) = Ok y ->
  counted_for_run SingleDump (fst y) = snd y /\ exists d, run = JObj d.
Proof.
  intros H. unfold MLflowTraceDumper.attach_trace_data in H.
  apply value_bind_ok in H as (info & Hinfo & H).
  apply py_index_dict in Hinfo as (d & ->).
  repeat (apply value_bind_ok in H as (? & _ & H)).
  split; [|eauto].
  match type of H with context [truthy ?td] =>
    destruct (truthy td); rename td into trace_data end.
  - apply value_bind_ok in H as (traces & Htraces & H).
    apply value_bind_ok in H as (n & Hn & H).
    injection H as <-. cbn [fst snd counted_for_run].
    rewrite (field_set_item_same "trace_data" trace_data d).
    unfold lift, value in Htraces, Hn. cbn [snd] in Htraces, Hn.
    destruct trace_data; try discriminate. cbn in Htraces |- *.
    destruct (dict_get fields "traces").
    + injection Htraces as ->. unfold size_of. rewrite Hn. reflexivity.
    + injection Htraces as <-. injection Hn as <-. reflexivity.
  - injection H as <-. cbn [fst snd counted_for_run].
    rewrite (field_set_item_same "trace_data" JNull d). reflexivity.
Qed.

Lemma single_tally eid out now doc :
  value (MLflowTraceDumper.dump_experiment_traces E eid out now) = Ok doc ->
  tallied "total_traces" "runs" (counted_for_run SingleDump) 0 doc.
Proof.
  intros H. unfold MLflowTraceDumper.dump_experiment_traces in H.
  apply value_bind_ok in H as (_ & _ & H).
  apply value_bind_ok in H as (runs & _ & H).
  apply value_bind_ok in H as (n & _ & H).
  apply value_bind_ok in H as (items & _ & H).
  apply value_bind_ok in H as (doc1 & Hloop & H).
  apply value_bind_ok in H as (_ & _ & H).
  apply value_bind_ok in H as (_ & _ & H).
  injection H as <-.
  eapply for_each_invariant; [| |exact Hloop].
  - intros x s s' _ Hs Hstep.
    apply value_bind_ok in Hstep as (y & Hy & Hstep). injection Hstep as <-.
    apply attach_counts in Hy as [Hy _].
    eapply tallied_extra; [|apply tallied_append; [discriminate|];
                            apply tallied_count; [discriminate|exact Hs]].
    rewrite Hy. lia.
  - do 4 eexists. cbn. repeat split; reflexivity.
Qed.

Lemma iter_of_list runs items x d :
  py_iter runs = Ok items -> In x items -> x = JObj d ->
  exists l, runs = JArr l.
Proof.
  intros Hiter Hin ->. destruct runs; try discriminate; cbn in Hiter;
    [|eauto|]; injection Hiter as <-;
    apply in_map_iff in Hin as (? & Hx & _); discriminate.
Qed.

Lemma experiment_step_tallied attach count experiment doc doc' :
  (forall run y, value (attach run) = Ok y ->
                 count (fst y) = snd y /\ exists d, run = JObj d) ->
  tallied "total_traces" "experiments" (per_experiment count) 0 doc ->
  value (experiment_step_over E attach experiment doc) = Ok doc' ->
  tallied "total_traces" "experiments" (per_experiment count) 0 doc'.
Proof.
  intros Hattach Hdoc H. unfold experiment_step_over in H.
  apply value_bind_ok in H as (eid & _ & H).
  apply value_bind_ok in H as (_ & _ & H).
  apply value_bind_ok in H as (_ & _ & H).
  apply value_bind_ok in H as (runs & _ & H).
  apply value_bind_ok in H as (n & _ & H).
  apply value_bind_ok in H as (items & Hitems & H).
  apply value_bind_ok in H as (state & Hloop & H).
  injection H as <-. rewrite value_lift in Hitems.
  assert (Hinv :
    tallied "total_traces" "experiments" (per_experiment count)
            (Z.of_nat (list_sum (map count (snd state)))) (fst state)
    /\ (snd state = [] \/ exists l, runs = JArr l)).
  { eapply (for_each_invariant
              (fun st => tallied "total_traces" "experiments" (per_experiment count)
                                 (Z.of_nat (list_sum (map count (snd st)))) (fst st)
                         /\ (snd st = [] \/ exists l, runs = JArr l)));
      [| |exact Hloop].
    - intros x s s' Hin [Hs _] Hstep.
      apply value_bind_ok in Hstep as (y & Hy & Hstep). injection Hstep as <-.
      apply Hattach in Hy as [Hy [d Hd]]. cbn [fst snd]. split.
      + eapply tallied_extra; [|apply tallied_count; [discriminate|exact Hs]].
        rewrite map_app, list_sum_app. simpl. rewrite Hy. lia.
      + right. eapply iter_of_list; eassumption.
    - cbn [fst snd]. split; [|left; reflexivity].
      apply tallied_meta_update; [discriminate|discriminate|exact Hdoc]. }
  destruct Hinv as [Htal Hruns].
  eapply tallied_extra; [|apply tallied_append; [discriminate|exact Htal]].
  unfold per_experiment.
  destruct Hruns as [Hnil|[l ->]].
  - rewrite Hnil. destruct runs; cbn; lia.
  - cbn. fold (list_sum (map count (snd state))). lia.
Qed.

Lemma all_tally attach count step out now doc saved failed started completed :
  (forall run y, value (attach run) = Ok y ->
                 count (fst y) = snd y /\ exists d, run = JObj d) ->
  (forall experiment all_traces,
      step experiment all_traces = experiment_step_over E attach experiment all_traces) ->
  value (log INFO started ;;
         let all_traces :=
           JObj [("metadata", JObj [("mlflow_url", JStr (mlflow_url E));
                                    ("dump_timestamp", JStr now);
                                    ("total_experiments", JInt 0);
                                    ("total_runs", JInt 0);
                                    ("total_traces", JInt 0)]);
                 ("experiments", JArr [])] in
         experiments <- Fetchers.get_all_experiments E ;;
         n <- lift (py_len experiments) ;;
         let all_traces :=
           in_item "metadata" (set_item "total_experiments" (JInt (Z.of_nat n)))
             all_traces in
         items <- lift (py_iter experiments) ;;
         all_traces <- for_each items step all_traces ;;
         save E all_traces out saved failed ;;
         log INFO completed ;;
         ret all_traces) = Ok doc ->
  tallied "total_traces" "experiments" (per_experiment count) 0 doc.
Proof.
  intros Hattach Hstep H.
  apply value_bind_ok in H as (_ & _ & H).
  apply value_bind_ok in H as (experiments & _ & H).
  apply value_bind_ok in H as (n & _ & H).
  apply value_bind_ok in H as (items & _ & H).
  apply value_bind_ok in H as (doc1 & Hloop & H).
  apply value_bind_ok in H as (_ & _ & H).
  apply value_bind_ok in H as (_ & _ & H).
  injection H as <-.
  eapply for_each_invariant; [| |exact Hloop].
  - intros x s s' _ Hs Hx. rewrite Hstep in Hx.
    eapply experiment_step_tallied; eassumption.
  - do 4 eexists. cbn. repeat split; reflexivity.
Qed.

Lemma all_dump_tally out now doc :
  value (MLflowTraceDumper.dump_all_traces E out now) = Ok doc ->
  tallied "total_traces" "experiments"
          (per_experiment (counted_for_run AllDump)) 0 doc.
Proof.
  apply all_tally with
    (attach := MLflowTraceDumper.attach_trace_data E
                 "  Processing run: {run_name} (ID: {run_id})").
  - intros run y. apply attach_counts.
  - reflexivity.
Qed.

(** *** mlflow/mlflow_trace_dumper.py *)

Lemma dir_attach_counts run y :
  value (MlflowDirTraceDumper.attach_trace_data E run) = Ok y ->
  counted_for_run DirAllDump (fst y) = snd y /\ exists d, run = JObj d.
Proof.
  intros H. unfold MlflowDirTraceDumper.attach_trace_data in H.
  apply value_bind_ok in H as (info & Hinfo & H).
  apply py_index_dict in Hinfo as (d & ->).
  repeat (apply value_bind_ok in H as (? & _ & H)).
  split; [|eauto].
  match type of H with context [truthy ?td] =>
    destruct (truthy td) eqn:Htd; rename td into trace_data end;
    injection H as <-; cbn [fst snd counted_for_run].
  - rewrite (field_set_item_same "trace_data" trace_data d), Htd. reflexivity.
  - rewrite (field_set_item_same "trace_data" JNull d). reflexivity.
Qed.

Lemma dir_all_dump_tally out now doc :
  value (MlflowDirTraceDumper.dump_all_traces E out now) = Ok doc ->
  tallied "total_traces" "experiments"
          (per_experiment (counted_for_run DirAllDump)) 0 doc.
Proof.
  apply all_tally with (attach := MlflowDirTraceDumper.attach_trace_data E).
  - intros run y. apply dir_attach_counts.
  - reflexivity.
Qed.

(** *** mlflow/langraph_trace_dumper.py *)

Lemma langraph_run_step_tallied experiment run doc doc' :
  tallied "total_langraph_traces" "langraph_traces" (counted_for_run LangGraphDump) 0 doc ->
  value (LangGraphTraceDumper.run_step E experiment run doc) = Ok doc' ->
  tallied "total_langraph_traces" "langraph_traces" (counted_for_run LangGraphDump) 0 doc'.
Proof.
  intros Hdoc H. unfold LangGraphTraceDumper.run_step in H.
  repeat (apply value_bind_ok in H as (? & _ & H)).
  match type of H with context [truthy ?td] => destruct (truthy td) end;
    apply value_bind_ok in H as (_ & _ & H); injection H as <-; [|exact Hdoc].
  eapply tallied_extra; [|apply tallied_count; [discriminate|];
                          apply tallied_append; [discriminate|exact Hdoc]].
  cbn. lia.
Qed.

Lemma langraph_tally out now doc :
  value (LangGraphTraceDumper.dump_langraph_traces E out now) = Ok doc ->
  tallied "total_langraph_traces" "langraph_traces" (counted_for_run LangGraphDump) 0 doc.
Proof.
  intros H. unfold LangGraphTraceDumper.dump_langraph_traces in H.
  apply value_bind_ok in H as (_ & _ & H).
  apply value_bind_ok in H as (experiments & _ & H).
  apply value_bind_ok in H as (n & _ & H).
  apply value_bind_ok in H as (items & _ & H).
  apply value_bind_ok in H as (doc1 & Hloop & H).
  apply value_bind_ok in H as (_ & _ & H).
  apply value_bind_ok in H as (_ & _ & H).
  injection H as <-.
  eapply for_each_invariant; [| |exact Hloop].
  - intros x s s' _ Hs Hx. unfold LangGraphTraceDumper.experiment_step in Hx.
    apply value_bind_ok in Hx as (eid & _ & Hx).
    apply value_bind_ok in Hx as (_ & _ & Hx).
    apply value_bind_ok in Hx as (_ & _ & Hx).
    apply value_bind_ok in Hx as (runs & _ & Hx).
    apply value_bind_ok in Hx as (k & _ & Hx).
    apply value_bind_ok in Hx as (run_items & _ & Hx).
    eapply for_each_invariant; [| |exact Hx].
    + intros run t t' _. apply langraph_run_step_tallied.
    + apply tallied_meta_update; [discriminate|discriminate|exact Hs].
  - do 4 eexists. cbn. repeat split; reflexivity.
Qed.

End Methods.

End Tally.

(** ** C1: the aggregate count *)

Module AggregateCount.
Import Laws Tally.

(** C1, as amended.  Every document a dump method returns reports, under
    [total_traces] (or [total_langraph_traces]), the sum over its recorded
    runs of what the method counts for a run: the length of the run's trace
    list in [experiment_trace_dumper.py] and [mlflow_trace_dumper.py], one
    per run with trace data in [mlflow/mlflow_trace_dumper.py], one per
    recorded run in [mlflow/langraph_trace_dumper.py]. *)
Theorem total_is_sum_of_counted (m : dump_method) (E : env) (experiment_id : json)
    (output_file : option string) (now : string) (doc : json) :
  value (run_dump m E experiment_id output_file now) = Ok doc ->
  doc <> JObj [] ->
  metadata_count (total_key m) doc = Some (Z.of_nat (counted m doc)).
Proof.
  intros H Hne. unfold counted.
  destruct m; cbn [run_dump total_key recorded_runs] in *.
  - apply tallied_read. eapply etd_tally; eassumption.
  - apply tallied_read. eapply single_tally; eassumption.
  - rewrite list_sum_flat_map. apply (tallied_read "total_traces" "experiments").
    eapply all_dump_tally; eassumption.
  - rewrite list_sum_flat_map. apply (tallied_read "total_traces" "experiments").
    eapply dir_all_dump_tally; eassumption.
  - apply tallied_read. eapply langraph_tally; eassumption.
Qed.

Lemma total_is_sum_of_counted_witness :
  let E := Examples.env_of (Examples.two_runs 200) in
  let doc := outcome JNull (run_dump ExperimentDump E (JStr "exp-1") None "t0") in
  counted ExperimentDump doc = 1%nat /\
  metadata_count "total_traces" doc = Some (Z.of_nat (counted ExperimentDump doc)).
Proof.
  split; [vm_compute; reflexivity|].
  apply (total_is_sum_of_counted ExperimentDump
           (Examples.env_of (Examples.two_runs 200)) (JStr "exp-1") None "t0").
  - vm_compute. reflexivity.
  - vm_compute. discriminate.
Defined.

(** C1 as stated fails for [mlflow/mlflow_trace_dumper.py]: a run without any
    trace content is counted as one trace. *)
Lemma dir_total_counts_a_run_without_traces :
  let E := Examples.env_of Examples.bare_run in
  exists doc,
    value (run_dump DirAllDump E JNull None "t0") = Ok doc /\
    metadata_count "total_traces" doc = Some 1 /\
    list_sum (map downloaded_artifacts (recorded_runs DirAllDump doc)) = O /\
    map (field "trace_data") (recorded_runs DirAllDump doc) =
      [JObj [("run_id", JStr "r1");
             ("run_data", Examples.run_named "r1");
             ("metrics", JObj []);
             ("parameters", JObj []);
             ("tags", JObj []);
             ("artifacts", JArr [])]].
Proof.
  eexists. split; [vm_compute; reflexivity|].
  repeat split; vm_compute; reflexivity.
Qed.

End AggregateCount.

(** ** The two phases of the single-experiment dumps *)

Module Phases.
Import Laws.

Section Methods.
Variable E : env.

Lemma run_step_collect run doc :
  ExperimentTraceDumper.run_step E run doc =
  bind (collect_run E run) (fun y => ret (record_run y doc)).
Proof.
  unfold ExperimentTraceDumper.run_step, collect_run.
  rewrite ?bind_assoc.
  repeat (apply bind_ext; intros ?; rewrite ?bind_assoc).
  rewrite bind_ret_l. reflexivity.
Qed.

Lemma dump_two_phase experiment_id output_file now :
  ExperimentTraceDumper.dump_experiment_traces E experiment_id output_file now =
  bind (gather E experiment_id) (finish E experiment_id output_file now).
Proof.
  unfold ExperimentTraceDumper.dump_experiment_traces, gather.
  rewrite ?bind_assoc. apply bind_ext. intros _.
  rewrite ?bind_assoc. apply bind_ext. intros info.
  destruct (negb (truthy info)).
  - rewrite ?bind_assoc. apply bind_ext. intros _.
    rewrite bind_ret_l. reflexivity.
  - rewrite ?bind_assoc.
    do 4 (apply bind_ext; intros ?; rewrite ?bind_assoc).
    rewrite (for_each_collect (collect_run E) record_run) by apply run_step_collect.
    rewrite ?bind_assoc. apply bind_ext. intros ys.
    rewrite !bind_ret_l. reflexivity.
Qed.

Lemma single_two_phase experiment_id output_file now :
  MLflowTraceDumper.dump_experiment_traces E experiment_id output_file now =
  bind (single_gather E experiment_id)
       (single_finish E experiment_id output_file now).
Proof.
  unfold MLflowTraceDumper.dump_experiment_traces, single_gather.
  rewrite ?bind_assoc. apply bind_ext. intros _.
  rewrite ?bind_assoc.
  do 3 (apply bind_ext; intros ?; rewrite ?bind_assoc).
  rewrite (for_each_collect (single_attach E) record_run) by reflexivity.
  rewrite ?bind_assoc. apply bind_ext. intros ys.
  rewrite !bind_ret_l. reflexivity.
Qed.


Lemma record_all_experiment_document eid info name now n ys T R :
  record_all ys (experiment_document E eid info name now n T R) =
  experiment_document E eid info name now n
    (T + Z.of_nat (list_sum (map snd ys))) (R ++ map fst ys).
Proof.
  revert T R. induction ys as [|y ys IH]; intros T R; cbn [record_all fold_left].
  - cbn. rewrite Z.add_0_r, app_nil_r. reflexivity.
  - change (fold_left (fun doc y => record_run y doc) ys ?d) with (record_all ys d).
    change (record_run y (experiment_document E eid info name now n T R))
      with (experiment_document E eid info name now n (T + Z.of_nat (snd y)) (R ++ [fst y])).
    rewrite IH.
    change (list_sum (map snd (y :: ys))) with (snd y + list_sum (map snd ys))%nat.
    change (map fst (y :: ys)) with ([fst y] ++ map fst ys).
    rewrite app_assoc. f_equal. lia.
Qed.

Lemma record_all_single_document eid now n ys T R :
  record_all ys (single_document E eid now n T R) =
  single_document E eid now n
    (T + Z.of_nat (list_sum (map snd ys))) (R ++ map fst ys).
Proof.
  revert T R. induction ys as [|y ys IH]; intros T R; cbn [record_all fold_left].
  - cbn. rewrite Z.add_0_r, app_nil_r. reflexivity.
  - change (fold_left (fun doc y => record_run y doc) ys ?d) with (record_all ys d).
    change (record_run y (single_document E eid now n T R))
      with (single_document E eid now n (T + Z.of_nat (snd y)) (R ++ [fst y])).
    rewrite IH.
    change (list_sum (map snd (y :: ys))) with (snd y + list_sum (map snd ys))%nat.
    change (map fst (y :: ys)) with ([fst y] ++ map fst ys).
    rewrite app_assoc. f_equal. lia.
Qed.

End Methods.

End Phases.

(** ** C8, C9, C10: the single-experiment dump as a whole *)

Module ExperimentDumpFacts.
Import Laws Phases.

Lemma without_timestamp_experiment_document E eid info name t1 t2 n T R :
  without_timestamp (experiment_document E eid info name t1 n T R) =
  without_timestamp (experiment_document E eid info name t2 n T R).
Proof. reflexivity. Qed.

(** C8.  Two dumps of one experiment against the same server state return,
    and write, documents that are identical once [dump_timestamp] is left
    out; all other events are the same. *)
Theorem dump_differs_only_in_timestamp (E : env) (experiment_id : json)
    (output_file : option string) (t1 t2 : string) :
  let first := ExperimentTraceDumper.dump_experiment_traces E experiment_id output_file t1 in
  let second := ExperimentTraceDumper.dump_experiment_traces E experiment_id output_file t2 in
  res_map without_timestamp (value first) = res_map without_timestamp (value second) /\
  map event_without_timestamp (events first) = map event_without_timestamp (events second).
Proof.
  cbv zeta. rewrite !dump_two_phase.
  destruct (gather E experiment_id) as [l [[[[[info name] n] ys]|]|e]];
    [|split; reflexivity|split; reflexivity].
  cbn [bind finish]. rewrite !record_all_experiment_document.
  unfold deliver, save.
  destruct output_file as [path|]; [|split; reflexivity].
  destruct (negb (path =? "")%string); [|split; reflexivity].
  unfold write_json. destruct (writable E path); cbn.
  - split; [reflexivity|]. rewrite !map_app. reflexivity.
  - split; reflexivity.
Qed.

(** C9.  When writing the output file fails, the failure is logged, and the
    dump returns exactly what it returns over any other file system, in
    particular over one where the write succeeds. *)
Theorem write_failure_keeps_result (E : env) (experiment_id : json)
    (path now : string) :
  path <> "" ->
  writable E path = false ->
  let dump := ExperimentTraceDumper.dump_experiment_traces E experiment_id (Some path) now in
  let single := MLflowTraceDumper.dump_experiment_traces E experiment_id (Some path) now in
  (forall w,
      value (ExperimentTraceDumper.dump_experiment_traces
               (with_writable w E) experiment_id (Some path) now) = value dump) /\
  (forall w,
      value (MLflowTraceDumper.dump_experiment_traces
               (with_writable w E) experiment_id (Some path) now) = value single) /\
  (forall doc, value dump = Ok doc -> doc <> JObj [] -> In save_failure (events dump)) /\
  (forall doc, value single = Ok doc -> In save_failure (events single)).
Proof.
  intros Hpath Hw. cbv zeta.
  apply String.eqb_neq in Hpath.
  repeat split.
  - intros w. rewrite !dump_two_phase.
    change (gather (with_writable w E) experiment_id) with (gather E experiment_id).
    rewrite !value_bind. destruct (value (gather E experiment_id)) as [g|e]; [|reflexivity].
    destruct g as [[[[info name] n] ys]|]; [|reflexivity].
    cbn [finish]. unfold deliver.
    rewrite !value_bind, !value_save. reflexivity.
  - intros w. rewrite !single_two_phase.
    change (single_gather (with_writable w E) experiment_id)
      with (single_gather E experiment_id).
    rewrite !value_bind. destruct (value (single_gather E experiment_id)) as [g|e];
      [|reflexivity].
    unfold single_finish, deliver.
    rewrite !value_bind, !value_save. reflexivity.
  - intros doc. rewrite dump_two_phase.
    destruct (gather E experiment_id) as [l [[[[[info name] n] ys]|]|e]];
      cbn [bind finish value events fst snd ret].
    + intros _ _. unfold deliver, save, write_json. rewrite Hpath, Hw. cbn.
      apply in_or_app. right. right. left. reflexivity.
    + intros [= <-] Hne. congruence.
    + discriminate.
  - intros doc. rewrite single_two_phase.
    destruct (single_gather E experiment_id) as [l [g|e]];
      cbn [bind value events fst snd]; [|discriminate].
    intros _. unfold single_finish, deliver, save, write_json. rewrite Hpath, Hw. cbn.
    apply in_or_app. right. right. left. reflexivity.
Qed.

Lemma write_failure_keeps_result_witness :
  let E := with_writable (fun _ => false) (Examples.env_of (Examples.two_runs 200)) in
  let dump := ExperimentTraceDumper.dump_experiment_traces E (JStr "exp-1")
                (Some "out.json") "t0" in
  "out.json" <> "" /\ writable E "out.json" = false /\
  value (ExperimentTraceDumper.dump_experiment_traces
           (with_writable (fun _ => true) E) (JStr "exp-1") (Some "out.json") "t0")
    = value dump /\
  In save_failure (events dump).
Proof.
  cbv zeta.
  pose proof (write_failure_keeps_result
                (with_writable (fun _ => false) (Examples.env_of (Examples.two_runs 200)))
                (JStr "exp-1") "out.json" "t0") as H.
  assert (Hp : "out.json" <> "") by discriminate.
  specialize (H Hp eq_refl). cbv zeta in H.
  destruct H as (H1 & _ & H3 & _).
  split; [exact Hp|]. split; [reflexivity|]. split; [apply H1|].
  eapply H3; [vm_compute; reflexivity|vm_compute; discriminate].
Defined.

(** C10.  When the experiment-info fetch fails or finds no experiment,
    [dump_experiment_traces] returns the empty dict, and the only request it
    sends is that fetch. *)
Theorem unavailable_experiment_gives_empty_dict (E : env) (experiment_id : json)
    (output_file : option string) (now : string) :
  experiment_unavailable E experiment_id ->
  let dump := ExperimentTraceDumper.dump_experiment_traces E experiment_id output_file now in
  value dump = Ok (JObj []) /\
  requests (events dump) = [ExperimentsGet experiment_id] /\
  field "metadata" (outcome JNull dump) = JNull /\
  field "experiment_info" (outcome JNull dump) = JNull /\
  field "runs" (outcome JNull dump) = JNull.
Proof.
  intros H. cbv zeta.
  unfold ExperimentTraceDumper.dump_experiment_traces,
    ExperimentTraceDumper.get_experiment_info, session_get, outcome.
  destruct H as [[H|(r & H & Hs)]|(r & H & Hs & [Hb|(body & Hb & Hexp)])];
    rewrite H; unfold raise_for_status, response_json; cbn;
    rewrite ?Hs; cbn; rewrite ?Hb; cbn; rewrite ?Hexp; cbn;
    repeat split; reflexivity.
Qed.

Lemma unavailable_experiment_gives_empty_dict_witness :
  let E := Examples.env_of Examples.bare_run in
  let dump := ExperimentTraceDumper.dump_experiment_traces E (JStr "exp-1") None "t0" in
  experiment_unavailable E (JStr "exp-1") /\
  value dump = Ok (JObj []) /\
  requests (events dump) = [ExperimentsGet (JStr "exp-1")].
Proof.
  cbv zeta.
  assert (H : experiment_unavailable (Examples.env_of Examples.bare_run) (JStr "exp-1")).
  { left. right. eexists. split; reflexivity. }
  split; [exact H|].
  destruct (unavailable_experiment_gives_empty_dict
              (Examples.env_of Examples.bare_run) (JStr "exp-1") None "t0" H)
    as (Hv & Hr & _).
  split; [exact Hv|exact Hr].
Defined.

End ExperimentDumpFacts.

(** ** The trace classifier of experiment_trace_dumper.py *)

Module Classifier.
Import Laws.

Lemma for_each_app {A S} (body : A -> S -> M S) (l1 l2 : list A) (s : S) :
  for_each (l1 ++ l2) body s = bind (for_each l1 body s) (for_each l2 body).
Proof.
  revert s. induction l1 as [|x l1 IH]; intros s; cbn [for_each app].
  - rewrite bind_ret_l. reflexivity.
  - rewrite bind_assoc. apply bind_ext. intros s1. apply IH.
Qed.

Lemma for_each_skip {A S} (body : A -> S -> M S) (items : list A) (s : S) :
  Forall (fun x => forall s, body x s = ret s) items ->
  for_each items body s = ret s.
Proof.
  induction 1 as [|x rest Hx _ IH]; cbn [for_each]; [reflexivity|].
  rewrite Hx, bind_ret_l. exact IH.
Qed.

(** A loop that only appends to its accumulator yields the same new items
    from any start. *)
Lemma for_each_appends {A B} (step : A -> list B -> M (list B)) :
  (forall x acc, step x acc = bind (step x []) (fun new => ret (acc ++ new))) ->
  forall items acc,
    for_each items step acc =
    bind (for_each items step []) (fun new => ret (acc ++ new)).
Proof.
  intros Hstep items. induction items as [|x rest IH]; intros acc; cbn [for_each].
  - rewrite bind_ret_l, app_nil_r. reflexivity.
  - rewrite (Hstep x acc), !bind_assoc.
    rewrite (Hstep x []) at 2. rewrite !bind_assoc.
    apply bind_ext. intros n. rewrite !bind_ret_l. cbn [app].
    rewrite (IH (acc ++ n)), (IH n), bind_assoc.
    apply bind_ext. intros k. rewrite bind_ret_l, app_assoc. reflexivity.
Qed.

Section Methods.
Variable E : env.

Lemma artifact_step_appends run_id artifact acc :
  ExperimentTraceDumper.artifact_step E run_id artifact acc =
  bind (ExperimentTraceDumper.artifact_step E run_id artifact [])
       (fun new => ret (acc ++ new)).
Proof.
  unfold ExperimentTraceDumper.artifact_step.
  destruct (py_get artifact "path" (JStr "")) as [path|e]; [|reflexivity].
  cbn [lift bind app]. destruct (py_lower path) as [lowered|e]; [|reflexivity].
  cbn [bind app]. destruct (any_in ExperimentTraceDumper.artifact_keywords lowered);
    [|cbn; rewrite app_nil_r; reflexivity].
  unfold session_get.
  destruct (serve E (ArtifactsDownload run_id path)) as [|r];
    [cbn; rewrite app_nil_r; reflexivity|].
  cbn. destruct (status_code r =? 200); cbn; rewrite ?app_nil_r; reflexivity.
Qed.

Lemma traces_from_artifacts_appends run_id acc :
  ExperimentTraceDumper.traces_from_artifacts E run_id acc =
  bind (ExperimentTraceDumper.traces_from_artifacts E run_id [])
       (fun new => ret (acc ++ new)).
Proof.
  unfold ExperimentTraceDumper.traces_from_artifacts.
  rewrite bind_assoc. apply bind_ext. intros r.
  destruct (status_code r =? 200).
  - rewrite !bind_assoc. do 3 (apply bind_ext; intros ?; rewrite ?bind_assoc).
    apply for_each_appends. intros x acc'. apply artifact_step_appends.
  - rewrite bind_ret_l, app_nil_r. reflexivity.
Qed.

Lemma traces_from_metadata_appends run_id acc :
  ExperimentTraceDumper.traces_from_metadata E run_id acc =
  bind (ExperimentTraceDumper.traces_from_metadata E run_id [])
       (fun new => ret (acc ++ new)).
Proof.
  unfold ExperimentTraceDumper.traces_from_metadata.
  rewrite bind_assoc. apply bind_ext. intros r.
  destruct (status_code r =? 200).
  - rewrite !bind_assoc. do 8 (apply bind_ext; intros ?; rewrite ?bind_assoc).
    match goal with |- context [if ?c then _ else _] => destruct c end.
    + rewrite !bind_assoc. apply bind_ext. intros _. rewrite bind_ret_l. reflexivity.
    + rewrite bind_ret_l, app_nil_r. reflexivity.
  - rewrite bind_ret_l, app_nil_r. reflexivity.
Qed.

(** [get_traces_for_run] is the three passes, each started from nothing,
    followed by the concatenation of what they found. *)
Lemma get_traces_for_run_passes run_id :
  ExperimentTraceDumper.get_traces_for_run E run_id =
  try_request
    (a <- ExperimentTraceDumper.traces_from_api E run_id [] ;;
     b <- ExperimentTraceDumper.traces_from_artifacts E run_id [] ;;
     c <- ExperimentTraceDumper.traces_from_metadata E run_id [] ;;
     log INFO "Total traces found for run {run_id}: {len(traces)}" ;;
     ret (a ++ b ++ c))
    (log ERROR "Failed to get traces for run {run_id}: {e}" ;;
     ret []).
Proof.
  unfold ExperimentTraceDumper.get_traces_for_run. f_equal.
  apply bind_ext. intros a.
  rewrite traces_from_artifacts_appends, bind_assoc. apply bind_ext. intros b.
  rewrite bind_ret_l, traces_from_metadata_appends, bind_assoc.
  apply bind_ext. intros c. rewrite bind_ret_l, app_assoc. reflexivity.
Qed.

Lemma get_traces_for_run_value run_id a b c :
  value (ExperimentTraceDumper.traces_from_api E run_id []) = Ok a ->
  value (ExperimentTraceDumper.traces_from_artifacts E run_id []) = Ok b ->
  value (ExperimentTraceDumper.traces_from_metadata E run_id []) = Ok c ->
  value (ExperimentTraceDumper.get_traces_for_run E run_id) = Ok (a ++ b ++ c) /\
  events (ExperimentTraceDumper.get_traces_for_run E run_id) =
    events (ExperimentTraceDumper.traces_from_api E run_id [])
    ++ events (ExperimentTraceDumper.traces_from_artifacts E run_id [])
    ++ events (ExperimentTraceDumper.traces_from_metadata E run_id [])
    ++ [Log INFO "Total traces found for run {run_id}: {len(traces)}"].
Proof.
  intros Ha Hb Hc. rewrite get_traces_for_run_passes.
  destruct (ExperimentTraceDumper.traces_from_api E run_id []) as [la ra].
  destruct (ExperimentTraceDumper.traces_from_artifacts E run_id []) as [lb rb].
  destruct (ExperimentTraceDumper.traces_from_metadata E run_id []) as [lc rc].
  cbn in Ha, Hb, Hc. subst. cbn. rewrite <- ?app_assoc.
  split; reflexivity.
Qed.

(** The metadata pass when the run-detail fetch answers 200 with well-formed
    tags and parameters. *)
Lemma metadata_pass_value run_id body run_data data tags params acc :
  answers E (RunsGet run_id) body ->
  py_get body "run" (JObj []) = Ok run_data ->
  py_get run_data "data" (JObj []) = Ok data ->
  py_get data "tags" (JObj []) = Ok (JObj tags) ->
  py_get data "params" (JObj []) = Ok (JObj params) ->
  let trace_tags := filter (key_matches ExperimentTraceDumper.metadata_keywords) tags in
  let trace_params := filter (key_matches ExperimentTraceDumper.metadata_keywords) params in
  value (ExperimentTraceDumper.traces_from_metadata E run_id acc) =
    Ok (acc ++ match trace_tags ++ trace_params with
               | [] => []
               | _ :: _ => [metadata_record E run_id trace_tags trace_params]
               end).
Proof.
  intros (r & Hr & Hs & Hb) Hrun Hdata Htags Hparams trace_tags trace_params.
  unfold ExperimentTraceDumper.traces_from_metadata.
  rewrite (value_bind_of _ _ r) by (apply value_session_get; exact Hr).
  rewrite Hs. change (200 =? 200) with true. cbv iota.
  rewrite (value_bind_of _ _ body) by (apply value_response_json; exact Hb).
  rewrite (value_bind_of _ _ run_data) by exact Hrun.
  rewrite (value_bind_of _ _ data) by exact Hdata.
  rewrite (value_bind_of _ _ (JObj tags)) by exact Htags.
  rewrite (value_bind_of _ _ data) by exact Hdata.
  rewrite (value_bind_of _ _ (JObj params)) by exact Hparams.
  rewrite (value_bind_of _ _ tags) by reflexivity.
  rewrite (value_bind_of _ _ params) by reflexivity.
  change (filter (fun kv => any_in ExperimentTraceDumper.metadata_keywords (lower (fst kv))))
    with (filter (key_matches ExperimentTraceDumper.metadata_keywords)).
  fold trace_tags. fold trace_params.
  destruct trace_tags as [|t ts]; [destruct trace_params as [|p ps]|]; cbn;
    rewrite ?app_nil_r; reflexivity.
Qed.

End Methods.

End Classifier.

(** ** C3: the three passes *)

Module ThreePasses.
Import Laws Classifier.

Lemma requests_app l1 l2 : requests (l1 ++ l2) = requests l1 ++ requests l2.
Proof. apply flat_map_app. Qed.

Lemma py_get_raises j k d e : py_get j k d = Raise e -> e = OtherException.
Proof. destruct j; cbn; congruence. Qed.

Lemma py_lower_raises j e : py_lower j = Raise e -> e = OtherException.
Proof. destruct j; cbn; congruence. Qed.

Lemma py_index_raises j k e : py_index j k = Raise e -> e = OtherException.
Proof.
  destruct j; cbn; try congruence. destruct (dict_get fields k); congruence.
Qed.

Lemma fallback_step_no_request_exception E run_id artifact acc :
  value (MLflowTraceDumper.fallback_step E run_id artifact acc) <> Raise RequestException.
Proof.
  unfold MLflowTraceDumper.fallback_step.
  rewrite value_bind. cbn [value lift snd].
  destruct (py_get artifact "path" (JStr "")) as [path|e] eqn:Hp;
    [|apply py_get_raises in Hp; subst; discriminate].
  rewrite value_bind. cbn [value lift snd].
  destruct (py_lower path) as [lowered|e] eqn:Hl;
    [|apply py_lower_raises in Hl; subst; discriminate].
  destruct (any_in MLflowTraceDumper.trace_keywords lowered); [|discriminate].
  rewrite value_try_any, !value_bind. cbn [value lift snd].
  destruct (py_index artifact "path") as [p|e] eqn:Hi.
  - rewrite value_bind. unfold session_get.
    destruct (serve E (ArtifactsDownload run_id p)) as [|r]; cbn; [discriminate|].
    destruct (status_code r =? 200); discriminate.
  - apply py_index_raises in Hi. subst. discriminate.
Qed.

Lemma fallback_loop_no_request_exception E run_id items acc :
  value (for_each items (MLflowTraceDumper.fallback_step E run_id) acc)
  <> Raise RequestException.
Proof.
  revert acc. induction items as [|x rest IH]; intros acc; cbn [for_each].
  - discriminate.
  - rewrite value_bind.
    destruct (value (MLflowTraceDumper.fallback_step E run_id x acc)) as [s|[|]] eqn:Hx.
    + apply IH.
    + exfalso. exact (fallback_step_no_request_exception E run_id x acc Hx).
    + discriminate.
Qed.

(** C3, as amended.  In [experiment_trace_dumper.py], whenever none of the
    three passes raises, all three run and the classifier returns their
    results concatenated in the order API, artifacts, metadata, nothing
    removed.  In [mlflow_trace_dumper.py] the classifier returns what trace
    search holds when it answers 200, without asking for artifacts, and the
    records of the artifact pass otherwise; it has no metadata pass. *)
Theorem passes_are_concatenated (E : env) (run_id : json) :
  (forall a b c,
      value (ExperimentTraceDumper.traces_from_api E run_id []) = Ok a ->
      value (ExperimentTraceDumper.traces_from_artifacts E run_id []) = Ok b ->
      value (ExperimentTraceDumper.traces_from_metadata E run_id []) = Ok c ->
      value (ExperimentTraceDumper.get_traces_for_run E run_id) = Ok (a ++ b ++ c) /\
      requests (events (ExperimentTraceDumper.get_traces_for_run E run_id)) =
        requests (events (ExperimentTraceDumper.traces_from_api E run_id []))
        ++ requests (events (ExperimentTraceDumper.traces_from_artifacts E run_id []))
        ++ requests (events (ExperimentTraceDumper.traces_from_metadata E run_id []))) /\
  (forall body traces,
      answers E (TracesSearch run_id) body ->
      py_get body "traces" (JArr []) = Ok traces ->
      is_ok (py_len traces) = true ->
      value (MLflowTraceDumper.get_traces_for_run E run_id) = Ok traces /\
      requests (events (MLflowTraceDumper.get_traces_for_run E run_id)) =
        [TracesSearch run_id]) /\
  (forall body files items,
      declines E (TracesSearch run_id) ->
      answers E (ArtifactsList run_id) body ->
      py_get body "files" (JArr []) = Ok files ->
      py_iter files = Ok items ->
      value (MLflowTraceDumper.get_traces_for_run E run_id) =
        res_map JArr (value (for_each items (MLflowTraceDumper.fallback_step E run_id) []))).
Proof.
  split; [|split].
  - intros a b c Ha Hb Hc.
    destruct (get_traces_for_run_value E run_id a b c Ha Hb Hc) as [Hv Hev].
    split; [exact Hv|].
    rewrite Hev, !requests_app. cbn. rewrite !app_nil_r. reflexivity.
  - intros body traces (r & Hr & Hs & Hb) Htraces Hlen.
    unfold MLflowTraceDumper.get_traces_for_run, session_get, response_json.
    rewrite Hr. cbn. rewrite Hs, Hb. cbn. rewrite Htraces. cbn.
    destruct (py_len traces); [split; reflexivity|discriminate].
  - intros body files items (r & Hr & Hs) (r' & Hr' & Hs' & Hb') Hfiles Hitems.
    apply Z.eqb_neq in Hs.
    unfold MLflowTraceDumper.get_traces_for_run.
    rewrite value_try_request, value_bind. unfold session_get at 1.
    rewrite Hr. cbn [value snd]. rewrite Hs.
    rewrite value_bind. unfold session_get at 1. rewrite Hr'. cbn [value snd].
    rewrite Hs'. cbn [Z.eqb Pos.eqb]. unfold response_json. rewrite Hb'.
    rewrite (value_bind_of _ _ body) by reflexivity.
    rewrite (value_bind_of _ _ files) by exact Hfiles.
    rewrite (value_bind_of _ _ items) by exact Hitems.
    rewrite value_bind.
    pose proof (fallback_loop_no_request_exception E run_id items []) as Hne.
    destruct (value (for_each items (MLflowTraceDumper.fallback_step E run_id) []))
      as [v|[|]]; [reflexivity|congruence|reflexivity].
Qed.

Lemma passes_are_concatenated_witness :
  let E := Examples.env_of (Examples.api_and_artifact (Examples.status 404)) in
  let api :=
    JObj [("trace_id", JStr "tr-1"); ("source", JStr "api");
          ("data", JObj [("trace_id", JStr "tr-1")]); ("content", JStr "<json>")] in
  value (ExperimentTraceDumper.traces_from_api E (JStr "r1") []) = Ok [api] /\
  value (ExperimentTraceDumper.traces_from_artifacts E (JStr "r1") [])
    = Ok [artifact_record "run/trace.json" "{}"] /\
  value (ExperimentTraceDumper.traces_from_metadata E (JStr "r1") []) = Ok [] /\
  value (ExperimentTraceDumper.get_traces_for_run E (JStr "r1"))
    = Ok ([api] ++ [artifact_record "run/trace.json" "{}"] ++ []).
Proof.
  cbv zeta.
  split; [reflexivity|]. split; [reflexivity|]. split; [reflexivity|].
  apply (passes_are_concatenated
           (Examples.env_of (Examples.api_and_artifact (Examples.status 404)))
           (JStr "r1")); reflexivity.
Defined.

(** C3 as stated fails twice.  In [mlflow_trace_dumper.py] an answer of trace
    search keeps the artifact pass from running, although the run has a trace
    artifact; in [experiment_trace_dumper.py] a transport error of the
    metadata pass discards what the first two passes found. *)
Lemma one_pass_can_silence_the_others :
  let E := Examples.env_of (Examples.api_and_artifact (Examples.status 404)) in
  let E' := Examples.env_of (Examples.api_and_artifact ConnectionError) in
  (value (MLflowTraceDumper.get_traces_for_run E (JStr "r1"))
     = Ok (JArr [JObj [("trace_id", JStr "tr-1")]]) /\
   requests (events (MLflowTraceDumper.get_traces_for_run E (JStr "r1")))
     = [TracesSearch (JStr "r1")] /\
   trace_artifact E MLflowTraceDumper.trace_keywords (JStr "r1")
     (JObj [("path", JStr "run/trace.json")]) "run/trace.json" "{}") /\
  (length (outcome [] (ExperimentTraceDumper.traces_from_api E' (JStr "r1") [])) = 1%nat /\
   length (outcome [] (ExperimentTraceDumper.traces_from_artifacts E' (JStr "r1") [])) = 1%nat /\
   value (ExperimentTraceDumper.get_traces_for_run E' (JStr "r1")) = Ok []).
Proof.
  cbv zeta. repeat split; try reflexivity.
  eexists. repeat split; reflexivity.
Qed.

End ThreePasses.

(** ** C4: the metadata pass *)

Module MetadataPass.
Import Laws.

(** C4, as amended.  When the run-detail fetch answers 200, the metadata
    pass of [experiment_trace_dumper.py] scans the tag keys and the parameter
    keys (not the tag values), case-insensitively, for [trace], [langraph]
    and [agent]; it emits exactly one metadata record holding all matching
    tags and parameters when there is at least one, and none otherwise.  A
    run whose only match is the tag key [langraph_version] yields one record
    with that tag and no parameters. *)
Theorem metadata_pass_scans_keys (E : env) (run_id body run_data data : json)
    (tags params : dict) (acc : list json) :
  answers E (RunsGet run_id) body ->
  py_get body "run" (JObj []) = Ok run_data ->
  py_get run_data "data" (JObj []) = Ok data ->
  py_get data "tags" (JObj []) = Ok (JObj tags) ->
  py_get data "params" (JObj []) = Ok (JObj params) ->
  let trace_tags := filter (key_matches ExperimentTraceDumper.metadata_keywords) tags in
  let trace_params := filter (key_matches ExperimentTraceDumper.metadata_keywords) params in
  value (ExperimentTraceDumper.traces_from_metadata E run_id acc) =
    Ok (acc ++ match trace_tags ++ trace_params with
               | [] => []
               | _ :: _ => [metadata_record E run_id trace_tags trace_params]
               end) /\
  (tags = [("langraph_version", JStr "1.0")] -> trace_params = [] ->
   value (ExperimentTraceDumper.traces_from_metadata E run_id []) =
     Ok [metadata_record E run_id [("langraph_version", JStr "1.0")] []]).
Proof.
  intros Ha Hrun Hdata Htags Hparams trace_tags trace_params.
  split.
  - apply (Classifier.metadata_pass_value E run_id body run_data data tags params acc);
      assumption.
  - intros Ht Hp.
    rewrite (Classifier.metadata_pass_value E run_id body run_data data tags params []
               Ha Hrun Hdata Htags Hparams).
    fold trace_params. rewrite Hp, Ht. reflexivity.
Qed.

Lemma metadata_pass_scans_keys_witness :
  let tags := [("LanGraph_Version", JStr "1.0"); ("team", JStr "search")] in
  let params := [("epochs", JStr "3")] in
  let E := Examples.env_of (Examples.tagged_run tags) in
  value (ExperimentTraceDumper.traces_from_metadata E (JStr "r1") []) =
    Ok [metadata_record E (JStr "r1") [("LanGraph_Version", JStr "1.0")] []].
Proof.
  cbv zeta.
  pose (tags := [("LanGraph_Version", JStr "1.0"); ("team", JStr "search")]).
  pose (params := [("epochs", JStr "3")]).
  pose (data := JObj [("tags", JObj tags); ("params", JObj params)]).
  pose (run_data := JObj [("info", JObj [("run_id", JStr "r1")]); ("data", data)]).
  assert (Ha : answers (Examples.env_of (Examples.tagged_run tags))
                       (RunsGet (JStr "r1")) (JObj [("run", run_data)])).
  { eexists. repeat split; reflexivity. }
  destruct (metadata_pass_scans_keys
    (Examples.env_of (Examples.tagged_run tags))
    (JStr "r1") (JObj [("run", run_data)]) run_data data tags params []
    Ha eq_refl eq_refl eq_refl eq_refl) as [H _].
  exact H.
Defined.

(** C4 as stated fails: a keyword in a tag value is not seen. *)
Lemma tag_values_are_not_scanned :
  let tags := [("note", JStr "agent trace")] in
  let params := [("epochs", JStr "3")] in
  let E := Examples.env_of (Examples.tagged_run tags) in
  answers E (RunsGet (JStr "r1"))
    (JObj [("run", JObj [("info", JObj [("run_id", JStr "r1")]);
                         ("data", JObj [("tags", JObj tags);
                                        ("params", JObj params)])])]) /\
  scan_with_tag_values ExperimentTraceDumper.metadata_keywords tags params = true /\
  value (ExperimentTraceDumper.traces_from_metadata E (JStr "r1") []) = Ok [] /\
  value (ExperimentTraceDumper.get_traces_for_run E (JStr "r1")) = Ok [].
Proof.
  cbv zeta. split; [eexists; repeat split; reflexivity|].
  repeat split; reflexivity.
Qed.

End MetadataPass.

(** ** C5: the artifact pass *)

Module ArtifactPass.
Import Laws Classifier.

Lemma str_len_ascii s : is_ascii_text s = true -> str_len s = String.length s.
Proof.
  induction s as [|c s IH]; [reflexivity|].
  cbn [is_ascii_text str_len String.length]. intros H.
  apply andb_prop in H as [Hc Hs]. apply Nat.ltb_lt in Hc.
  unfold is_continuation.
  replace (128 <=? nat_of_ascii c)%nat with false
    by (symmetry; apply Nat.leb_gt; exact Hc).
  cbn [andb]. f_equal. apply IH. exact Hs.
Qed.

Lemma quiet_artifact_path keywords artifact :
  quiet_artifact keywords artifact = true ->
  exists path, py_get artifact "path" (JStr "") = Ok (JStr path) /\
               any_in keywords (lower path) = false.
Proof.
  unfold quiet_artifact.
  destruct (py_get artifact "path" (JStr "")) as [[| | | |path| |]|]; try discriminate.
  intros H. apply negb_true_iff in H. eauto.
Qed.

Section Methods.
Variable E : env.

Lemma artifact_step_quiet run_id artifact acc :
  quiet_artifact ExperimentTraceDumper.artifact_keywords artifact = true ->
  ExperimentTraceDumper.artifact_step E run_id artifact acc = ret acc.
Proof.
  intros H. apply quiet_artifact_path in H as (path & Hp & Hk).
  unfold ExperimentTraceDumper.artifact_step.
  rewrite Hp. cbn [lift bind py_lower app]. rewrite Hk. reflexivity.
Qed.

Lemma artifact_step_trace run_id artifact path content acc :
  trace_artifact E ExperimentTraceDumper.artifact_keywords run_id artifact path content ->
  value (ExperimentTraceDumper.artifact_step E run_id artifact acc) =
  Ok (acc ++ [artifact_record path content]).
Proof.
  intros (Hp & Hk & r & Hr & Hs & Ht).
  unfold ExperimentTraceDumper.artifact_step.
  rewrite (value_bind_of _ _ (JStr path)) by exact Hp.
  rewrite (value_bind_of _ _ (lower path)) by reflexivity.
  rewrite Hk, value_try_any.
  rewrite (value_bind_of _ _ r) by (apply value_session_get; exact Hr).
  rewrite Hs, Ht. reflexivity.
Qed.

Lemma trace_file_step_quiet run_id artifact trace_data :
  quiet_artifact LangGraphTraceDumper.trace_file_patterns artifact = true ->
  LangGraphTraceDumper.trace_file_step E run_id artifact trace_data = ret trace_data.
Proof.
  intros H. apply quiet_artifact_path in H as (path & Hp & Hk).
  unfold LangGraphTraceDumper.trace_file_step.
  rewrite Hp. cbn [lift bind py_lower app]. rewrite Hk. reflexivity.
Qed.

Lemma trace_file_step_trace run_id artifact path content d files :
  trace_artifact E LangGraphTraceDumper.trace_file_patterns run_id artifact path content ->
  dict_get d "trace_files" = Some (JArr files) ->
  exists d',
    value (LangGraphTraceDumper.trace_file_step E run_id artifact (JObj d)) = Ok (JObj d') /\
    dict_get d' "trace_files" = Some (JArr (files ++ [trace_file_record path content])).
Proof.
  intros (Hp & Hk & r & Hr & Hs & Ht) Hfiles.
  unfold LangGraphTraceDumper.trace_file_step.
  rewrite (value_bind_of _ _ (JStr path)) by exact Hp.
  rewrite (value_bind_of _ _ (lower path)) by reflexivity.
  rewrite Hk, value_try_any.
  rewrite (value_bind_of _ _ r) by (apply value_session_get; exact Hr).
  rewrite Hs, Ht. change (200 =? 200) with true. cbv iota zeta.
  destruct (json_body r) as [trace_json|]; cbn [value ret snd in_item on_dict];
    eexists; (split; [reflexivity|]);
    rewrite dict_get_update_other by discriminate;
    rewrite dict_get_update_same, Hfiles; reflexivity.
Qed.

End Methods.

Lemma all_quiet keywords l :
  forallb (quiet_artifact keywords) l = true ->
  Forall (fun a => quiet_artifact keywords a = true) l.
Proof. intros H. apply Forall_forall. apply forallb_forall. exact H. Qed.

(** C5, as amended.  For a run whose artifact list holds exactly one
    keyword-matching path whose download answers 200, the artifact pass
    yields exactly one record, keyed by the path, whose size is the number of
    characters of the downloaded text; that is the byte length when the text
    is ASCII.  The artifact loop of [mlflow/langraph_trace_dumper.py] adds
    exactly one entry with the same size to [trace_files]. *)
Theorem one_trace_artifact_one_record (E : env) (run_id body : json)
    (before after : list json) (artifact : json) (path content : string) :
  answers E (ArtifactsList run_id) body ->
  py_get body "files" (JArr []) = Ok (JArr (before ++ artifact :: after)) ->
  (forallb (quiet_artifact ExperimentTraceDumper.artifact_keywords) (before ++ after) = true ->
   trace_artifact E ExperimentTraceDumper.artifact_keywords run_id artifact path content ->
   value (ExperimentTraceDumper.traces_from_artifacts E run_id []) =
     Ok [artifact_record path content] /\
   field "trace_id" (artifact_record path content) = JStr path /\
   field "size" (artifact_record path content) = JInt (Z.of_nat (str_len content)) /\
   (is_ascii_text content = true ->
    field "size" (artifact_record path content) = JInt (Z.of_nat (String.length content)))) /\
  (forallb (quiet_artifact LangGraphTraceDumper.trace_file_patterns) (before ++ after) = true ->
   trace_artifact E LangGraphTraceDumper.trace_file_patterns run_id artifact path content ->
   forall d files,
     dict_get d "trace_files" = Some (JArr files) ->
     exists trace_data,
       value (for_each (before ++ artifact :: after)
                (LangGraphTraceDumper.trace_file_step E run_id) (JObj d)) = Ok trace_data /\
       field "trace_files" trace_data =
         JArr (files ++ [trace_file_record path content])).
Proof.
  intros (r & Hr & Hs & Hb) Hfiles. split.
  - intros Hquiet Htrace.
    rewrite forallb_app in Hquiet. apply andb_prop in Hquiet as [Hbefore Hafter].
    apply all_quiet in Hbefore, Hafter.
    repeat split.
    + unfold ExperimentTraceDumper.traces_from_artifacts.
      rewrite (value_bind_of _ _ r) by (apply value_session_get; exact Hr).
      rewrite Hs. change (200 =? 200) with true. cbv iota.
      rewrite (value_bind_of _ _ body) by (apply value_response_json; exact Hb).
      rewrite (value_bind_of _ _ (JArr (before ++ artifact :: after))) by exact Hfiles.
      rewrite (value_bind_of _ _ (before ++ artifact :: after)) by reflexivity.
      rewrite for_each_app, for_each_skip, bind_ret_l.
      2:{ eapply Forall_impl; [|exact Hbefore]. intros a Ha s.
          apply artifact_step_quiet. exact Ha. }
      cbn [for_each].
      rewrite (value_bind_of _ _ ([] ++ [artifact_record path content]))
        by (apply artifact_step_trace; exact Htrace).
      rewrite for_each_skip; [reflexivity|].
      eapply Forall_impl; [|exact Hafter]. intros a Ha s.
      apply artifact_step_quiet. exact Ha.
    + intros Hascii. cbn. rewrite (str_len_ascii content Hascii). reflexivity.
  - intros Hquiet Htrace d files Hd.
    rewrite forallb_app in Hquiet. apply andb_prop in Hquiet as [Hbefore Hafter].
    apply all_quiet in Hbefore, Hafter.
    destruct (trace_file_step_trace E run_id artifact path content d files Htrace Hd)
      as (d' & Hstep & Hd').
    exists (JObj d'). split.
    + rewrite for_each_app, for_each_skip, bind_ret_l.
      2:{ eapply Forall_impl; [|exact Hbefore]. intros a Ha s.
          apply trace_file_step_quiet. exact Ha. }
      cbn [for_each]. rewrite (value_bind_of _ _ (JObj d')) by exact Hstep.
      rewrite for_each_skip; [reflexivity|].
      eapply Forall_impl; [|exact Hafter]. intros a Ha s.
      apply trace_file_step_quiet. exact Ha.
    + cbn [field]. rewrite Hd'. reflexivity.
Qed.

Lemma one_trace_artifact_one_record_witness :
  let E := Examples.env_of (Examples.two_runs 200) in
  let files := [JObj [("path", JStr "model/model.pkl")];
                JObj [("path", JStr "run/trace.json")]] in
  (value (ExperimentTraceDumper.traces_from_artifacts E (JStr "r1") []) =
     Ok [artifact_record "run/trace.json" "{}"] /\
   field "size" (artifact_record "run/trace.json" "{}") = JInt 2) /\
  exists trace_data,
    value (for_each files (LangGraphTraceDumper.trace_file_step E (JStr "r1"))
             (JObj [("langraph_trace", JObj []); ("trace_files", JArr [])]))
      = Ok trace_data /\
    field "trace_files" trace_data = JArr [trace_file_record "run/trace.json" "{}"].
Proof.
  cbv zeta.
  pose (E := Examples.env_of (Examples.two_runs 200)).
  pose (model := JObj [("path", JStr "model/model.pkl")]).
  pose (trace := JObj [("path", JStr "run/trace.json")]).
  assert (Ha : answers E (ArtifactsList (JStr "r1"))
                 (JObj [("files", JArr ([model] ++ trace :: []))])).
  { eexists. repeat split; reflexivity. }
  assert (Ht : trace_artifact E ExperimentTraceDumper.artifact_keywords (JStr "r1")
                 trace "run/trace.json" "{}").
  { split; [reflexivity|]. split; [reflexivity|]. eexists. repeat split; reflexivity. }
  assert (Hl : trace_artifact E LangGraphTraceDumper.trace_file_patterns (JStr "r1")
                 trace "run/trace.json" "{}").
  { split; [reflexivity|]. split; [reflexivity|]. eexists. repeat split; reflexivity. }
  destruct (one_trace_artifact_one_record E (JStr "r1") _ [model] [] trace
              "run/trace.json" "{}" Ha eq_refl) as [H H'].
  split.
  - destruct (H eq_refl Ht) as (Hv & _ & Hsize & _).
    split; [exact Hv|exact Hsize].
  - exact (H' eq_refl Hl [("langraph_trace", JObj []); ("trace_files", JArr [])] []
              eq_refl).
Defined.

(** A path is lowered before it is searched: the Kelvin sign becomes [k], so
    ["out/wor<U+212A>flow_trace"] is a trace file, and with ["run/trace.json"]
    next to it the artifact loop of [mlflow/langraph_trace_dumper.py] adds two
    entries. *)
Lemma kelvin_sign_path_is_a_trace_file :
  let E := Examples.env_of Examples.kelvin_artifacts in
  let path := ("out/wor" ++ Examples.kelvin_sign ++ "flow_trace")%string in
  any_in LangGraphTraceDumper.trace_file_patterns path = false /\
  lower path = "out/workflow_trace" /\
  quiet_artifact LangGraphTraceDumper.trace_file_patterns (JObj [("path", JStr path)])
    = false /\
  res_map (fun trace_data => size_of (field "trace_files" trace_data))
    (value (for_each [JObj [("path", JStr path)]; JObj [("path", JStr "run/trace.json")]]
              (LangGraphTraceDumper.trace_file_step E (JStr "r1"))
              (JObj [("langraph_trace", JObj []); ("trace_files", JArr [])])))
    = Ok 2%nat.
Proof. cbv zeta. repeat split; vm_compute; reflexivity. Qed.

(** C5 as stated fails: the recorded size counts characters, not bytes. *)
Lemma size_counts_characters_not_bytes :
  let E := Examples.env_of (Examples.one_artifact Examples.e_acute) in
  value (ExperimentTraceDumper.traces_from_artifacts E (JStr "r1") []) =
    Ok [JObj [("trace_id", JStr "run/trace.json");
              ("source", JStr "artifact");
              ("artifact_path", JStr "run/trace.json");
              ("content", JStr Examples.e_acute);
              ("size", JInt 1)]] /\
  String.length Examples.e_acute = 2%nat.
Proof. cbv zeta. split; reflexivity. Qed.

End ArtifactPass.

(** ** C6: a run without traces *)

Module QuietRun.
Import Laws Classifier ArtifactPass Phases.

Section Methods.
Variable E : env.

Lemma api_pass_quiet run_id acc :
  no_api_traces E run_id ->
  value (ExperimentTraceDumper.traces_from_api E run_id acc) = Ok acc.
Proof.
  intros [(r & Hr & Hs)|(body & (r & Hr & Hs & Hb) & Htraces)];
    unfold ExperimentTraceDumper.traces_from_api;
    rewrite (value_bind_of _ _ r) by (apply value_session_get; exact Hr).
  - apply Z.eqb_neq in Hs. rewrite Hs. reflexivity.
  - rewrite Hs. change (200 =? 200) with true. cbv iota.
    rewrite (value_bind_of _ _ body) by (apply value_response_json; exact Hb).
    rewrite (value_bind_of _ _ (JArr [])) by exact Htraces.
    reflexivity.
Qed.

Lemma artifact_pass_quiet run_id acc :
  no_trace_artifact E ExperimentTraceDumper.artifact_keywords run_id ->
  value (ExperimentTraceDumper.traces_from_artifacts E run_id acc) = Ok acc.
Proof.
  intros [(r & Hr & Hs)|(body & files & (r & Hr & Hs & Hb) & Hfiles & Hquiet)];
    unfold ExperimentTraceDumper.traces_from_artifacts;
    rewrite (value_bind_of _ _ r) by (apply value_session_get; exact Hr).
  - apply Z.eqb_neq in Hs. rewrite Hs. reflexivity.
  - rewrite Hs. change (200 =? 200) with true. cbv iota.
    rewrite (value_bind_of _ _ body) by (apply value_response_json; exact Hb).
    rewrite (value_bind_of _ _ (JArr files)) by exact Hfiles.
    rewrite (value_bind_of _ _ files) by reflexivity.
    rewrite for_each_skip; [reflexivity|].
    apply all_quiet in Hquiet. eapply Forall_impl; [|exact Hquiet].
    intros a Ha s. apply artifact_step_quiet. exact Ha.
Qed.

Lemma filter_none {A} (f : A -> bool) l : existsb f l = false -> filter f l = [].
Proof.
  induction l as [|x l IH]; cbn; [reflexivity|].
  intros H. apply orb_false_iff in H as [Hx Hl]. rewrite Hx. auto.
Qed.

Lemma metadata_pass_quiet run_id acc :
  no_trace_metadata E ExperimentTraceDumper.metadata_keywords run_id ->
  value (ExperimentTraceDumper.traces_from_metadata E run_id acc) = Ok acc.
Proof.
  intros [(r & Hr & Hs)|(body & run_data & data & tags & params & Ha & Hrun & Hdata
                         & Htags & Hparams & Ht & Hp)].
  - unfold ExperimentTraceDumper.traces_from_metadata.
    rewrite (value_bind_of _ _ r) by (apply value_session_get; exact Hr).
    apply Z.eqb_neq in Hs. rewrite Hs. reflexivity.
  - rewrite (metadata_pass_value E run_id body run_data data tags params acc
               Ha Hrun Hdata Htags Hparams).
    rewrite (filter_none _ _ Ht), (filter_none _ _ Hp), app_nil_r. reflexivity.
Qed.

Lemma quiet_run_no_traces run_id :
  no_api_traces E run_id ->
  no_trace_artifact E ExperimentTraceDumper.artifact_keywords run_id ->
  no_trace_metadata E ExperimentTraceDumper.metadata_keywords run_id ->
  value (ExperimentTraceDumper.get_traces_for_run E run_id) = Ok [].
Proof.
  intros Ha Hb Hc.
  apply (get_traces_for_run_value E run_id [] [] []).
  - apply api_pass_quiet, Ha.
  - apply artifact_pass_quiet, Hb.
  - apply metadata_pass_quiet, Hc.
Qed.

End Methods.

End QuietRun.

(** ** The run list of the single-experiment dumps *)

Module RunList.
Import Laws Phases.

Lemma run_id_of_inv run run_id :
  run_id_of run = Ok run_id ->
  exists d info,
    run = JObj d /\ py_index run "info" = Ok (JObj info) /\
    py_index (JObj info) "run_id" = Ok run_id.
Proof.
  unfold run_id_of. destruct (py_index run "info") as [info|e] eqn:Hinfo; [|discriminate].
  intros Hid. destruct (py_index_dict _ _ _ Hinfo) as (d & ->).
  destruct (py_index_dict _ _ _ Hid) as (i & ->). eauto.
Qed.

Section Methods.
Variable E : env.

Lemma collect_run_value run run_id details traces :
  run_id_of run = Ok run_id ->
  value (ExperimentTraceDumper.get_run_details E run_id) = Ok details ->
  value (ExperimentTraceDumper.get_traces_for_run E run_id) = Ok traces ->
  value (collect_run E run) =
  Ok (JObj [("run_info", run); ("run_details", details); ("traces", JArr traces)],
      length traces).
Proof.
  intros Hid Hdetails Htraces.
  apply run_id_of_inv in Hid as (d & info & -> & Hinfo & Hrid).
  unfold collect_run.
  rewrite (value_bind_of _ _ (JObj info)) by exact Hinfo.
  rewrite (value_bind_of _ _ run_id) by exact Hrid.
  rewrite (value_bind_of _ _ (JObj info)) by exact Hinfo.
  rewrite (value_bind_of _ _ (match dict_get info "run_name" with
                              | Some v => v | None => JStr "Unknown" end))
    by reflexivity.
  rewrite (value_bind_of _ _ tt) by reflexivity.
  rewrite (value_bind_of _ _ details) by exact Hdetails.
  rewrite (value_bind_of _ _ traces) by exact Htraces.
  reflexivity.
Qed.

Lemma collect_processable run :
  processable E run = true ->
  value (collect_run E run) =
  Ok (run_entry E run, size_of (field "traces" (run_entry E run))).
Proof.
  unfold processable, run_entry. destruct (run_id_of run) as [run_id|] eqn:Hid;
    [|discriminate].
  intros H. apply andb_prop in H as [Hd Ht].
  destruct (value (ExperimentTraceDumper.get_run_details E run_id)) as [details|] eqn:Hdetails;
    [|discriminate].
  destruct (value (ExperimentTraceDumper.get_traces_for_run E run_id)) as [traces|] eqn:Htraces;
    [|discriminate].
  rewrite (collect_run_value run run_id details traces Hid Hdetails Htraces).
  unfold outcome. rewrite Hdetails, Htraces. reflexivity.
Qed.

Lemma get_experiment_info_dict experiment_id info :
  value (ExperimentTraceDumper.get_experiment_info E experiment_id) = Ok info ->
  truthy info = true ->
  exists d, info = JObj d.
Proof.
  unfold ExperimentTraceDumper.get_experiment_info. rewrite value_try_request.
  destruct (value _) as [v|[|]] eqn:Hv at 1.
  - intros [= ->] _.
    apply value_bind_ok in Hv as (r & _ & Hv).
    apply value_bind_ok in Hv as (_ & _ & Hv).
    apply value_bind_ok in Hv as (body & _ & Hv).
    apply value_bind_ok in Hv as (experiment & _ & Hv).
    apply value_bind_ok in Hv as (name & Hname & Hv).
    apply value_bind_ok in Hv as (_ & _ & Hv).
    injection Hv as <-. exact (py_get_dict _ _ _ _ Hname).
  - cbn. intros [= <-]. discriminate.
  - discriminate.
Qed.

(** The document of [dump_experiment_traces] when the experiment is found
    and no run of its run list makes the dump raise. *)
Lemma dump_value experiment_id output_file now info runs :
  value (ExperimentTraceDumper.get_experiment_info E experiment_id) = Ok info ->
  truthy info = true ->
  value (ExperimentTraceDumper.get_runs_for_experiment E experiment_id) = Ok (JArr runs) ->
  forallb (processable E) runs = true ->
  value (ExperimentTraceDumper.dump_experiment_traces E experiment_id output_file now) =
  Ok (experiment_document E experiment_id info (name_of info) now (length runs)
        (Z.of_nat (list_sum (map (fun run => size_of (field "traces" (run_entry E run))) runs)))
        (map (run_entry E) runs)).
Proof.
  intros Hinfo Htruthy Hruns Hall.
  destruct (get_experiment_info_dict _ _ Hinfo Htruthy) as (d & ->).
  rewrite dump_two_phase.
  assert (Hg : value (gather E experiment_id) =
    Ok (Some (JObj d, name_of (JObj d), length runs,
              map (fun run => (run_entry E run, size_of (field "traces" (run_entry E run))))
                  runs))).
  { unfold gather.
    rewrite (value_bind_of _ _ tt) by reflexivity.
    rewrite (value_bind_of _ _ (JObj d)) by exact Hinfo.
    rewrite Htruthy. cbn [negb].
    rewrite (value_bind_of _ _ (name_of (JObj d))) by reflexivity.
    rewrite (value_bind_of _ _ (JArr runs)) by exact Hruns.
    rewrite (value_bind_of _ _ (length runs)) by reflexivity.
    rewrite (value_bind_of _ _ runs) by reflexivity.
    rewrite (value_bind_of _ _
               (map (fun run => (run_entry E run,
                                 size_of (field "traces" (run_entry E run)))) runs)).
    - reflexivity.
    - rewrite (map_m_all_ok (JNull, O)).
      + f_equal. apply map_ext_in. intros run Hin.
        unfold outcome. rewrite collect_processable; [reflexivity|].
        rewrite forallb_forall in Hall. apply Hall. exact Hin.
      + apply Forall_forall. intros run Hin.
        rewrite collect_processable; [reflexivity|].
        rewrite forallb_forall in Hall. apply Hall. exact Hin. }
  rewrite (value_bind_of _ _ _ Hg). cbn [finish]. unfold deliver.
  rewrite (value_bind_of _ _ tt) by apply value_save.
  rewrite (value_bind_of _ _ tt) by reflexivity.
  cbn [value ret snd]. rewrite record_all_experiment_document.
  rewrite !map_map. cbn [fst snd app Z.add]. reflexivity.
Qed.

End Methods.

End RunList.

(** ** C6: a run without traces is still recorded *)

Module QuietRunRecorded.
Import Laws RunList QuietRun.

(** C6.  A run for which trace search holds nothing, no artifact path holds
    a keyword and no tag or parameter key holds one gets no trace record;
    and when the experiment is found and no run of its run list makes the
    dump raise, the document lists the run, with its search-result record and
    an empty trace list. *)
Theorem quiet_run_is_recorded_without_traces (E : env) (experiment_id : json)
    (output_file : option string) (now : string) (info : json)
    (runs : list json) (run run_id : json) :
  no_api_traces E run_id ->
  no_trace_artifact E ExperimentTraceDumper.artifact_keywords run_id ->
  no_trace_metadata E ExperimentTraceDumper.metadata_keywords run_id ->
  value (ExperimentTraceDumper.get_traces_for_run E run_id) = Ok [] /\
  (value (ExperimentTraceDumper.get_experiment_info E experiment_id) = Ok info ->
   truthy info = true ->
   value (ExperimentTraceDumper.get_runs_for_experiment E experiment_id) = Ok (JArr runs) ->
   forallb (processable E) runs = true ->
   In run runs ->
   run_id_of run = Ok run_id ->
   exists doc entry,
     value (ExperimentTraceDumper.dump_experiment_traces E experiment_id output_file now)
       = Ok doc /\
     In entry (items_of (field "runs" doc)) /\
     field "run_info" entry = run /\
     field "traces" entry = JArr [] /\
     length (items_of (field "runs" doc)) = length runs).
Proof.
  intros Hapi Hart Hmeta.
  pose proof (quiet_run_no_traces E run_id Hapi Hart Hmeta) as Hnone.
  split; [exact Hnone|].
  intros Hinfo Htruthy Hruns Hall Hin Hid.
  eexists. exists (run_entry E run).
  split; [apply dump_value; eassumption|].
  cbn [field experiment_document dict_get String.eqb Ascii.eqb Bool.eqb items_of].
  split; [apply in_map; exact Hin|].
  unfold run_entry. rewrite Hid. unfold outcome. rewrite Hnone.
  cbn. rewrite length_map. repeat split; reflexivity.
Qed.

Lemma quiet_run_is_recorded_without_traces_witness :
  let E := Examples.env_of (Examples.two_runs 404) in
  exists doc entry,
    value (ExperimentTraceDumper.dump_experiment_traces E (JStr "exp-1") None "t0") = Ok doc /\
    In entry (items_of (field "runs" doc)) /\
    field "run_info" entry = Examples.run_named "r2" /\
    field "traces" entry = JArr [] /\
    length (items_of (field "runs" doc)) = 2%nat.
Proof.
  cbv zeta.
  pose (E := Examples.env_of (Examples.two_runs 404)).
  assert (Hapi : no_api_traces E (JStr "r2")).
  { left. eexists. split; [reflexivity|discriminate]. }
  assert (Hart : no_trace_artifact E ExperimentTraceDumper.artifact_keywords (JStr "r2")).
  { right. exists (JObj [("files", JArr [])]), [].
    split; [eexists; repeat split; reflexivity|]. split; reflexivity. }
  assert (Hmeta : no_trace_metadata E ExperimentTraceDumper.metadata_keywords (JStr "r2")).
  { right. exists (JObj [("run", Examples.run_named "r2")]), (Examples.run_named "r2"),
      (JObj []), [], [].
    split; [eexists; repeat split; reflexivity|]. repeat split; reflexivity. }
  destruct (quiet_run_is_recorded_without_traces E (JStr "exp-1") None "t0"
              Examples.exp1 [Examples.run_named "r1"; Examples.run_named "r2"]
              (Examples.run_named "r2") (JStr "r2") Hapi Hart Hmeta) as [_ H].
  apply H; try reflexivity. right. left. reflexivity.
Defined.

End QuietRunRecorded.

(** ** C7: a failing run-detail fetch *)

Module FailedRun.
Import Laws RunList Phases.

Section Methods.
Variable E : env.

Lemma get_trace_data_fails run_id :
  fails E (RunsGet run_id) ->
  value (MLflowTraceDumper.get_trace_data E run_id) = Ok JNull.
Proof.
  intros H. unfold MLflowTraceDumper.get_trace_data.
  rewrite value_try_request, value_bind. unfold MLflowTraceDumper.run_snapshot.
  rewrite value_bind.
  destruct H as [H|(r & H & Hs)].
  - rewrite (value_session_get_error E _ H). reflexivity.
  - rewrite (value_session_get E _ r H), value_bind.
    unfold raise_for_status. rewrite Hs. reflexivity.
Qed.

Lemma attach_failed_run msg run run_id :
  run_id_of run = Ok run_id ->
  fails E (RunsGet run_id) ->
  value (MLflowTraceDumper.attach_trace_data E msg run) =
  Ok (set_item "trace_data" JNull run, O).
Proof.
  intros Hid Hfails.
  apply run_id_of_inv in Hid as (d & info & -> & Hinfo & Hrid).
  unfold MLflowTraceDumper.attach_trace_data.
  rewrite (value_bind_of _ _ (JObj info)) by exact Hinfo.
  rewrite (value_bind_of _ _ run_id) by exact Hrid.
  rewrite (value_bind_of _ _ (JObj info)) by exact Hinfo.
  rewrite (value_bind_of _ _ (match dict_get info "run_name" with
                              | Some v => v | None => JStr "Unknown" end))
    by reflexivity.
  rewrite (value_bind_of _ _ tt) by reflexivity.
  rewrite (value_bind_of _ _ JNull) by (apply get_trace_data_fails; exact Hfails).
  reflexivity.
Qed.

(** The document of [dump_experiment_traces] when no run of the run list
    makes the dump raise. *)
Lemma single_dump_value experiment_id output_file now runs :
  value (MLflowTraceDumper.get_runs_for_experiment E experiment_id) = Ok (JArr runs) ->
  Forall (fun run => is_ok (value (single_attach E run)) = true) runs ->
  value (MLflowTraceDumper.dump_experiment_traces E experiment_id output_file now) =
  Ok (single_document E experiment_id now (length runs)
        (Z.of_nat (list_sum (map (fun run => snd (outcome (JNull, O) (single_attach E run)))
                                 runs)))
        (map (attached E) runs)).
Proof.
  intros Hruns Hall. rewrite single_two_phase.
  assert (Hg : value (single_gather E experiment_id) =
    Ok (length runs, map (fun run => outcome (JNull, O) (single_attach E run)) runs)).
  { unfold single_gather.
    rewrite (value_bind_of _ _ tt) by reflexivity.
    rewrite (value_bind_of _ _ (JArr runs)) by exact Hruns.
    rewrite (value_bind_of _ _ (length runs)) by reflexivity.
    rewrite (value_bind_of _ _ runs) by reflexivity.
    rewrite (value_bind_of _ _
               (map (fun run => outcome (JNull, O) (single_attach E run)) runs))
      by (apply map_m_all_ok; exact Hall).
    reflexivity. }
  rewrite (value_bind_of _ _ _ Hg). unfold single_finish, deliver.
  rewrite (value_bind_of _ _ tt) by apply value_save.
  rewrite (value_bind_of _ _ tt) by reflexivity.
  cbn [value ret snd fst]. rewrite record_all_single_document.
  rewrite !map_map. cbn [app Z.add]. reflexivity.
Qed.

End Methods.

(** C7.  When the run-detail fetch of one run fails, its trace data is
    [None] and it adds nothing to the trace count; provided no other run of
    the list makes the dump raise, the document lists the run where the
    search results had it, unchanged but for the [trace_data] entry, and
    every other run exactly as the run loop leaves it on its own. *)
Theorem failed_run_is_kept (E : env) (experiment_id : json)
    (output_file : option string) (now : string)
    (before after : list json) (run run_id : json) :
  run_id_of run = Ok run_id ->
  fails E (RunsGet run_id) ->
  value (MLflowTraceDumper.get_runs_for_experiment E experiment_id)
    = Ok (JArr (before ++ run :: after)) ->
  forallb (fun other => is_ok (value (single_attach E other))) (before ++ after) = true ->
  value (MLflowTraceDumper.get_trace_data E run_id) = Ok JNull /\
  exists doc,
    value (MLflowTraceDumper.dump_experiment_traces E experiment_id output_file now) = Ok doc /\
    items_of (field "runs" doc) =
      map (attached E) before ++ set_item "trace_data" JNull run :: map (attached E) after /\
    field "trace_data" (set_item "trace_data" JNull run) = JNull /\
    (forall k, k <> "trace_data" ->
               field k (set_item "trace_data" JNull run) = field k run) /\
    metadata_count "total_runs" doc = Some (Z.of_nat (length (before ++ run :: after))) /\
    metadata_count "total_traces" doc =
      Some (Z.of_nat (list_sum (map (fun other => counted_for_run SingleDump (attached E other))
                                    (before ++ after)))).
Proof.
  intros Hid Hfails Hruns Hothers.
  split; [apply get_trace_data_fails; exact Hfails|].
  pose proof (attach_failed_run E "Processing run: {run_name} (ID: {run_id})"
                run run_id Hid Hfails) as Hrun.
  fold (single_attach E run) in Hrun.
  rewrite forallb_app in Hothers. apply andb_prop in Hothers as [Hbefore Hafter].
  rewrite forallb_forall in Hbefore, Hafter.
  assert (Hall : Forall (fun r => is_ok (value (single_attach E r)) = true)
                        (before ++ run :: after)).
  { apply Forall_app. split; [apply Forall_forall; exact Hbefore|].
    constructor; [rewrite Hrun; reflexivity|apply Forall_forall; exact Hafter]. }
  assert (Hattached : attached E run = set_item "trace_data" JNull run).
  { unfold attached, outcome. rewrite Hrun. reflexivity. }
  assert (Hcount : forall l,
    (forall r, In r l -> is_ok (value (single_attach E r)) = true) ->
    map (fun r => snd (outcome (JNull, O) (single_attach E r))) l =
    map (fun r => counted_for_run SingleDump (attached E r)) l).
  { intros l Hl. apply map_ext_in. intros r Hr. specialize (Hl r Hr).
    unfold attached, outcome.
    destruct (value (single_attach E r)) as [y|] eqn:Hy; [|discriminate].
    symmetry. apply (Tally.attach_counts E _ r y Hy). }
  eexists. split; [apply single_dump_value; eassumption|].
  destruct (run_id_of_inv _ _ Hid) as (d & info & Hd & _).
  cbn [field single_document dict_get String.eqb Ascii.eqb Bool.eqb items_of
       metadata_count].
  repeat split.
  - rewrite map_app. cbn [map]. rewrite Hattached. reflexivity.
  - subst run. cbn. rewrite dict_get_set_same. reflexivity.
  - intros k Hk. apply field_set_item_other. exact Hk.
  - do 2 f_equal. rewrite !map_app, !list_sum_app. cbn [map list_sum fold_right].
    unfold outcome at 2. rewrite Hrun. cbn [snd].
    rewrite (Hcount before Hbefore), (Hcount after Hafter).
    unfold list_sum. lia.
Qed.

Lemma failed_run_is_kept_witness :
  let E := Examples.env_of Examples.middle_run_fails in
  exists doc,
    value (MLflowTraceDumper.dump_experiment_traces E (JStr "exp-1") None "t0") = Ok doc /\
    items_of (field "runs" doc) =
      [attached E (Examples.run_named "r1");
       set_item "trace_data" JNull (Examples.run_named "r2");
       attached E (Examples.run_named "r3")] /\
    metadata_count "total_runs" doc = Some 3 /\
    metadata_count "total_traces" doc = Some 1.
Proof.
  cbv zeta.
  pose (E := Examples.env_of Examples.middle_run_fails).
  assert (Hfails : fails E (RunsGet (JStr "r2"))).
  { right. eexists. split; reflexivity. }
  destruct (failed_run_is_kept E (JStr "exp-1") None "t0"
              [Examples.run_named "r1"] [Examples.run_named "r3"]
              (Examples.run_named "r2") (JStr "r2")
              eq_refl Hfails eq_refl eq_refl)
    as (_ & doc & Hdoc & Hruns & _ & _ & Htotal & Htraces).
  exists doc. repeat split; assumption.
Defined.

End FailedRun.

(** ** C2: one experiment, two runs, one trace artifact *)

Module Scenario.
Import Laws Classifier ArtifactPass RunList.

Section Methods.
Variable E : env.

Lemma get_all_experiments_value body experiments :
  answers E ExperimentsList body ->
  py_get body "experiments" (JArr []) = Ok (JArr experiments) ->
  value (Fetchers.get_all_experiments E) = Ok (JArr experiments).
Proof.
  intros (r & Hr & Hs & Hb) Hexp. unfold Fetchers.get_all_experiments.
  rewrite value_try_request.
  rewrite (value_bind_of _ _ r) by (apply value_session_get; exact Hr).
  rewrite (value_bind_of _ _ tt) by (apply value_raise_for_status_200; exact Hs).
  rewrite (value_bind_of _ _ body) by (apply value_response_json; exact Hb).
  rewrite (value_bind_of _ _ (JArr experiments)) by exact Hexp.
  reflexivity.
Qed.

Lemma get_runs_value experiment_id body runs :
  answers E (RunsSearch experiment_id 1000) body ->
  py_get body "runs" (JArr []) = Ok (JArr runs) ->
  value (Fetchers.get_runs_for_experiment E experiment_id) = Ok (JArr runs).
Proof.
  intros (r & Hr & Hs & Hb) Hruns. unfold Fetchers.get_runs_for_experiment.
  rewrite value_try_request.
  rewrite (value_bind_of _ _ r) by (apply value_session_get; exact Hr).
  rewrite (value_bind_of _ _ tt) by (apply value_raise_for_status_200; exact Hs).
  rewrite (value_bind_of _ _ body) by (apply value_response_json; exact Hb).
  rewrite (value_bind_of _ _ (JArr runs)) by exact Hruns.
  reflexivity.
Qed.

(** *** The two artifact loops of mlflow_trace_dumper.py *)

Lemma py_get_path_index artifact path :
  py_get artifact "path" (JStr "") = Ok (JStr path) ->
  any_in MLflowTraceDumper.trace_keywords (lower path) = true ->
  py_index artifact "path" = Ok (JStr path).
Proof.
  destruct artifact; try discriminate. cbn.
  destruct (dict_get fields "path"); intros [= <-] Hk;
    [reflexivity|cbn in Hk; discriminate].
Qed.

Lemma fallback_step_quiet run_id artifact acc :
  quiet_artifact MLflowTraceDumper.trace_keywords artifact = true ->
  MLflowTraceDumper.fallback_step E run_id artifact acc = ret acc.
Proof.
  intros H. apply quiet_artifact_path in H as (path & Hp & Hk).
  unfold MLflowTraceDumper.fallback_step.
  rewrite Hp. cbn [lift bind py_lower app]. rewrite Hk. reflexivity.
Qed.

Lemma fallback_step_trace run_id artifact path content acc :
  trace_artifact E MLflowTraceDumper.trace_keywords run_id artifact path content ->
  value (MLflowTraceDumper.fallback_step E run_id artifact acc) =
  Ok (acc ++ [fallback_record path content]).
Proof.
  intros (Hp & Hk & r & Hr & Hs & Ht).
  unfold MLflowTraceDumper.fallback_step.
  rewrite (value_bind_of _ _ (JStr path)) by exact Hp.
  rewrite (value_bind_of _ _ (lower path)) by reflexivity.
  rewrite Hk, value_try_any.
  rewrite (value_bind_of _ _ (JStr path)) by (apply py_get_path_index; assumption).
  rewrite (value_bind_of _ _ r) by (apply value_session_get; exact Hr).
  rewrite Hs, Ht. reflexivity.
Qed.

Lemma download_step_quiet run_id artifact trace_data :
  quiet_artifact MLflowTraceDumper.trace_keywords artifact = true ->
  MLflowTraceDumper.download_step E run_id artifact trace_data = ret trace_data.
Proof.
  intros H. apply quiet_artifact_path in H as (path & Hp & Hk).
  unfold MLflowTraceDumper.download_step.
  rewrite Hp. cbn [lift bind py_lower app]. rewrite Hk. reflexivity.
Qed.

Lemma download_step_trace run_id artifact path content d :
  trace_artifact E MLflowTraceDumper.trace_keywords run_id artifact path content ->
  value (MLflowTraceDumper.download_step E run_id artifact (JObj d)) =
  Ok (JObj (dict_set d ("artifact_" ++ path) (JStr content))).
Proof.
  intros (Hp & Hk & r & Hr & Hs & Ht).
  unfold MLflowTraceDumper.download_step.
  rewrite (value_bind_of _ _ (JStr path)) by exact Hp.
  rewrite (value_bind_of _ _ (lower path)) by reflexivity.
  rewrite Hk, value_try_any.
  rewrite (value_bind_of _ _ (JStr path)) by (apply py_get_path_index; assumption).
  rewrite (value_bind_of _ _ r) by (apply value_session_get; exact Hr).
  rewrite Hs, Ht. reflexivity.
Qed.

Lemma fallback_loop_value run_id files records :
  artifacts_of E run_id files records ->
  value (for_each files (MLflowTraceDumper.fallback_step E run_id) []) = Ok records.
Proof.
  intros [files' Hq|before artifact after path content Hq Ht].
  - rewrite for_each_skip; [reflexivity|].
    apply all_quiet in Hq. eapply Forall_impl; [|exact Hq].
    intros a Ha s. apply fallback_step_quiet. exact Ha.
  - rewrite forallb_app in Hq. apply andb_prop in Hq as [Hb Ha].
    apply all_quiet in Hb, Ha.
    rewrite for_each_app, for_each_skip, bind_ret_l.
    2:{ eapply Forall_impl; [|exact Hb]. intros a Hqa s.
        apply fallback_step_quiet. exact Hqa. }
    cbn [for_each].
    rewrite (value_bind_of _ _ ([] ++ [fallback_record path content]))
      by (apply fallback_step_trace; exact Ht).
    rewrite for_each_skip; [reflexivity|].
    eapply Forall_impl; [|exact Ha]. intros a Hqa s.
    apply fallback_step_quiet. exact Hqa.
Qed.

Lemma download_loop_value run_id files records d :
  artifacts_of E run_id files records ->
  exists d',
    value (for_each files (MLflowTraceDumper.download_step E run_id) (JObj d)) = Ok (JObj d') /\
    (d <> [] -> d' <> []).
Proof.
  intros [files' Hq|before artifact after path content Hq Ht].
  - exists d. split; [|auto].
    rewrite for_each_skip; [reflexivity|].
    apply all_quiet in Hq. eapply Forall_impl; [|exact Hq].
    intros a Ha s. apply download_step_quiet. exact Ha.
  - rewrite forallb_app in Hq. apply andb_prop in Hq as [Hb Ha].
    apply all_quiet in Hb, Ha.
    exists (dict_set d ("artifact_" ++ path) (JStr content)). split.
    + rewrite for_each_app, for_each_skip, bind_ret_l.
      2:{ eapply Forall_impl; [|exact Hb]. intros a Hqa s.
          apply download_step_quiet. exact Hqa. }
      cbn [for_each].
      rewrite (value_bind_of _ _ (JObj (dict_set d ("artifact_" ++ path) (JStr content))))
        by (apply download_step_trace; exact Ht).
      rewrite for_each_skip; [reflexivity|].
      eapply Forall_impl; [|exact Ha]. intros a Hqa s.
      apply download_step_quiet. exact Hqa.
    + intros _. destruct d as [|[k v] d]; cbn; [discriminate|].
      destruct (String.eqb k _); discriminate.
Qed.

Lemma dict_set_not_nil d k v : dict_set d k v <> [].
Proof.
  destruct d as [|[k' v'] d]; cbn; [discriminate|].
  destruct (String.eqb k' k); discriminate.
Qed.

(** The part of [get_trace_data] before the trace list: a non-empty dict. *)
Lemma run_snapshot_value run_id files records init :
  detail_served E run_id files ->
  artifacts_of E run_id files records ->
  (forall run_data, exists d, init run_data = JObj d /\ d <> []) ->
  exists d,
    value (MLflowTraceDumper.run_snapshot E run_id init) = Ok (JObj d) /\ d <> [].
Proof.
  intros ((body & run_data & data & (r & Hr & Hs & Hb) & Hrun & Hdata)
          & Hmetrics
          & (abody & (ra & Hra & Hsa & Hba) & Hfiles)) Harts Hinit.
  destruct (Hinit run_data) as (d0 & Hd0 & Hne0).
  unfold MLflowTraceDumper.run_snapshot.
  rewrite (value_bind_of _ _ r) by (apply value_session_get; exact Hr).
  rewrite (value_bind_of _ _ tt) by (apply value_raise_for_status_200; exact Hs).
  rewrite (value_bind_of _ _ body) by (apply value_response_json; exact Hb).
  rewrite (value_bind_of _ _ run_data) by exact Hrun.
  cbv zeta. rewrite Hd0.
  assert (Hm : exists d1 rm,
    value (session_get E (MetricsGetHistory run_id)) = Ok rm /\
    value (if status_code rm =? 200
           then body <- response_json rm ;;
                metrics <- lift (py_get body "metrics" (JArr [])) ;;
                ret (set_item "metrics" metrics (JObj d0))
           else ret (JObj d0)) = Ok (JObj d1) /\ d1 <> []).
  { destruct Hmetrics as [(rm & Hrm & Hsm)|(metrics & rm & Hrm & Hsm & Hbm)].
    - exists d0, rm. split; [apply value_session_get; exact Hrm|].
      apply Z.eqb_neq in Hsm. rewrite Hsm. split; [reflexivity|exact Hne0].
    - eexists _, rm. split; [apply value_session_get; exact Hrm|].
      rewrite Hsm. change (200 =? 200) with true. cbv iota.
      rewrite (value_bind_of _ _ (JObj metrics)) by (apply value_response_json; exact Hbm).
      split; [reflexivity|apply dict_set_not_nil]. }
  destruct Hm as (d1 & rm & Hrm & Hm & Hne1).
  rewrite (value_bind_of _ _ rm) by exact Hrm.
  rewrite (value_bind_of _ _ (JObj d1)) by exact Hm.
  rewrite (value_bind_of _ _ r) by (apply value_session_get; exact Hr).
  rewrite Hs. change (200 =? 200) with true. cbv iota.
  rewrite (value_bind_of _ _ (JObj (dict_set (dict_set d1 "parameters"
             (match dict_get data "params" with Some v => v | None => JObj [] end))
             "tags" (match dict_get data "tags" with Some v => v | None => JObj [] end)))).
  2:{ rewrite (value_bind_of _ _ body) by (apply value_response_json; exact Hb).
      rewrite (value_bind_of _ _ run_data) by exact Hrun.
      rewrite (value_bind_of _ _ (JObj data)) by exact Hdata.
      rewrite (value_bind_of _ _ (match dict_get data "params" with
                                  | Some v => v | None => JObj [] end))
        by reflexivity.
      rewrite (value_bind_of _ _ (JObj data)) by exact Hdata.
      rewrite (value_bind_of _ _ (match dict_get data "tags" with
                                  | Some v => v | None => JObj [] end))
        by reflexivity.
      reflexivity. }
  rewrite (value_bind_of _ _ ra) by (apply value_session_get; exact Hra).
  rewrite Hsa. change (200 =? 200) with true. cbv iota.
  rewrite (value_bind_of _ _ abody) by (apply value_response_json; exact Hba).
  rewrite (value_bind_of _ _ (JArr files)) by exact Hfiles.
  rewrite (value_bind_of _ _ files) by reflexivity.
  cbn [set_item on_dict].
  destruct (download_loop_value run_id files records
              (dict_set (dict_set (dict_set d1 "parameters"
                 (match dict_get data "params" with Some v => v | None => JObj [] end))
                 "tags" (match dict_get data "tags" with Some v => v | None => JObj [] end))
                 "artifacts" (JArr files)) Harts) as (d' & Hloop & Hne').
  exists d'. split; [exact Hloop|]. apply Hne'. apply dict_set_not_nil.
Qed.

Lemma root_traces_fallback run_id files records :
  declines E (TracesSearch run_id) ->
  detail_served E run_id files ->
  artifacts_of E run_id files records ->
  value (MLflowTraceDumper.get_traces_for_run E run_id) = Ok (JArr records).
Proof.
  intros (r & Hr & Hs) (_ & _ & (abody & (ra & Hra & Hsa & Hba) & Hfiles)) Harts.
  apply Z.eqb_neq in Hs.
  unfold MLflowTraceDumper.get_traces_for_run. rewrite value_try_request.
  rewrite (value_bind_of _ _ r) by (apply value_session_get; exact Hr).
  rewrite Hs.
  rewrite (value_bind_of _ _ ra) by (apply value_session_get; exact Hra).
  rewrite Hsa. change (200 =? 200) with true. cbv iota.
  rewrite (value_bind_of _ _ abody) by (apply value_response_json; exact Hba).
  rewrite (value_bind_of _ _ (JArr files)) by exact Hfiles.
  rewrite (value_bind_of _ _ files) by reflexivity.
  rewrite (value_bind_of _ _ records) by (apply fallback_loop_value; exact Harts).
  reflexivity.
Qed.

Lemma root_traces_answered run_id body traces :
  answers E (TracesSearch run_id) body ->
  py_get body "traces" (JArr []) = Ok (JArr traces) ->
  value (MLflowTraceDumper.get_traces_for_run E run_id) = Ok (JArr traces).
Proof.
  intros (r & Hr & Hs & Hb) Htraces.
  unfold MLflowTraceDumper.get_traces_for_run. rewrite value_try_request.
  rewrite (value_bind_of _ _ r) by (apply value_session_get; exact Hr).
  rewrite Hs. change (200 =? 200) with true. cbv iota.
  rewrite (value_bind_of _ _ body) by (apply value_response_json; exact Hb).
  rewrite (value_bind_of _ _ (JArr traces)) by exact Htraces.
  reflexivity.
Qed.

Lemma root_attach_value msg run run_id files records traces :
  run_id_of run = Ok run_id ->
  detail_served E run_id files ->
  artifacts_of E run_id files records ->
  value (MLflowTraceDumper.get_traces_for_run E run_id) = Ok (JArr traces) ->
  exists run',
    value (MLflowTraceDumper.attach_trace_data E msg run) = Ok (run', length traces).
Proof.
  intros Hid Hserved Harts Htraces.
  apply run_id_of_inv in Hid as (d & info & -> & Hinfo & Hrid).
  destruct (run_snapshot_value run_id files records
              (fun run_data =>
                 JObj [("run_id", run_id); ("run_data", run_data); ("metrics", JObj []);
                       ("parameters", JObj []); ("tags", JObj []); ("artifacts", JArr []);
                       ("traces", JArr [])]) Hserved Harts)
    as (snap & Hsnap & _).
  { intros run_data. eexists. split; [reflexivity|discriminate]. }
  assert (Htd : value (MLflowTraceDumper.get_trace_data E run_id) =
                Ok (JObj (dict_set snap "traces" (JArr traces)))).
  { unfold MLflowTraceDumper.get_trace_data. rewrite value_try_request.
    rewrite (value_bind_of _ _ (JObj snap)) by exact Hsnap.
    rewrite (value_bind_of _ _ (JArr traces)) by exact Htraces.
    reflexivity. }
  eexists. unfold MLflowTraceDumper.attach_trace_data.
  rewrite (value_bind_of _ _ (JObj info)) by exact Hinfo.
  rewrite (value_bind_of _ _ run_id) by exact Hrid.
  rewrite (value_bind_of _ _ (JObj info)) by exact Hinfo.
  rewrite (value_bind_of _ _ (match dict_get info "run_name" with
                              | Some v => v | None => JStr "Unknown" end))
    by reflexivity.
  rewrite (value_bind_of _ _ tt) by reflexivity.
  rewrite (value_bind_of _ _ _ Htd).
  replace (truthy (JObj (dict_set snap "traces" (JArr traces)))) with true.
  2:{ cbn. destruct (dict_set snap "traces" (JArr traces)) eqn:Hset; [|reflexivity].
      exfalso. exact (dict_set_not_nil _ _ _ Hset). }
  rewrite (value_bind_of _ _ (JArr traces))
    by (cbn; rewrite dict_get_set_same; reflexivity).
  rewrite (value_bind_of _ _ (length traces)) by reflexivity.
  reflexivity.
Qed.

Lemma dir_attach_value run run_id files records :
  run_id_of run = Ok run_id ->
  detail_served E run_id files ->
  artifacts_of E run_id files records ->
  exists run',
    value (MlflowDirTraceDumper.attach_trace_data E run) = Ok (run', 1%nat).
Proof.
  intros Hid Hserved Harts.
  apply run_id_of_inv in Hid as (d & info & -> & Hinfo & Hrid).
  destruct (run_snapshot_value run_id files records
              (fun run_data =>
                 JObj [("run_id", run_id); ("run_data", run_data); ("metrics", JObj []);
                       ("parameters", JObj []); ("tags", JObj []); ("artifacts", JArr [])])
              Hserved Harts)
    as (snap & Hsnap & Hne).
  { intros run_data. eexists. split; [reflexivity|discriminate]. }
  assert (Htd : value (MlflowDirTraceDumper.get_trace_data E run_id) = Ok (JObj snap)).
  { unfold MlflowDirTraceDumper.get_trace_data. rewrite value_try_request, Hsnap.
    reflexivity. }
  eexists. unfold MlflowDirTraceDumper.attach_trace_data.
  rewrite (value_bind_of _ _ (JObj info)) by exact Hinfo.
  rewrite (value_bind_of _ _ run_id) by exact Hrid.
  rewrite (value_bind_of _ _ (JObj info)) by exact Hinfo.
  rewrite (value_bind_of _ _ (match dict_get info "run_name" with
                              | Some v => v | None => JStr "Unknown" end))
    by reflexivity.
  rewrite (value_bind_of _ _ tt) by reflexivity.
  rewrite (value_bind_of _ _ _ Htd).
  replace (truthy (JObj snap)) with true by (destruct snap; [congruence|reflexivity]).
  reflexivity.
Qed.

(** The experiment loop body on an experiment with two runs. *)
Lemma experiment_step_two_runs attach experiment experiment_id run1 run2 y1 y2 doc :
  py_index experiment "experiment_id" = Ok experiment_id ->
  value (Fetchers.get_runs_for_experiment E experiment_id) = Ok (JArr [run1; run2]) ->
  value (attach run1) = Ok y1 ->
  value (attach run2) = Ok y2 ->
  value (experiment_step_over E attach experiment doc) =
  Ok (in_item "experiments"
        (append (JObj [("experiment_info", experiment);
                       ("runs", JArr [fst y1; fst y2])]))
        (MLflowTraceDumper.add_total_traces (snd y2)
           (MLflowTraceDumper.add_total_traces (snd y1)
              (in_item "metadata" (in_item "total_runs" (add_int 2)) doc)))).
Proof.
  intros Hid Hruns H1 H2.
  destruct (py_index_dict _ _ _ Hid) as (d & ->).
  unfold experiment_step_over.
  rewrite (value_bind_of _ _ experiment_id) by exact Hid.
  rewrite (value_bind_of _ _ (match dict_get d "name" with
                              | Some v => v | None => JStr "Unknown" end))
    by reflexivity.
  rewrite (value_bind_of _ _ tt) by reflexivity.
  rewrite (value_bind_of _ _ (JArr [run1; run2])) by exact Hruns.
  rewrite (value_bind_of _ _ 2%nat) by reflexivity.
  rewrite (value_bind_of _ _ [run1; run2]) by reflexivity.
  cbn [for_each].
  rewrite (value_bind_of _ _
    (MLflowTraceDumper.add_total_traces (snd y2)
       (MLflowTraceDumper.add_total_traces (snd y1)
          (in_item "metadata" (in_item "total_runs" (add_int 2)) doc)),
     [fst y1; fst y2])).
  - reflexivity.
  - rewrite (value_bind_of _ _
      (MLflowTraceDumper.add_total_traces (snd y1)
         (in_item "metadata" (in_item "total_runs" (add_int 2)) doc), [fst y1]))
      by (rewrite (value_bind_of _ _ y1) by exact H1; reflexivity).
    rewrite (value_bind_of _ _
      (MLflowTraceDumper.add_total_traces (snd y2)
         (MLflowTraceDumper.add_total_traces (snd y1)
            (in_item "metadata" (in_item "total_runs" (add_int 2)) doc)),
       [fst y1; fst y2]))
      by (rewrite (value_bind_of _ _ y2) by exact H2; reflexivity).
    reflexivity.
Qed.

(** The totals of a [dump_all_traces] over one experiment with two runs. *)
Lemma totals_of_one_experiment step attach out now saved failed started completed
      body experiment experiment_id run1 run2 y1 y2 :
  (forall e doc, step e doc = experiment_step_over E attach e doc) ->
  answers E ExperimentsList body ->
  py_get body "experiments" (JArr []) = Ok (JArr [experiment]) ->
  py_index experiment "experiment_id" = Ok experiment_id ->
  value (Fetchers.get_runs_for_experiment E experiment_id) = Ok (JArr [run1; run2]) ->
  value (attach run1) = Ok y1 ->
  value (attach run2) = Ok y2 ->
  res_map totals
    (value (log INFO started ;;
            let all_traces :=
              JObj [("metadata", JObj [("mlflow_url", JStr (mlflow_url E));
                                       ("dump_timestamp", JStr now);
                                       ("total_experiments", JInt 0);
                                       ("total_runs", JInt 0);
                                       ("total_traces", JInt 0)]);
                    ("experiments", JArr [])] in
            experiments <- Fetchers.get_all_experiments E ;;
            n <- lift (py_len experiments) ;;
            let all_traces :=
              in_item "metadata" (set_item "total_experiments" (JInt (Z.of_nat n)))
                all_traces in
            items <- lift (py_iter experiments) ;;
            all_traces <- for_each items step all_traces ;;
            save E all_traces out saved failed ;;
            log INFO completed ;;
            ret all_traces)) =
  Ok (Some 1, Some 2, Some (Z.of_nat (snd y1) + Z.of_nat (snd y2))).
Proof.
  intros Hstep Hlist Hexp Hid Hruns H1 H2.
  rewrite (value_bind_of _ _ tt) by reflexivity. cbv zeta.
  rewrite (value_bind_of _ _ (JArr [experiment]))
    by (eapply get_all_experiments_value; eassumption).
  rewrite (value_bind_of _ _ 1%nat) by reflexivity.
  rewrite (value_bind_of _ _ [experiment]) by reflexivity.
  cbn [for_each]. rewrite bind_ret_r, Hstep.
  erewrite value_bind_of
    by (eapply experiment_step_two_runs; eassumption).
  rewrite (value_bind_of _ _ tt) by apply value_save.
  rewrite (value_bind_of _ _ tt) by reflexivity.
  cbn [value ret snd res_map]. f_equal.
Qed.

End Methods.

End Scenario.

(** ** C2: the totals of the scenario *)

Module ScenarioTotals.
Import Laws Scenario.

(** C2, as amended.  For a server with one experiment and two runs whose
    details are served, where one run has exactly one keyword-matching
    artifact that downloads and no other artifact matches:
    [mlflow_trace_dumper.py] reports 1 experiment, 2 runs and 1 trace when
    trace search declines for the run with the artifact (the artifact pass is
    its fallback), and 0 traces when trace search answers 200 with no traces;
    [mlflow/mlflow_trace_dumper.py] reports 1 experiment, 2 runs and 2
    traces, one per run with trace data. *)
Theorem scenario_totals (E : env) (output_file : option string) (now : string)
    (body_e experiment experiment_id body_r run1 run2 id1 id2 : json)
    (before after files2 : list json) (artifact : json) (path content : string) :
  answers E ExperimentsList body_e ->
  py_get body_e "experiments" (JArr []) = Ok (JArr [experiment]) ->
  py_index experiment "experiment_id" = Ok experiment_id ->
  answers E (RunsSearch experiment_id 1000) body_r ->
  py_get body_r "runs" (JArr []) = Ok (JArr [run1; run2]) ->
  run_id_of run1 = Ok id1 ->
  run_id_of run2 = Ok id2 ->
  detail_served E id1 (before ++ artifact :: after) ->
  detail_served E id2 files2 ->
  forallb (quiet_artifact MLflowTraceDumper.trace_keywords) (before ++ after) = true ->
  forallb (quiet_artifact MLflowTraceDumper.trace_keywords) files2 = true ->
  trace_artifact E MLflowTraceDumper.trace_keywords id1 artifact path content ->
  no_api_traces E id2 ->
  (declines E (TracesSearch id1) ->
   res_map totals (value (MLflowTraceDumper.dump_all_traces E output_file now))
     = Ok (Some 1, Some 2, Some 1)) /\
  ((exists body, answers E (TracesSearch id1) body /\
                 py_get body "traces" (JArr []) = Ok (JArr [])) ->
   res_map totals (value (MLflowTraceDumper.dump_all_traces E output_file now))
     = Ok (Some 1, Some 2, Some 0)) /\
  res_map totals (value (MlflowDirTraceDumper.dump_all_traces E output_file now))
    = Ok (Some 1, Some 2, Some 2).
Proof.
  intros Hlist Hexp Heid Hsearch Hruns Hid1 Hid2 Hserved1 Hserved2 Hq1 Hq2 Htrace Hapi2.
  pose proof (get_runs_value E experiment_id body_r [run1; run2] Hsearch Hruns) as Hr.
  pose proof (one_trace_artifact E id1 before artifact after path content Hq1 Htrace)
    as Harts1.
  pose proof (all_quiet_artifacts E id2 files2 Hq2) as Harts2.
  assert (Ht2 : value (MLflowTraceDumper.get_traces_for_run E id2) = Ok (JArr [])).
  { destruct Hapi2 as [Hd|(body & Ha & Hb)].
    - eapply root_traces_fallback; eassumption.
    - eapply root_traces_answered; eassumption. }
  destruct (root_attach_value E "  Processing run: {run_name} (ID: {run_id})"
              run2 id2 files2 [] [] Hid2 Hserved2 Harts2 Ht2) as (r2' & Ha2).
  split; [|split].
  - intros Hdecl.
    pose proof (root_traces_fallback E id1 _ _ Hdecl Hserved1 Harts1) as Ht1.
    destruct (root_attach_value E "  Processing run: {run_name} (ID: {run_id})"
                run1 id1 _ _ _ Hid1 Hserved1 Harts1 Ht1) as (r1' & Ha1).
    unfold MLflowTraceDumper.dump_all_traces.
    erewrite (totals_of_one_experiment E (MLflowTraceDumper.experiment_step E)
                (MLflowTraceDumper.attach_trace_data E
                   "  Processing run: {run_name} (ID: {run_id})"));
      try eassumption; reflexivity.
  - intros (body & Hans & Hnone).
    pose proof (root_traces_answered E id1 body [] Hans Hnone) as Ht1.
    destruct (root_attach_value E "  Processing run: {run_name} (ID: {run_id})"
                run1 id1 _ _ _ Hid1 Hserved1 Harts1 Ht1) as (r1' & Ha1).
    unfold MLflowTraceDumper.dump_all_traces.
    erewrite (totals_of_one_experiment E (MLflowTraceDumper.experiment_step E)
                (MLflowTraceDumper.attach_trace_data E
                   "  Processing run: {run_name} (ID: {run_id})"));
      try eassumption; reflexivity.
  - destruct (dir_attach_value E run1 id1 _ _ Hid1 Hserved1 Harts1) as (r1' & Ha1).
    destruct (dir_attach_value E run2 id2 _ _ Hid2 Hserved2 Harts2) as (d2' & Hd2).
    unfold MlflowDirTraceDumper.dump_all_traces.
    erewrite (totals_of_one_experiment E (MlflowDirTraceDumper.experiment_step E)
                (MlflowDirTraceDumper.attach_trace_data E));
      try eassumption; reflexivity.
Qed.

Lemma scenario_totals_witness :
  let E := Examples.env_of (Examples.two_runs 404) in
  res_map totals (value (MLflowTraceDumper.dump_all_traces E None "t0"))
    = Ok (Some 1, Some 2, Some 1) /\
  res_map totals (value (MlflowDirTraceDumper.dump_all_traces E None "t0"))
    = Ok (Some 1, Some 2, Some 2).
Proof.
  cbv zeta.
  pose (E := Examples.env_of (Examples.two_runs 404)).
  pose (model := JObj [("path", JStr "model/model.pkl")]).
  pose (trace := JObj [("path", JStr "run/trace.json")]).
  assert (Hlist : answers E ExperimentsList (JObj [("experiments", JArr [Examples.exp1])])).
  { eexists. repeat split; reflexivity. }
  assert (Hsearch : answers E (RunsSearch (JStr "exp-1") 1000)
            (JObj [("runs", JArr [Examples.run_named "r1"; Examples.run_named "r2"])])).
  { eexists. repeat split; reflexivity. }
  assert (Hserved1 : detail_served E (JStr "r1") ([model] ++ trace :: [])).
  { split; [|split].
    - exists (JObj [("run", Examples.run_named "r1")]), (Examples.run_named "r1"), [].
      split; [eexists; repeat split; reflexivity|]. split; reflexivity.
    - right. eexists. eexists. repeat split; reflexivity.
    - eexists. split; [eexists; repeat split; reflexivity|reflexivity]. }
  assert (Hserved2 : detail_served E (JStr "r2") []).
  { split; [|split].
    - exists (JObj [("run", Examples.run_named "r2")]), (Examples.run_named "r2"), [].
      split; [eexists; repeat split; reflexivity|]. split; reflexivity.
    - right. eexists. eexists. repeat split; reflexivity.
    - eexists. split; [eexists; repeat split; reflexivity|reflexivity]. }
  assert (Htrace : trace_artifact E MLflowTraceDumper.trace_keywords (JStr "r1")
                     trace "run/trace.json" "{}").
  { split; [reflexivity|]. split; [reflexivity|]. eexists. repeat split; reflexivity. }
  assert (Hdecl : forall id, declines E (TracesSearch id)).
  { intros id. eexists. split; [reflexivity|discriminate]. }
  destruct (scenario_totals E None "t0" _ Examples.exp1 (JStr "exp-1") _
              (Examples.run_named "r1") (Examples.run_named "r2") (JStr "r1") (JStr "r2")
              [model] [] [] trace "run/trace.json" "{}"
              Hlist eq_refl eq_refl Hsearch eq_refl eq_refl eq_refl
              Hserved1 Hserved2 eq_refl eq_refl Htrace (or_introl (Hdecl _)))
    as (Hroot & _ & Hdir).
  split; [exact (Hroot (Hdecl _))|exact Hdir].
Defined.

(** C2 as stated fails: on the scenario's server the script under [mlflow/]
    reports two traces, and [mlflow_trace_dumper.py] reports none when trace
    search answers 200 with an empty list. *)
Lemma scenario_totals_differ :
  res_map totals
    (value (MlflowDirTraceDumper.dump_all_traces
              (Examples.env_of (Examples.two_runs 404)) None "t0"))
    = Ok (Some 1, Some 2, Some 2) /\
  res_map totals
    (value (MLflowTraceDumper.dump_all_traces
              (Examples.env_of (Examples.two_runs 200)) None "t0"))
    = Ok (Some 1, Some 2, Some 0).
Proof. split; vm_compute; reflexivity. Qed.

End ScenarioTotals.

(** * Further properties of the scripts *)

(** ** What escapes and what is written *)

Module EffectFacts.
Import Laws.

Lemma py_get_other j k d e : py_get j k d = Raise e -> e = OtherException.
Proof. destruct j; cbn; congruence. Qed.

Lemma py_index_other j k e : py_index j k = Raise e -> e = OtherException.
Proof.
  destruct j; cbn; try congruence. destruct (dict_get fields k); congruence.
Qed.

Lemma py_len_other j e : py_len j = Raise e -> e = OtherException.
Proof. destruct j; cbn; congruence. Qed.

Lemma py_iter_other j e : py_iter j = Raise e -> e = OtherException.
Proof. destruct j; cbn; congruence. Qed.

Lemma py_items_other j e : py_items j = Raise e -> e = OtherException.
Proof. destruct j; cbn; congruence. Qed.

Lemma py_lower_other j e : py_lower j = Raise e -> e = OtherException.
Proof. destruct j; cbn; congruence. Qed.

(** *** Calm computations *)

Lemma calm_ret {A} (a : A) : calm (ret a).
Proof. discriminate. Qed.

Lemma calm_log lvl msg : calm (log lvl msg).
Proof. discriminate. Qed.

Lemma calm_bind {A B} (m : M A) (f : A -> M B) :
  calm m -> (forall a, calm (f a)) -> calm (bind m f).
Proof.
  unfold calm. intros Hm Hf. rewrite value_bind.
  destruct (value m) as [a|e]; [apply Hf|].
  intros H. apply Hm. injection H as ->. reflexivity.
Qed.

Lemma calm_try_request {A} (m h : M A) : calm h -> calm (try_request m h).
Proof.
  unfold calm. intros Hh. rewrite value_try_request.
  destruct (value m) as [a|[|]]; [discriminate|exact Hh|discriminate].
Qed.

Lemma calm_try_any {A} (m h : M A) : calm h -> calm (try_any m h).
Proof.
  unfold calm. intros Hh. rewrite value_try_any.
  destruct (value m) as [a|e]; [discriminate|exact Hh].
Qed.

Lemma calm_for_each {A S} (body : A -> S -> M S) items s :
  (forall x s, calm (body x s)) -> calm (for_each items body s).
Proof.
  intros Hbody. revert s. induction items as [|x rest IH]; intros s; cbn [for_each].
  - apply calm_ret.
  - apply calm_bind; [apply Hbody|exact IH].
Qed.

Lemma calm_save E doc out saved failed : calm (save E doc out saved failed).
Proof. unfold calm. rewrite value_save. discriminate. Qed.

Lemma calm_get j k d : calm (lift (py_get j k d)).
Proof. intros H. apply py_get_other in H. discriminate. Qed.

Lemma calm_index j k : calm (lift (py_index j k)).
Proof. intros H. apply py_index_other in H. discriminate. Qed.

Lemma calm_len j : calm (lift (py_len j)).
Proof. intros H. apply py_len_other in H. discriminate. Qed.

Lemma calm_iter j : calm (lift (py_iter j)).
Proof. intros H. apply py_iter_other in H. discriminate. Qed.

Lemma calm_items j : calm (lift (py_items j)).
Proof. intros H. apply py_items_other in H. discriminate. Qed.

Lemma calm_lower j : calm (lift (py_lower j)).
Proof. intros H. apply py_lower_other in H. discriminate. Qed.

Create HintDb methods.

#[local] Hint Unfold
  ExperimentTraceDumper.dump_experiment_traces ExperimentTraceDumper.run_step
  ExperimentTraceDumper.get_run_details ExperimentTraceDumper.get_traces_for_run
  ExperimentTraceDumper.get_experiment_info
  ExperimentTraceDumper.get_runs_for_experiment
  ExperimentTraceDumper.traces_from_api ExperimentTraceDumper.traces_from_artifacts
  ExperimentTraceDumper.traces_from_metadata ExperimentTraceDumper.artifact_step
  Fetchers.get_runs_for_experiment Fetchers.get_all_experiments
  MLflowTraceDumper.dump_experiment_traces MLflowTraceDumper.dump_all_traces
  MLflowTraceDumper.experiment_step MLflowTraceDumper.attach_trace_data
  MLflowTraceDumper.get_trace_data MLflowTraceDumper.get_traces_for_run
  MLflowTraceDumper.get_runs_for_experiment MLflowTraceDumper.get_all_experiments
  MLflowTraceDumper.run_snapshot MLflowTraceDumper.download_step
  MLflowTraceDumper.fallback_step
  MlflowDirTraceDumper.dump_all_traces MlflowDirTraceDumper.experiment_step
  MlflowDirTraceDumper.attach_trace_data MlflowDirTraceDumper.get_trace_data
  MlflowDirTraceDumper.get_runs_for_experiment MlflowDirTraceDumper.get_all_experiments
  LangGraphTraceDumper.dump_langraph_traces LangGraphTraceDumper.experiment_step
  LangGraphTraceDumper.run_step LangGraphTraceDumper.get_langraph_trace_data
  LangGraphTraceDumper.get_runs_for_experiment LangGraphTraceDumper.get_all_experiments
  LangGraphTraceDumper._is_langraph_trace LangGraphTraceDumper.trace_file_step
  gather collect_run response_json raise_for_status raise
  : methods.

Ltac calm_step :=
  first
    [ apply calm_ret | apply calm_log | apply calm_save
    | apply calm_get | apply calm_index | apply calm_len | apply calm_iter
    | apply calm_items | apply calm_lower
    | apply calm_try_request | apply calm_try_any
    | apply calm_for_each; intros
    | apply calm_bind; [|intros]
    | match goal with
      | |- calm (if ?c then _ else _) => destruct c
      | |- calm (match ?x with _ => _ end) => destruct x
      end
    | progress cbv zeta
    | progress autounfold with methods ].

(** X2.  No dump method of the four scripts lets a [RequestException]
    escape: whatever the server answers, a transport error or an error status
    is either handled inside the method or never raised. *)
Theorem no_request_exception_escapes_a_dump m E experiment_id output_file now :
  calm (run_dump m E experiment_id output_file now).
Proof. destruct m; cbn [run_dump]; repeat calm_step. Qed.

(** *** Dry computations *)

Lemma file_events_app l1 l2 :
  file_events (l1 ++ l2) = file_events l1 ++ file_events l2.
Proof. apply flat_map_app. Qed.

Lemma events_try_any {A} (m h : M A) :
  events (try_any m h) =
  events m ++ match value m with Raise _ => events h | _ => [] end.
Proof.
  destruct m as [l [a|e]]; cbn; rewrite ?app_nil_r; try reflexivity.
  destruct h; reflexivity.
Qed.

Lemma dry_ret {A} (a : A) : dry (ret a).
Proof. reflexivity. Qed.

Lemma dry_log lvl msg : dry (log lvl msg).
Proof. reflexivity. Qed.

Lemma dry_lift {A} (r : res A) : dry (lift r).
Proof. reflexivity. Qed.

Lemma dry_session_get E rq : dry (session_get E rq).
Proof. unfold dry, session_get. destruct (serve E rq); reflexivity. Qed.

Lemma dry_bind {A B} (m : M A) (f : A -> M B) :
  dry m -> (forall a, dry (f a)) -> dry (bind m f).
Proof.
  unfold dry. intros Hm Hf. rewrite events_bind, file_events_app, Hm.
  destruct (value m) as [a|e]; [apply Hf|reflexivity].
Qed.

Lemma dry_try_request {A} (m h : M A) : dry m -> dry h -> dry (try_request m h).
Proof.
  unfold dry. intros Hm Hh. rewrite events_try_request, file_events_app, Hm.
  destruct (value m) as [a|[|]]; [reflexivity|exact Hh|reflexivity].
Qed.

Lemma dry_try_any {A} (m h : M A) : dry m -> dry h -> dry (try_any m h).
Proof.
  unfold dry. intros Hm Hh. rewrite events_try_any, file_events_app, Hm.
  destruct (value m) as [a|e]; [reflexivity|exact Hh].
Qed.

Lemma dry_for_each {A S} (body : A -> S -> M S) items s :
  (forall x s, dry (body x s)) -> dry (for_each items body s).
Proof.
  intros Hbody. revert s. induction items as [|x rest IH]; intros s; cbn [for_each].
  - apply dry_ret.
  - apply dry_bind; [apply Hbody|exact IH].
Qed.

Lemma dry_map_m {A B} (g : A -> M B) items :
  (forall x, dry (g x)) -> dry (map_m g items).
Proof.
  intros Hg. induction items as [|x rest IH]; cbn [map_m].
  - apply dry_ret.
  - apply dry_bind; [apply Hg|intros y].
    apply dry_bind; [exact IH|intros ys; apply dry_ret].
Qed.

Ltac dry_step :=
  first
    [ apply dry_ret | apply dry_log | apply dry_lift | apply dry_session_get
    | apply dry_try_request | apply dry_try_any
    | apply dry_for_each; intros
    | apply dry_map_m; intros
    | apply dry_bind; [|intros]
    | match goal with
      | |- dry (if ?c then _ else _) => destruct c
      | |- dry (match ?x with _ => _ end) => destruct x
      end
    | progress cbv zeta
    | progress autounfold with methods ].

(** *** The file of a dump *)

Lemma saves_result_bind E out {A} (m : M A) (f : A -> M json) :
  dry m -> (forall a, saves_result E out (f a)) -> saves_result E out (bind m f).
Proof.
  unfold dry, saves_result. intros Hm Hf.
  rewrite events_bind, file_events_app, Hm, value_bind.
  destruct (value m) as [a|e]; [apply Hf|].
  destruct out; reflexivity.
Qed.

Lemma saves_result_deliver E out doc saved failed completed :
  saves_result E out (save E doc out saved failed ;; log INFO completed ;; ret doc).
Proof.
  unfold saves_result, save_events, save, write_json.
  destruct out as [path|]; [|reflexivity].
  destruct (negb (path =? "")%string); [|reflexivity].
  destruct (writable E path); reflexivity.
Qed.

Ltac saves_step :=
  first
    [ apply saves_result_deliver
    | apply saves_result_bind; [repeat dry_step|intros]
    | progress cbv zeta ].

Lemma tallied_truthy ck lk c extra doc : tallied ck lk c extra doc -> truthy doc = true.
Proof.
  intros (d & md & T & R & -> & Hmd & _). destruct d; [discriminate|reflexivity].
Qed.

(** X3.  The only file a dump touches is the output path it was given: it
    opens it for writing once, when the path is not empty and a document is
    returned, and the file holds exactly the returned document when the write
    completes.  When the write fails the file is left as the failed write
    left it.  No file is touched for an experiment that was not found, nor
    when the dump raises. *)
Theorem dump_touches_only_its_output m E experiment_id output_file now :
  file_events (events (run_dump m E experiment_id output_file now)) =
  expected_file_events E output_file (value (run_dump m E experiment_id output_file now)).
Proof.
  assert (Hgen : forall (dump : M json),
    saves_result E output_file dump ->
    (forall doc, value dump = Ok doc -> truthy doc = true) ->
    file_events (events dump) = expected_file_events E output_file (value dump)).
  { intros dump Hw Ht. rewrite Hw. unfold expected_file_events.
    destruct output_file as [path|]; [|reflexivity].
    destruct (value dump) as [doc|e] eqn:Hv; [|reflexivity].
    rewrite (Ht doc eq_refl), andb_true_r. reflexivity. }
  destruct m; cbn [run_dump].
  - rewrite Phases.dump_two_phase.
    assert (Hdry : dry (gather E experiment_id)) by repeat dry_step.
    unfold dry in Hdry. rewrite events_bind, file_events_app, Hdry, value_bind.
    destruct (value (gather E experiment_id)) as [[[[[info name] n] ys]|]|e];
      cbn [app finish].
    + apply Hgen; [apply saves_result_deliver|].
      intros doc. unfold deliver.
      rewrite (value_bind_of _ _ tt) by apply value_save.
      rewrite Phases.record_all_experiment_document. intros [= <-]. reflexivity.
    + destruct output_file as [path|]; [|reflexivity]. cbn.
      rewrite andb_false_r. reflexivity.
    + destruct output_file; reflexivity.
  - apply Hgen.
    + unfold MLflowTraceDumper.dump_experiment_traces. repeat saves_step.
    + intros doc Hdoc. eapply tallied_truthy, Tally.single_tally, Hdoc.
  - apply Hgen.
    + unfold MLflowTraceDumper.dump_all_traces. repeat saves_step.
    + intros doc Hdoc. eapply tallied_truthy, Tally.all_dump_tally, Hdoc.
  - apply Hgen.
    + unfold MlflowDirTraceDumper.dump_all_traces. repeat saves_step.
    + intros doc Hdoc. eapply tallied_truthy, Tally.dir_all_dump_tally, Hdoc.
  - apply Hgen.
    + unfold LangGraphTraceDumper.dump_langraph_traces. repeat saves_step.
    + intros doc Hdoc. eapply tallied_truthy, Tally.langraph_tally, Hdoc.
Qed.

End EffectFacts.

(** ** The fetchers *)

Module FetcherFacts.
Import Laws EffectFacts.

(** X1.  Listing the runs of an experiment sends exactly one request, for at
    most 1000 results, never lets a [RequestException] escape, and yields the
    empty list, with an ERROR record, when the request fails or its body is
    not JSON.  Listing the experiments behaves the same way. *)
Theorem listings_send_one_request (E : env) (experiment_id : json) :
  let runs := Fetchers.get_runs_for_experiment E experiment_id in
  let experiments := Fetchers.get_all_experiments E in
  (requests (events runs) = [RunsSearch experiment_id 1000] /\ calm runs /\
   (unusable E (RunsSearch experiment_id 1000) ->
    runs = ([Get (RunsSearch experiment_id 1000);
             Log ERROR "Failed to get runs for experiment {experiment_id}: {e}"],
            Ok (JArr [])))) /\
  (requests (events experiments) = [ExperimentsList] /\ calm experiments /\
   (unusable E ExperimentsList ->
    experiments = ([Get ExperimentsList; Log ERROR "Failed to get experiments: {e}"],
                   Ok (JArr [])))).
Proof.
  cbv zeta. split; (split; [|split]).
  - unfold Fetchers.get_runs_for_experiment, session_get, raise_for_status, response_json.
    destruct (serve E (RunsSearch experiment_id 1000)) as [|r]; [reflexivity|].
    cbn. destruct ((400 <=? status_code r) && (status_code r <? 600)); [reflexivity|].
    cbn. destruct (json_body r) as [body|]; [|reflexivity].
    cbn. destruct (py_get body "runs" (JArr [])) as [runs|e] eqn:Hg;
      [|apply py_get_other in Hg; subst; reflexivity].
    cbn. destruct (py_len runs) as [n|e] eqn:Hl;
      [reflexivity|apply py_len_other in Hl; subst; reflexivity].
  - repeat calm_step.
  - unfold Fetchers.get_runs_for_experiment, session_get, raise_for_status, response_json.
    intros [[H|(r & H & Hs)]|(r & H & Hb)]; rewrite H; [reflexivity| |].
    + cbn. rewrite Hs. reflexivity.
    + cbn. destruct ((400 <=? status_code r) && (status_code r <? 600)); [reflexivity|].
      cbn. rewrite Hb. reflexivity.
  - unfold Fetchers.get_all_experiments, session_get, raise_for_status, response_json.
    destruct (serve E ExperimentsList) as [|r]; [reflexivity|].
    cbn. destruct ((400 <=? status_code r) && (status_code r <? 600)); [reflexivity|].
    cbn. destruct (json_body r) as [body|]; [|reflexivity].
    cbn. destruct (py_get body "experiments" (JArr [])) as [exps|e] eqn:Hg;
      [|apply py_get_other in Hg; subst; reflexivity].
    cbn. destruct (py_len exps) as [n|e] eqn:Hl;
      [reflexivity|apply py_len_other in Hl; subst; reflexivity].
  - repeat calm_step.
  - unfold Fetchers.get_all_experiments, session_get, raise_for_status, response_json.
    intros [[H|(r & H & Hs)]|(r & H & Hb)]; rewrite H; [reflexivity| |].
    + cbn. rewrite Hs. reflexivity.
    + cbn. destruct ((400 <=? status_code r) && (status_code r <? 600)); [reflexivity|].
      cbn. rewrite Hb. reflexivity.
Qed.

Lemma listings_send_one_request_witness :
  let E := Examples.env_of MoreExamples.broken in
  unusable E (RunsSearch (JStr "exp-1") 1000) /\
  value (Fetchers.get_runs_for_experiment E (JStr "exp-1")) = Ok (JArr []).
Proof.
  cbv zeta.
  assert (H : unusable (Examples.env_of MoreExamples.broken) (RunsSearch (JStr "exp-1") 1000)).
  { left. right. eexists. split; reflexivity. }
  split; [exact H|].
  destruct (listings_send_one_request (Examples.env_of MoreExamples.broken) (JStr "exp-1"))
    as [(_ & _ & Hruns) _].
  rewrite (Hruns H). reflexivity.
Defined.

End FetcherFacts.

(** ** The passes of the classifier of experiment_trace_dumper.py *)

Module PassFacts.
Import Laws EffectFacts.

Section Methods.
Variable E : env.

Lemma lift_ok {A} (a : A) : lift (Ok a) = ret a.
Proof. reflexivity. Qed.

Lemma bind_ok {A B} l (a : A) (f : A -> M B) :
  bind (l, Ok a) f = (l ++ events (f a), value (f a)).
Proof. cbn. destruct (f a); reflexivity. Qed.

Lemma events_session_get rq : events (session_get E rq) = [Get rq].
Proof. unfold session_get. destruct (serve E rq); reflexivity. Qed.

Lemma events_response_json r : events (response_json r) = [].
Proof. unfold response_json. destruct (json_body r); reflexivity. Qed.

Lemma api_loop_value (body : json -> list json -> M (list json)) :
  (forall trace traces,
      body trace traces =
      (trace_id <- lift (py_get trace "trace_id"
                           (JStr ("api_trace_" ++ str_of_nat (length traces)))) ;;
       ret (traces ++ [JObj [("trace_id", trace_id);
                             ("source", JStr "api");
                             ("data", trace);
                             ("content", JStr (json_dumps E trace))]]))) ->
  forall items acc,
    forallb is_dict items = true ->
    for_each items body acc = ret (acc ++ api_records E (length acc) items).
Proof.
  intros Hbody. induction items as [|trace rest IH]; intros acc H;
    cbn [for_each api_records].
  - rewrite app_nil_r. reflexivity.
  - cbn [forallb] in H. apply andb_true_iff in H as [Hd Hrest].
    destruct trace; try discriminate.
    rewrite Hbody. cbn [py_get]. rewrite lift_ok, !bind_ret_l.
    rewrite IH by exact Hrest.
    rewrite length_app, Nat.add_1_r, <- app_assoc. reflexivity.
Qed.

Lemma api_loop_raises (body : json -> list json -> M (list json)) :
  (forall trace traces,
      body trace traces =
      (trace_id <- lift (py_get trace "trace_id"
                           (JStr ("api_trace_" ++ str_of_nat (length traces)))) ;;
       ret (traces ++ [JObj [("trace_id", trace_id);
                             ("source", JStr "api");
                             ("data", trace);
                             ("content", JStr (json_dumps E trace))]]))) ->
  forall items acc,
    forallb is_dict items = false ->
    value (for_each items body acc) = Raise OtherException.
Proof.
  intros Hbody. induction items as [|trace rest IH]; intros acc H;
    cbn [for_each]; [discriminate|].
  cbn [forallb] in H. rewrite Hbody.
  destruct trace; try reflexivity.
  cbn [py_get]. rewrite lift_ok, !bind_ret_l. apply IH. exact H.
Qed.

Lemma api_records_length n traces : length (api_records E n traces) = length traces.
Proof.
  revert n. induction traces as [|t rest IH]; intros n; cbn [api_records length];
    [reflexivity|].
  f_equal. apply IH.
Qed.

Lemma artifact_step_yield run_id artifact acc :
  well_formed_artifact artifact = true ->
  value (ExperimentTraceDumper.artifact_step E run_id artifact acc) =
    Ok (acc ++ artifact_yield E run_id artifact) /\
  requests (events (ExperimentTraceDumper.artifact_step E run_id artifact acc)) =
    map (ArtifactsDownload run_id)
        (trace_path ExperimentTraceDumper.artifact_keywords artifact).
Proof.
  unfold well_formed_artifact, artifact_yield, trace_path,
    ExperimentTraceDumper.artifact_step.
  destruct (py_get artifact "path" (JStr "")) as [[| | | |path| |]|e];
    try discriminate.
  intros _. rewrite lift_ok, bind_ret_l. cbn [py_lower].
  rewrite lift_ok, bind_ret_l.
  destruct (any_in ExperimentTraceDumper.artifact_keywords (lower path)).
  - unfold session_get.
    destruct (serve E (ArtifactsDownload run_id (JStr path))) as [|r].
    + cbn. rewrite app_nil_r. split; reflexivity.
    + cbn. destruct (status_code r =? 200); cbn; [|rewrite app_nil_r];
        split; reflexivity.
  - cbn. rewrite app_nil_r. split; reflexivity.
Qed.

Lemma artifact_loop_yield run_id files :
  forallb well_formed_artifact files = true ->
  forall acc,
    value (for_each files (ExperimentTraceDumper.artifact_step E run_id) acc) =
      Ok (acc ++ flat_map (artifact_yield E run_id) files) /\
    requests (events (for_each files (ExperimentTraceDumper.artifact_step E run_id) acc)) =
      map (ArtifactsDownload run_id)
          (flat_map (trace_path ExperimentTraceDumper.artifact_keywords) files).
Proof.
  induction files as [|artifact rest IH]; intros H acc; cbn [for_each flat_map].
  - rewrite app_nil_r. split; reflexivity.
  - cbn [forallb] in H. apply andb_true_iff in H as [Ha Hrest].
    destruct (artifact_step_yield run_id artifact acc Ha) as [Hv Hr].
    destruct (IH Hrest (acc ++ artifact_yield E run_id artifact)) as [IHv IHr].
    rewrite value_bind, events_bind, Hv, IHv, ThreePasses.requests_app, Hr, IHr.
    rewrite <- app_assoc, map_app. split; reflexivity.
Qed.

Lemma artifact_yield_short run_id files :
  (length (flat_map (artifact_yield E run_id) files) <= length files)%nat.
Proof.
  induction files as [|artifact rest IH]; cbn [flat_map length]; [lia|].
  rewrite length_app.
  assert (length (artifact_yield E run_id artifact) <= 1)%nat; [|lia].
  unfold artifact_yield.
  repeat match goal with
         | |- context [match ?x with _ => _ end] => destruct x
         end; cbn; lia.
Qed.

End Methods.

(** X4.  When trace search answers 200 with a list of dicts, the API pass
    turns every trace into one record, in order, and a trace without a
    [trace_id] is named [api_trace_<n>] after its position [n] in the list;
    a single item that is not a dict makes the pass, and with it the whole
    classifier, raise an exception that is not a [RequestException]. *)
Theorem api_pass_numbers_its_traces (E : env) (run_id body : json) (traces : list json) :
  answers E (TracesSearch run_id) body ->
  py_get body "traces" (JArr []) = Ok (JArr traces) ->
  (forallb is_dict traces = true ->
   value (ExperimentTraceDumper.traces_from_api E run_id []) =
     Ok (api_records E 0 traces) /\
   length (api_records E 0 traces) = length traces) /\
  (forallb is_dict traces = false ->
   value (ExperimentTraceDumper.traces_from_api E run_id []) = Raise OtherException /\
   value (ExperimentTraceDumper.get_traces_for_run E run_id) = Raise OtherException).
Proof.
  intros (r & Hr & Hs & Hb) Hg.
  assert (Hpass : value (ExperimentTraceDumper.traces_from_api E run_id []) =
                  match value (for_each traces (fun trace traces =>
                      trace_id <- lift (py_get trace "trace_id"
                         (JStr ("api_trace_" ++ str_of_nat (length traces)))) ;;
                      ret (traces ++ [JObj [("trace_id", trace_id);
                                            ("source", JStr "api");
                                            ("data", trace);
                                            ("content", JStr (json_dumps E trace))]]))
                      []) with
                  | Ok records => Ok records
                  | Raise e => Raise e
                  end).
  { unfold ExperimentTraceDumper.traces_from_api.
    rewrite (value_bind_of _ _ r) by (apply value_session_get; exact Hr).
    rewrite Hs. change (200 =? 200) with true. cbv iota.
    rewrite (value_bind_of _ _ body) by (apply value_response_json; exact Hb).
    rewrite (value_bind_of _ _ (JArr traces)) by (rewrite value_lift; exact Hg).
    rewrite (value_bind_of _ _ traces) by reflexivity.
    rewrite value_bind.
    match goal with |- match ?v with _ => _ end = _ => destruct v end; reflexivity. }
  split; intros Hd.
  - split.
    + rewrite Hpass, (api_loop_value E _ (fun _ _ => eq_refl) traces [] Hd).
      reflexivity.
    + apply api_records_length.
  - assert (Hraise : value (ExperimentTraceDumper.traces_from_api E run_id []) =
                     Raise OtherException).
    { rewrite Hpass, (api_loop_raises E _ (fun _ _ => eq_refl) traces [] Hd).
      reflexivity. }
    split; [exact Hraise|].
    unfold ExperimentTraceDumper.get_traces_for_run.
    rewrite value_try_request, value_bind, Hraise. reflexivity.
Qed.

Lemma api_pass_numbers_its_traces_witness :
  let E := Examples.env_of MoreExamples.three_api_traces in
  map (field "trace_id") (outcome [] (ExperimentTraceDumper.traces_from_api E (JStr "r1") []))
  = [JStr "api_trace_0"; JStr "tr-7"; JStr "api_trace_2"].
Proof.
  cbv zeta.
  pose (E := Examples.env_of MoreExamples.three_api_traces).
  pose (traces := [JObj [("step", JInt 1)]; JObj [("trace_id", JStr "tr-7")];
                   JObj [("step", JInt 3)]]).
  assert (Ha : answers E (TracesSearch (JStr "r1")) (JObj [("traces", JArr traces)])).
  { eexists. repeat split; reflexivity. }
  destruct (api_pass_numbers_its_traces E (JStr "r1") _ traces Ha eq_refl) as [Hok _].
  destruct (Hok eq_refl) as [Hv _].
  unfold outcome. fold E. rewrite Hv. reflexivity.
Defined.

(** X5.  When the artifact listing answers 200 with well-formed artifacts,
    the artifact pass requests a download for exactly the paths that hold a
    keyword, once each and in order, and appends one record for each download
    that answers 200; a download that fails or answers another status is
    skipped without stopping the pass. *)
Theorem artifact_pass_downloads_keyword_paths (E : env) (run_id body : json)
    (files acc : list json) :
  answers E (ArtifactsList run_id) body ->
  py_get body "files" (JArr []) = Ok (JArr files) ->
  forallb well_formed_artifact files = true ->
  let pass := ExperimentTraceDumper.traces_from_artifacts E run_id acc in
  value pass = Ok (acc ++ flat_map (artifact_yield E run_id) files) /\
  requests (events pass) =
    ArtifactsList run_id ::
    map (ArtifactsDownload run_id)
        (flat_map (trace_path ExperimentTraceDumper.artifact_keywords) files) /\
  (length (flat_map (artifact_yield E run_id) files) <= length files)%nat.
Proof.
  intros (r & Hr & Hs & Hb) Hg Hwf pass. subst pass.
  destruct (artifact_loop_yield E run_id files Hwf acc) as [Hv Hq].
  split; [|split; [|apply artifact_yield_short]].
  - unfold ExperimentTraceDumper.traces_from_artifacts.
    rewrite (value_bind_of _ _ r) by (apply value_session_get; exact Hr).
    rewrite Hs. change (200 =? 200) with true. cbv iota.
    rewrite (value_bind_of _ _ body) by (apply value_response_json; exact Hb).
    rewrite (value_bind_of _ _ (JArr files)) by (rewrite value_lift; exact Hg).
    rewrite (value_bind_of _ _ files) by reflexivity.
    exact Hv.
  - unfold ExperimentTraceDumper.traces_from_artifacts.
    set (loop := for_each files _ acc) in *.
    rewrite events_bind, events_session_get, (value_session_get _ _ _ Hr).
    rewrite Hs. change (200 =? 200) with true. cbv iota.
    rewrite events_bind, events_response_json, (value_response_json _ _ Hb).
    rewrite events_bind, value_lift, Hg.
    rewrite events_bind, value_lift. cbn [py_iter].
    fold loop. rewrite !ThreePasses.requests_app, Hq. reflexivity.
Qed.

Lemma artifact_pass_downloads_keyword_paths_witness :
  let E := Examples.env_of MoreExamples.flaky_downloads in
  let pass := ExperimentTraceDumper.traces_from_artifacts E (JStr "r1") [] in
  value pass = Ok [artifact_record "a/trace.json" "[]"] /\
  requests (events pass) =
    [ArtifactsList (JStr "r1");
     ArtifactsDownload (JStr "r1") (JStr "a/trace.json");
     ArtifactsDownload (JStr "r1") (JStr "b/agent.log");
     ArtifactsDownload (JStr "r1") (JStr "c/Flow.txt")].
Proof.
  cbv zeta.
  pose (E := Examples.env_of MoreExamples.flaky_downloads).
  pose (files := [JObj [("path", JStr "a/trace.json")];
                  JObj [("path", JStr "b/agent.log")];
                  JObj [("path", JStr "c/Flow.txt")];
                  JObj [("path", JStr "model.pkl")]]).
  assert (Ha : answers E (ArtifactsList (JStr "r1")) (JObj [("files", JArr files)])).
  { eexists. repeat split; reflexivity. }
  destruct (artifact_pass_downloads_keyword_paths E (JStr "r1") _ files [] Ha
              eq_refl eq_refl) as (Hv & Hq & _).
  fold E. rewrite Hv, Hq. split; reflexivity.
Defined.

End PassFacts.

(** ** Run details *)

Module RunDetails.
Import Laws EffectFacts.

(** Every answer is of one of the three kinds. *)
Lemma listing_cases E rq key :
  broken E rq \/ malformed E rq key \/ exists items, listed E rq key items.
Proof.
  unfold broken, malformed, listed, declines, answers.
  destruct (serve E rq) as [|r] eqn:Hr; [left; left; reflexivity|].
  destruct (Z.eq_dec (status_code r) 200) as [Hs|Hs].
  - destruct (json_body r) as [body|] eqn:Hb.
    + destruct (py_get body key (JArr [])) as [items|e] eqn:Hg.
      * right. right. exists items. right. exists body. eauto 6.
      * right. left. exists body, e. eauto 6.
    + left. right. eauto.
  - right. right. exists (JArr []). left. eauto.
Qed.

(** The block [response = get(...); if response.status_code == 200:
    items = response.json().get(key, [])], followed by [k], in each of the
    three cases. *)
Lemma listing_broken {A} E rq key (k : json -> M A) :
  broken E rq ->
  value (bind (session_get E rq) (fun response =>
           bind (if status_code response =? 200 then
                   bind (response_json response) (fun body =>
                     lift (py_get body key (JArr [])))
                 else ret (JArr [])) k)) = Raise RequestException.
Proof.
  intros [H|(r & H & Hs & Hb)].
  - rewrite value_bind, (value_session_get_error _ _ H). reflexivity.
  - rewrite (value_bind_of _ _ r) by (apply value_session_get; exact H).
    rewrite Hs. change (200 =? 200) with true. cbv iota.
    rewrite !value_bind. unfold response_json. rewrite Hb. reflexivity.
Qed.

Lemma listing_listed {A} E rq key (k : json -> M A) items :
  listed E rq key items ->
  value (bind (session_get E rq) (fun response =>
           bind (if status_code response =? 200 then
                   bind (response_json response) (fun body =>
                     lift (py_get body key (JArr [])))
                 else ret (JArr [])) k)) = value (k items).
Proof.
  intros [[(r & H & Hs) ->]|(body & (r & H & Hs & Hb) & Hg)];
    rewrite (value_bind_of _ _ r) by (apply value_session_get; exact H).
  - apply Z.eqb_neq in Hs. rewrite Hs, bind_ret_l. reflexivity.
  - rewrite Hs. change (200 =? 200) with true. cbv iota.
    rewrite (value_bind_of _ _ items); [reflexivity|].
    rewrite (value_bind_of _ _ body) by (apply value_response_json; exact Hb).
    rewrite value_lift. exact Hg.
Qed.

Lemma listing_malformed {A} E rq key (k : json -> M A) :
  malformed E rq key ->
  value (bind (session_get E rq) (fun response =>
           bind (if status_code response =? 200 then
                   bind (response_json response) (fun body =>
                     lift (py_get body key (JArr [])))
                 else ret (JArr [])) k)) = Raise OtherException.
Proof.
  intros (body & e & (r & H & Hs & Hb) & Hg).
  rewrite (value_bind_of _ _ r) by (apply value_session_get; exact H).
  rewrite Hs. change (200 =? 200) with true. cbv iota.
  rewrite value_bind.
  rewrite (value_bind_of _ _ body) by (apply value_response_json; exact Hb).
  rewrite value_lift, Hg. apply py_get_other in Hg. subst e. reflexivity.
Qed.



End RunDetails.

(** ** The run and experiment counts *)

Module Counts.
Import Laws.

Lemma for_each_countdown {A S} (P : nat -> S -> Prop) (body : A -> S -> M S) :
  (forall x s s' k, P (Datatypes.S k) s -> value (body x s) = Ok s' -> P k s') ->
  forall items s s',
    P (length items) s -> value (for_each items body s) = Ok s' -> P O s'.
Proof.
  intros Hbody. induction items as [|x rest IH]; intros s s' Hs H; cbn in H.
  - injection H as <-. exact Hs.
  - change (value (bind (body x s) (for_each rest body)) = Ok s') in H.
    apply value_bind_ok in H as (s1 & H1 & H).
    eapply IH; [|exact H]. eapply Hbody; [exact Hs|exact H1].
Qed.

Lemma for_each_ok_each {A S} (body : A -> S -> M S) items :
  forall s s',
    value (for_each items body s) = Ok s' ->
    Forall (fun x => exists s1 s2, value (body x s1) = Ok s2) items.
Proof.
  induction items as [|x rest IH]; intros s s' H; [constructor|].
  change (value (bind (body x s) (for_each rest body)) = Ok s') in H.
  apply value_bind_ok in H as (s1 & H1 & H).
  constructor; [eauto|eapply IH; exact H].
Qed.

Lemma str_chars_nil s : str_chars s = [] -> s = EmptyString.
Proof.
  destruct s as [|c s]; [reflexivity|]. cbn.
  destruct (str_chars s) as [|[|b x] xs]; try discriminate.
  destruct (is_continuation b); discriminate.
Qed.

(** What is iterated and only holds dicts is a list, or is empty. *)
Lemma iterated_dicts runs items n :
  py_iter runs = Ok items ->
  py_len runs = Ok n ->
  Forall (fun x => exists d, x = JObj d) items ->
  n = length items /\ (runs = JArr items \/ items = [] /\ items_of runs = []).
Proof.
  intros Hiter Hlen Hall.
  destruct runs; try discriminate; cbn in Hiter, Hlen;
    injection Hiter as <-; injection Hlen as <-.
  - destruct (str_chars s) as [|c cs] eqn:Hc.
    + apply str_chars_nil in Hc. subst s. split; [reflexivity|right; split; reflexivity].
    + cbn in Hall. inversion Hall as [|? ? [d Hd] _]. discriminate.
  - split; [reflexivity|left; reflexivity].
  - destruct fields as [|kv fields].
    + split; [reflexivity|right; split; reflexivity].
    + cbn in Hall. inversion Hall as [|? ? [d Hd] _]. discriminate.
Qed.

Lemma collected_dicts {B} (g : json -> M B) runs items n ys :
  (forall x y, value (g x) = Ok y -> exists d, x = JObj d) ->
  py_iter runs = Ok items ->
  py_len runs = Ok n ->
  value (map_m g items) = Ok ys ->
  n = length ys /\ (runs = JArr items \/ ys = [] /\ items_of runs = []).
Proof.
  intros Hg Hiter Hlen Hys. apply map_m_ok in Hys.
  assert (Hall : Forall (fun x => exists d, x = JObj d) items).
  { clear -Hg Hys. induction Hys as [|x y xs ys' Hxy _ IH]; constructor; eauto. }
  destruct (iterated_dicts runs items n Hiter Hlen Hall) as [-> Hruns].
  split; [eapply Forall2_length; exact Hys|].
  destruct Hruns as [->|[-> Hnil]]; [left; reflexivity|right].
  inversion Hys. split; [reflexivity|exact Hnil].
Qed.

Lemma tallied_read_extra ck lk c extra doc :
  tallied ck lk c extra doc ->
  metadata_count ck doc =
  Some (Z.of_nat (list_sum (map c (items_of (field lk doc)))) + extra).
Proof.
  intros (d & md & T & R & -> & Hmd & HT & HR & ->).
  unfold metadata_count, field. rewrite Hmd, HT, HR. reflexivity.
Qed.

Lemma list_sum_ones {A} (l : list A) : list_sum (map (fun _ => 1%nat) l) = length l.
Proof.
  unfold list_sum. induction l as [|x l IH]; cbn; [reflexivity|].
  rewrite IH. reflexivity.
Qed.

Lemma length_flat_map_sum {A B} (f : A -> list B) (l : list A) :
  length (flat_map f l) = list_sum (map (fun x => length (f x)) l).
Proof.
  unfold list_sum. induction l as [|x l IH]; cbn; [reflexivity|].
  rewrite length_app, IH. reflexivity.
Qed.

Section Methods.
Variable E : env.

Lemma collect_run_dict run y : value (collect_run E run) = Ok y -> exists d, run = JObj d.
Proof.
  intros H. unfold collect_run in H.
  apply value_bind_ok in H as (info & Hinfo & _).
  eapply py_index_dict. exact Hinfo.
Qed.

Lemma etd_total_runs eid out now doc :
  value (ExperimentTraceDumper.dump_experiment_traces E eid out now) = Ok doc ->
  doc <> JObj [] ->
  metadata_count "total_runs" doc =
  Some (Z.of_nat (length (items_of (field "runs" doc)))).
Proof.
  intros H Hne. rewrite Phases.dump_two_phase in H.
  apply value_bind_ok in H as (g & Hg & H).
  destruct g as [[[[info name] n] ys]|]; cbn [finish] in H;
    [|injection H as <-; congruence].
  unfold deliver in H.
  apply value_bind_ok in H as (_ & _ & H).
  apply value_bind_ok in H as (_ & _ & H).
  injection H as <-.
  rewrite Phases.record_all_experiment_document.
  unfold gather in Hg.
  apply value_bind_ok in Hg as (_ & _ & Hg).
  apply value_bind_ok in Hg as (info' & _ & Hg).
  destruct (negb (truthy info')).
  { apply value_bind_ok in Hg as (_ & _ & Hg). discriminate. }
  apply value_bind_ok in Hg as (name' & _ & Hg).
  apply value_bind_ok in Hg as (runs & _ & Hg).
  apply value_bind_ok in Hg as (n' & Hn & Hg).
  apply value_bind_ok in Hg as (items & Hitems & Hg).
  apply value_bind_ok in Hg as (ys' & Hys & Hg).
  injection Hg as -> -> -> ->.
  rewrite value_lift in Hn. rewrite value_lift in Hitems.
  destruct (collected_dicts (collect_run E) runs items n ys collect_run_dict
              Hitems Hn Hys) as [-> _].
  cbn. rewrite length_map. reflexivity.
Qed.

Lemma attach_dict msg run y :
  value (MLflowTraceDumper.attach_trace_data E msg run) = Ok y -> exists d, run = JObj d.
Proof. intros H. apply Tally.attach_counts in H as [_ H]. exact H. Qed.

Lemma dir_attach_dict run y :
  value (MlflowDirTraceDumper.attach_trace_data E run) = Ok y -> exists d, run = JObj d.
Proof. intros H. apply Tally.dir_attach_counts in H as [_ H]. exact H. Qed.

Lemma single_total_runs eid out now doc :
  value (MLflowTraceDumper.dump_experiment_traces E eid out now) = Ok doc ->
  metadata_count "total_runs" doc =
  Some (Z.of_nat (length (items_of (field "runs" doc)))).
Proof.
  intros H. rewrite Phases.single_two_phase in H.
  apply value_bind_ok in H as ([n ys] & Hg & H).
  unfold single_finish, deliver in H. cbn [fst snd] in H.
  apply value_bind_ok in H as (_ & _ & H).
  apply value_bind_ok in H as (_ & _ & H).
  injection H as <-.
  rewrite Phases.record_all_single_document.
  unfold single_gather in Hg.
  apply value_bind_ok in Hg as (_ & _ & Hg).
  apply value_bind_ok in Hg as (runs & _ & Hg).
  apply value_bind_ok in Hg as (n' & Hn & Hg).
  apply value_bind_ok in Hg as (items & Hitems & Hg).
  apply value_bind_ok in Hg as (ys' & Hys & Hg).
  injection Hg as -> ->.
  rewrite value_lift in Hn. rewrite value_lift in Hitems.
  destruct (collected_dicts (single_attach E) runs items n ys
              (attach_dict _) Hitems Hn Hys) as [-> _].
  cbn. rewrite length_map. reflexivity.
Qed.

(** The state of the run loop of [dump_all_traces] after the runs [ys]. *)
Lemma run_loop_state ck lk c extra (ys : list (json * nat)) :
  ck <> "total_traces" -> lk <> "metadata" ->
  forall doc done,
    tallied ck lk c extra doc ->
    let state :=
      fold_left (fun (st : json * list json) (y : json * nat) =>
                   (MLflowTraceDumper.add_total_traces (snd y) (fst st),
                    snd st ++ [fst y])) ys (doc, done) in
    tallied ck lk c extra (fst state) /\ snd state = done ++ map fst ys.
Proof.
  intros Hck Hlk. induction ys as [|y ys IH]; intros doc done Hdoc; cbn [fold_left map].
  - cbn. rewrite app_nil_r. split; [exact Hdoc|reflexivity].
  - cbn [fst snd].
    destruct (IH (MLflowTraceDumper.add_total_traces (snd y) doc) (done ++ [fst y]))
      as [Ht Hs].
    + unfold MLflowTraceDumper.add_total_traces.
      apply tallied_meta_update; [congruence|exact Hlk|exact Hdoc].
    + cbv zeta in Ht, Hs. split; [exact Ht|].
      rewrite Hs, <- app_assoc. reflexivity.
Qed.

Lemma experiment_step_runs attach experiment doc doc' :
  (forall run y, value (attach run) = Ok y -> exists d, run = JObj d) ->
  tallied "total_runs" "experiments"
          (fun e => length (items_of (field "runs" e))) 0 doc ->
  value (experiment_step_over E attach experiment doc) = Ok doc' ->
  tallied "total_runs" "experiments"
          (fun e => length (items_of (field "runs" e))) 0 doc'.
Proof.
  intros Hattach Hdoc H. unfold experiment_step_over in H.
  apply value_bind_ok in H as (eid & _ & H).
  apply value_bind_ok in H as (_ & _ & H).
  apply value_bind_ok in H as (_ & _ & H).
  apply value_bind_ok in H as (runs & _ & H).
  apply value_bind_ok in H as (n & Hn & H).
  apply value_bind_ok in H as (items & Hitems & H).
  apply value_bind_ok in H as (state & Hloop & H).
  injection H as <-. rewrite value_lift in Hn. rewrite value_lift in Hitems.
  rewrite (for_each_collect attach
             (fun y (st : json * list json) =>
                (MLflowTraceDumper.add_total_traces (snd y) (fst st),
                 snd st ++ [fst y])))
    in Hloop by reflexivity.
  apply value_bind_ok in Hloop as (ys & Hys & Hloop). injection Hloop as <-.
  destruct (collected_dicts attach runs items n ys Hattach Hitems Hn Hys) as [-> Hruns].
  destruct (run_loop_state "total_runs" "experiments"
              (fun e => length (items_of (field "runs" e)))
              (Z.of_nat (length ys)) ys ltac:(discriminate) ltac:(discriminate)
              (in_item "metadata"
                 (in_item "total_runs" (add_int (Z.of_nat (length ys)))) doc) [])
    as [Ht Hs].
  { eapply tallied_extra; [|apply tallied_count; [discriminate|exact Hdoc]]. lia. }
  cbv zeta in Ht, Hs. rewrite Hs.
  eapply tallied_extra; [|apply tallied_append; [discriminate|exact Ht]].
  destruct Hruns as [->|[-> Hnil]].
  - cbn. rewrite length_map. lia.
  - destruct runs; cbn in Hnil |- *; try reflexivity.
Qed.

Lemma experiment_step_one attach experiment doc doc' k :
  tallied "total_experiments" "experiments" (fun _ => 1%nat) (Z.of_nat (S k)) doc ->
  value (experiment_step_over E attach experiment doc) = Ok doc' ->
  tallied "total_experiments" "experiments" (fun _ => 1%nat) (Z.of_nat k) doc'.
Proof.
  intros Hdoc H. unfold experiment_step_over in H.
  apply value_bind_ok in H as (eid & _ & H).
  apply value_bind_ok in H as (_ & _ & H).
  apply value_bind_ok in H as (_ & _ & H).
  apply value_bind_ok in H as (runs & _ & H).
  apply value_bind_ok in H as (n & _ & H).
  apply value_bind_ok in H as (items & _ & H).
  apply value_bind_ok in H as (state & Hloop & H).
  injection H as <-.
  rewrite (for_each_collect attach
             (fun y (st : json * list json) =>
                (MLflowTraceDumper.add_total_traces (snd y) (fst st),
                 snd st ++ [fst y])))
    in Hloop by reflexivity.
  apply value_bind_ok in Hloop as (ys & _ & Hloop). injection Hloop as <-.
  destruct (run_loop_state "total_experiments" "experiments" (fun _ => 1%nat)
              (Z.of_nat (S k)) ys ltac:(discriminate) ltac:(discriminate)
              (in_item "metadata" (in_item "total_runs" (add_int (Z.of_nat n))) doc) [])
    as [Ht _].
  { apply tallied_meta_update; [discriminate|discriminate|exact Hdoc]. }
  cbv zeta in Ht.
  eapply tallied_extra; [|apply tallied_append; [discriminate|exact Ht]].
  cbv beta. lia.
Qed.

Lemma experiment_step_dict attach experiment doc doc' :
  value (experiment_step_over E attach experiment doc) = Ok doc' ->
  exists d, experiment = JObj d.
Proof.
  intros H. unfold experiment_step_over in H.
  apply value_bind_ok in H as (eid & Heid & _).
  eapply py_index_dict. exact Heid.
Qed.

Lemma root_all_loop out now doc :
  value (MLflowTraceDumper.dump_all_traces E out now) = Ok doc ->
  exists experiments n items,
    py_len experiments = Ok n /\ py_iter experiments = Ok items /\
    value (for_each items
             (experiment_step_over E
                (MLflowTraceDumper.attach_trace_data E
                   "  Processing run: {run_name} (ID: {run_id})"))
             (all_document E now n)) = Ok doc.
Proof.
  intros H. unfold MLflowTraceDumper.dump_all_traces in H.
  apply value_bind_ok in H as (_ & _ & H).
  apply value_bind_ok in H as (experiments & _ & H).
  apply value_bind_ok in H as (n & Hn & H).
  apply value_bind_ok in H as (items & Hitems & H).
  apply value_bind_ok in H as (doc1 & Hloop & H).
  apply value_bind_ok in H as (_ & _ & H).
  apply value_bind_ok in H as (_ & _ & H).
  injection H as <-.
  exists experiments, n, items. repeat split; [exact Hn|exact Hitems|exact Hloop].
Qed.

Lemma dir_all_loop out now doc :
  value (MlflowDirTraceDumper.dump_all_traces E out now) = Ok doc ->
  exists experiments n items,
    py_len experiments = Ok n /\ py_iter experiments = Ok items /\
    value (for_each items
             (experiment_step_over E (MlflowDirTraceDumper.attach_trace_data E))
             (all_document E now n)) = Ok doc.
Proof.
  intros H. unfold MlflowDirTraceDumper.dump_all_traces in H.
  apply value_bind_ok in H as (_ & _ & H).
  apply value_bind_ok in H as (experiments & _ & H).
  apply value_bind_ok in H as (n & Hn & H).
  apply value_bind_ok in H as (items & Hitems & H).
  apply value_bind_ok in H as (doc1 & Hloop & H).
  apply value_bind_ok in H as (_ & _ & H).
  apply value_bind_ok in H as (_ & _ & H).
  injection H as <-.
  exists experiments, n, items. repeat split; [exact Hn|exact Hitems|exact Hloop].
Qed.

Lemma all_loop_counts attach experiments n items now doc :
  (forall run y, value (attach run) = Ok y -> exists d, run = JObj d) ->
  py_len experiments = Ok n ->
  py_iter experiments = Ok items ->
  value (for_each items (experiment_step_over E attach) (all_document E now n)) = Ok doc ->
  metadata_count "total_runs" doc =
    Some (Z.of_nat (length (flat_map (fun e => items_of (field "runs" e))
                                     (items_of (field "experiments" doc))))) /\
  metadata_count "total_experiments" doc =
    Some (Z.of_nat (length (items_of (field "experiments" doc)))).
Proof.
  intros Hattach Hn Hitems Hloop. split.
  - rewrite length_flat_map_sum.
    apply (tallied_read "total_runs" "experiments"
             (fun e => length (items_of (field "runs" e)))).
    eapply for_each_invariant; [| |exact Hloop].
    + intros x s s' _ Hs Hx. eapply experiment_step_runs; eassumption.
    + do 4 eexists. cbn. repeat split; reflexivity.
  - rewrite <- list_sum_ones.
    apply (tallied_read "total_experiments" "experiments" (fun _ => 1%nat)).
    assert (Hlen : n = length items).
    { eapply iterated_dicts; [exact Hitems|exact Hn|].
      eapply Forall_impl; [|eapply for_each_ok_each; exact Hloop].
      intros x (s1 & s2 & Hx). eapply experiment_step_dict. exact Hx. }
    subst n.
    apply (for_each_countdown
             (fun k s => tallied "total_experiments" "experiments" (fun _ => 1%nat)
                                 (Z.of_nat k) s)
             (experiment_step_over E attach)) with (items := items)
             (s := all_document E now (length items)).
    + intros x s s' k. apply experiment_step_one.
    + do 4 eexists. cbn. repeat split; reflexivity.
    + exact Hloop.
Qed.

(** *** mlflow/langraph_trace_dumper.py *)

Lemma langraph_run_step_dict experiment run doc doc' :
  value (LangGraphTraceDumper.run_step E experiment run doc) = Ok doc' ->
  exists d, run = JObj d.
Proof.
  intros H. unfold LangGraphTraceDumper.run_step in H.
  apply value_bind_ok in H as (info & Hinfo & _).
  eapply py_index_dict. exact Hinfo.
Qed.

Lemma langraph_run_step_slack experiment run doc doc' k :
  (exists extra, Z.of_nat (S k) <= extra /\
     tallied "total_runs" "langraph_traces" (fun _ => 1%nat) extra doc) ->
  value (LangGraphTraceDumper.run_step E experiment run doc) = Ok doc' ->
  exists extra, Z.of_nat k <= extra /\
    tallied "total_runs" "langraph_traces" (fun _ => 1%nat) extra doc'.
Proof.
  intros (extra & Hle & Hdoc) H. unfold LangGraphTraceDumper.run_step in H.
  repeat (apply value_bind_ok in H as (? & _ & H)).
  match type of H with context [truthy ?td] => destruct (truthy td) end;
    apply value_bind_ok in H as (_ & _ & H); injection H as <-.
  - exists (extra - 1). split; [lia|].
    apply tallied_meta_update; [discriminate|discriminate|].
    eapply tallied_extra; [|apply tallied_append; [discriminate|exact Hdoc]].
    reflexivity.
  - exists extra. split; [lia|exact Hdoc].
Qed.

Lemma langraph_experiment_step_slack experiment doc doc' :
  (exists extra, 0 <= extra /\
     tallied "total_runs" "langraph_traces" (fun _ => 1%nat) extra doc) ->
  value (LangGraphTraceDumper.experiment_step E experiment doc) = Ok doc' ->
  exists extra, 0 <= extra /\
    tallied "total_runs" "langraph_traces" (fun _ => 1%nat) extra doc'.
Proof.
  intros (extra & Hle & Hdoc) H. unfold LangGraphTraceDumper.experiment_step in H.
  apply value_bind_ok in H as (eid & _ & H).
  apply value_bind_ok in H as (_ & _ & H).
  apply value_bind_ok in H as (_ & _ & H).
  apply value_bind_ok in H as (runs & _ & H).
  apply value_bind_ok in H as (n & Hn & H).
  apply value_bind_ok in H as (items & Hitems & H).
  rewrite value_lift in Hn. rewrite value_lift in Hitems.
  assert (Hlen : n = length items).
  { eapply iterated_dicts; [exact Hitems|exact Hn|].
    eapply Forall_impl; [|eapply for_each_ok_each; exact H].
    intros x (s1 & s2 & Hx). eapply langraph_run_step_dict. exact Hx. }
  subst n.
  apply (for_each_countdown
           (fun k s => exists extra, Z.of_nat k <= extra /\
              tallied "total_runs" "langraph_traces" (fun _ => 1%nat) extra s)
           (LangGraphTraceDumper.run_step E experiment)) with (items := items)
           (s := in_item "metadata"
                   (in_item "total_runs" (add_int (Z.of_nat (length items)))) doc).
  - intros x s s' k. apply langraph_run_step_slack.
  - exists (extra + Z.of_nat (length items)). split; [lia|].
    apply tallied_count; [discriminate|exact Hdoc].
  - exact H.
Qed.

Lemma langraph_runs_slack out now doc :
  value (LangGraphTraceDumper.dump_langraph_traces E out now) = Ok doc ->
  exists extra, 0 <= extra /\
    tallied "total_runs" "langraph_traces" (fun _ => 1%nat) extra doc.
Proof.
  intros H. unfold LangGraphTraceDumper.dump_langraph_traces in H.
  apply value_bind_ok in H as (_ & _ & H).
  apply value_bind_ok in H as (experiments & _ & H).
  apply value_bind_ok in H as (n & _ & H).
  apply value_bind_ok in H as (items & _ & H).
  apply value_bind_ok in H as (doc1 & Hloop & H).
  apply value_bind_ok in H as (_ & _ & H).
  apply value_bind_ok in H as (_ & _ & H).
  injection H as <-.
  eapply (for_each_invariant
            (fun s => exists extra, 0 <= extra /\
               tallied "total_runs" "langraph_traces" (fun _ => 1%nat) extra s));
    [| |exact Hloop].
  - intros x s s' _. apply langraph_experiment_step_slack.
  - exists 0. split; [lia|]. do 4 eexists. cbn. repeat split; reflexivity.
Qed.

End Methods.

(** X7.  In every document a dump method of experiment_trace_dumper.py,
    mlflow_trace_dumper.py or mlflow/mlflow_trace_dumper.py returns,
    [total_runs] is the number of run entries the document records, and in
    the documents of [dump_all_traces] [total_experiments] is the number of
    experiment entries. *)
Theorem totals_count_recorded_entries (m : dump_method) (E : env) (experiment_id : json)
    (output_file : option string) (now : string) (doc : json) :
  m <> LangGraphDump ->
  value (run_dump m E experiment_id output_file now) = Ok doc ->
  doc <> JObj [] ->
  metadata_count "total_runs" doc = Some (Z.of_nat (length (recorded_runs m doc))) /\
  (m = AllDump \/ m = DirAllDump ->
   metadata_count "total_experiments" doc =
     Some (Z.of_nat (length (items_of (field "experiments" doc))))).
Proof.
  intros Hm H Hne. destruct m; cbn [run_dump recorded_runs] in *.
  - split; [eapply etd_total_runs; eassumption|].
    intros [?|?]; discriminate.
  - split; [eapply single_total_runs; eassumption|].
    intros [?|?]; discriminate.
  - apply root_all_loop in H as (experiments & n & items & Hn & Hitems & Hloop).
    destruct (all_loop_counts E _ experiments n items now doc
                (attach_dict E _) Hn Hitems Hloop) as [Hruns Hexps].
    split; [exact Hruns|intros _; exact Hexps].
  - apply dir_all_loop in H as (experiments & n & items & Hn & Hitems & Hloop).
    destruct (all_loop_counts E _ experiments n items now doc
                (dir_attach_dict E) Hn Hitems Hloop) as [Hruns Hexps].
    split; [exact Hruns|intros _; exact Hexps].
  - congruence.
Qed.

Lemma totals_count_recorded_entries_witness :
  let E := Examples.env_of (Examples.two_runs 404) in
  let doc := outcome JNull (run_dump AllDump E JNull None "t0") in
  length (recorded_runs AllDump doc) = 2%nat /\
  metadata_count "total_runs" doc = Some 2 /\
  metadata_count "total_experiments" doc = Some 1.
Proof.
  cbv zeta. split; [vm_compute; reflexivity|].
  destruct (totals_count_recorded_entries AllDump
              (Examples.env_of (Examples.two_runs 404)) JNull None "t0"
              (outcome JNull (run_dump AllDump (Examples.env_of (Examples.two_runs 404))
                                JNull None "t0")))
    as [Hruns Hexps].
  - discriminate.
  - vm_compute. reflexivity.
  - vm_compute. discriminate.
  - split.
    + rewrite Hruns. vm_compute. reflexivity.
    + rewrite (Hexps (or_introl eq_refl)). vm_compute. reflexivity.
Defined.

(** X8.  In every document [dump_langraph_traces] returns, the number of
    LangGraph traces, which is the number of recorded entries, does not
    exceed [total_runs]. *)
Theorem langraph_traces_within_runs (E : env) (output_file : option string)
    (now : string) (doc : json) :
  value (run_dump LangGraphDump E JNull output_file now) = Ok doc ->
  exists runs traces,
    metadata_count "total_runs" doc = Some runs /\
    metadata_count "total_langraph_traces" doc = Some traces /\
    traces = Z.of_nat (length (recorded_runs LangGraphDump doc)) /\
    0 <= traces <= runs.
Proof.
  cbn [run_dump]. intros H.
  destruct (langraph_runs_slack E _ _ _ H) as (extra & Hle & Hruns).
  apply tallied_read_extra in Hruns. rewrite list_sum_ones in Hruns.
  pose proof (Tally.langraph_tally E _ _ _ H) as Htraces.
  apply tallied_read in Htraces.
  change (map (counted_for_run LangGraphDump)) with (map (fun _ : json => 1%nat))
    in Htraces.
  rewrite list_sum_ones in Htraces.
  do 2 eexists. split; [exact Hruns|]. split; [exact Htraces|].
  cbn [recorded_runs]. split; [reflexivity|lia].
Qed.

Lemma langraph_traces_within_runs_witness :
  let E := Examples.env_of MoreExamples.mixed_runs in
  let doc := outcome JNull (run_dump LangGraphDump E JNull None "t0") in
  (metadata_count "total_runs" doc, metadata_count "total_langraph_traces" doc)
    = (Some 3, Some 1) /\
  exists runs traces,
    metadata_count "total_runs" doc = Some runs /\
    metadata_count "total_langraph_traces" doc = Some traces /\
    traces = Z.of_nat (length (recorded_runs LangGraphDump doc)) /\
    0 <= traces <= runs.
Proof.
  cbv zeta. split; [vm_compute; reflexivity|].
  apply (langraph_traces_within_runs (Examples.env_of MoreExamples.mixed_runs) None "t0").
  vm_compute. reflexivity.
Defined.

End Counts.

(** ** Which runs mlflow/langraph_trace_dumper.py keeps *)

Module LangGraphRuns.
Import Laws EffectFacts PassFacts.

(** X9.  For a run whose tags are a dict and whose run name and experiment id
    are strs, [_is_langraph_trace] holds exactly when a tag key, the text of
    a tag value, the run name or the experiment id holds one of the keywords
    langraph, agent, trace, whatever the case; a matching tag decides before
    the run info is read.  A run for which it does not hold gets [None] from
    [get_langraph_trace_data] after the single run fetch: its artifacts are
    never listed. *)
Theorem langraph_runs_are_told_by_keywords (E : env) (run_id body run_data data info : json)
    (tags : dict) (run_name experiment_id : string) :
  answers E (RunsGet run_id) body ->
  py_get body "run" (JObj []) = Ok run_data ->
  py_get run_data "data" (JObj []) = Ok data ->
  py_get data "tags" (JObj []) = Ok (JObj tags) ->
  py_get run_data "info" (JObj []) = Ok info ->
  py_get info "run_name" (JStr "") = Ok (JStr run_name) ->
  py_get info "experiment_id" (JStr "") = Ok (JStr experiment_id) ->
  LangGraphTraceDumper._is_langraph_trace E run_data =
    ret (langraph_hit E tags run_name experiment_id) /\
  (langraph_hit E tags run_name experiment_id = false ->
   value (LangGraphTraceDumper.get_langraph_trace_data E run_id) = Ok JNull /\
   requests (events (LangGraphTraceDumper.get_langraph_trace_data E run_id)) =
     [RunsGet run_id]).
Proof.
  intros (r & Hr & Hs & Hb) Hrun Hdata Htags Hinfo Hname Hexp.
  assert (His : LangGraphTraceDumper._is_langraph_trace E run_data =
                ret (langraph_hit E tags run_name experiment_id)).
  { unfold LangGraphTraceDumper._is_langraph_trace, langraph_hit.
    rewrite Hdata, lift_ok, bind_ret_l, Htags, lift_ok, bind_ret_l.
    cbn [py_items]. rewrite lift_ok, bind_ret_l.
    destruct (existsb _ tags); [reflexivity|].
    rewrite Hinfo, lift_ok, bind_ret_l, Hname, lift_ok, bind_ret_l.
    cbn [py_lower]. rewrite lift_ok, bind_ret_l.
    destruct (any_in LangGraphTraceDumper.run_keywords (lower run_name));
      [reflexivity|].
    rewrite bind_ret_l, Hexp, lift_ok, bind_ret_l.
    cbn [py_lower]. rewrite lift_ok, bind_ret_l.
    destruct (any_in LangGraphTraceDumper.run_keywords (lower experiment_id));
      reflexivity. }
  split; [exact His|].
  intros Hmiss. unfold LangGraphTraceDumper.get_langraph_trace_data, session_get.
  rewrite Hr, bind_ok. unfold raise_for_status, response_json. rewrite Hs, Hb.
  change ((400 <=? 200) && (200 <? 600)) with false. cbv iota.
  rewrite !bind_ret_l, Hrun, lift_ok, bind_ret_l, His, bind_ret_l, Hmiss.
  split; reflexivity.
Qed.

Lemma langraph_runs_are_told_by_keywords_witness :
  let E := Examples.env_of MoreExamples.mixed_runs in
  value (LangGraphTraceDumper.get_langraph_trace_data E (JStr "baseline")) = Ok JNull /\
  requests (events (LangGraphTraceDumper.get_langraph_trace_data E (JStr "baseline"))) =
    [RunsGet (JStr "baseline")].
Proof.
  cbv zeta.
  pose (E := Examples.env_of MoreExamples.mixed_runs).
  pose (run := Examples.run_named "baseline").
  assert (Ha : answers E (RunsGet (JStr "baseline")) (JObj [("run", run)])).
  { eexists. repeat split; reflexivity. }
  destruct (langraph_runs_are_told_by_keywords E (JStr "baseline") _ run (JObj [])
              (JObj [("run_id", JStr "baseline"); ("run_name", JStr "baseline")])
              [] "baseline" "" Ha eq_refl eq_refl eq_refl eq_refl eq_refl eq_refl)
    as [_ H].
  apply H. reflexivity.
Defined.

End LangGraphRuns.

(** ** The keyword lists *)

Module Keywords.

Lemma prefix_split kw s :
  String.prefix kw s = true <-> exists post, s = (kw ++ post)%string.
Proof.
  revert s. induction kw as [|c kw IH]; intros s.
  - destruct s; cbn; split; eauto.
  - destruct s as [|c' s]; cbn.
    + split; [discriminate|]. intros [post H]. discriminate.
    + destruct (ascii_dec c c') as [->|Hne].
      * rewrite IH. split; intros [post H]; exists post; congruence.
      * split; [discriminate|]. intros [post H]. congruence.
Qed.

Lemma str_in_split kw s :
  str_in kw s = true <-> exists pre post, s = (pre ++ kw ++ post)%string.
Proof.
  induction s as [|c s IH]; cbn [str_in].
  - rewrite orb_false_r, prefix_split. split.
    + intros [post H]. exists EmptyString, post. exact H.
    + intros (pre & post & H). destruct pre; [|discriminate]. exists post. exact H.
  - rewrite orb_true_iff, prefix_split, IH. split.
    + intros [[post H]|(pre & post & H)].
      * exists EmptyString, post. exact H.
      * exists (String c pre), post. cbn. congruence.
    + intros (pre & post & H). destruct pre as [|c' pre].
      * left. exists post. exact H.
      * right. exists pre, post. cbn in H. congruence.
Qed.

Lemma append_assoc (a b c : string) : ((a ++ b) ++ c = a ++ b ++ c)%string.
Proof. induction a as [|x a IH]; cbn; [reflexivity|]. rewrite IH. reflexivity. Qed.

(** [a in b] and [b in s] give [a in s]. *)
Lemma str_in_trans a b s : str_in a b = true -> str_in b s = true -> str_in a s = true.
Proof.
  rewrite !str_in_split. intros (p1 & q1 & ->) (p2 & q2 & ->).
  exists (p2 ++ p1)%string, (q1 ++ q2)%string.
  rewrite !append_assoc. reflexivity.
Qed.

Lemma any_in_covered (keywords keywords' : list string) s :
  forallb (fun k => any_in keywords' k) keywords = true ->
  any_in keywords s = true -> any_in keywords' s = true.
Proof.
  unfold any_in. rewrite forallb_forall, !existsb_exists.
  intros Hcov (k & Hk & Hs).
  destruct (proj1 (existsb_exists _ _) (Hcov k Hk)) as (k' & Hk' & Hkk').
  exists k'. split; [exact Hk'|]. eapply str_in_trans; eassumption.
Qed.

(** X10.  Every artifact path that mlflow/langraph_trace_dumper.py takes for
    a trace file is one that mlflow_trace_dumper.py downloads, and every path
    that mlflow_trace_dumper.py downloads is one that
    experiment_trace_dumper.py downloads; the keyword [workflow] of
    experiment_trace_dumper.py never decides, since [flow] is in its list. *)
Theorem keyword_lists_are_nested (path : string) :
  (any_in LangGraphTraceDumper.trace_file_patterns path = true ->
   any_in MLflowTraceDumper.trace_keywords path = true) /\
  (any_in MLflowTraceDumper.trace_keywords path = true ->
   any_in ExperimentTraceDumper.artifact_keywords path = true) /\
  any_in ExperimentTraceDumper.artifact_keywords path =
    any_in ["trace"; "langraph"; "agent"; "execution"; "flow"] path.
Proof.
  split; [|split].
  - apply any_in_covered. reflexivity.
  - apply any_in_covered. reflexivity.
  - destruct (any_in ["trace"; "langraph"; "agent"; "execution"; "flow"] path) eqn:H.
    + revert H. apply any_in_covered. reflexivity.
    + destruct (any_in ExperimentTraceDumper.artifact_keywords path) eqn:H'; [|reflexivity].
      rewrite <- H. symmetry. revert H'. apply any_in_covered. reflexivity.
Qed.

Lemma keyword_lists_are_nested_witness :
  any_in LangGraphTraceDumper.trace_file_patterns "run/agent_trace.txt" = true /\
  any_in ExperimentTraceDumper.artifact_keywords "run/agent_trace.txt" = true.
Proof.
  split; [reflexivity|].
  destruct (keyword_lists_are_nested "run/agent_trace.txt") as (H1 & H2 & _).
  apply H2, H1. reflexivity.
Defined.

End Keywords.

(** ** The command line of experiment_trace_dumper.py *)

Module MainFacts.
Import Laws ExperimentTraceDumperMain.

Lemma snd_cbind {A B} (m : C A) (f : A -> C B) :
  snd (cbind m f) = match snd m with Ok a => snd (f a) | Raise e => Raise e end.
Proof. destruct m as [l [a|e]]; cbn; [|reflexivity]. destruct (f a); reflexivity. Qed.

Lemma fst_cbind {A B} (m : C A) (f : A -> C B) :
  fst (cbind m f) = fst m ++ match snd m with Ok a => fst (f a) | Raise _ => [] end.
Proof.
  destruct m as [l [a|e]]; cbn; [|rewrite app_nil_r; reflexivity].
  destruct (f a); reflexivity.
Qed.

Lemma cbind_ext {A B} (m : C A) (f g : A -> C B) :
  (forall a, f a = g a) -> cbind m f = cbind m g.
Proof. intros H. destruct m as [l [a|e]]; cbn; [rewrite H|]; reflexivity. Qed.

Lemma cbind_clift_ok {A B} (a : A) (f : A -> C B) : cbind (clift (Ok a)) f = f a.
Proof. cbn. destruct (f a); reflexivity. Qed.

Lemma cbind_clift_of {A B} (r : res A) (a : A) (f : A -> C B) :
  r = Ok a -> cbind (clift r) f = f a.
Proof. intros ->. apply cbind_clift_ok. Qed.

Lemma printed_app l1 l2 : printed (l1 ++ l2) = printed l1 ++ printed l2.
Proof. apply flat_map_app. Qed.

Lemma printed_of evs : printed (map Of evs) = [].
Proof. induction evs as [|ev evs IH]; [reflexivity|exact IH]. Qed.

Lemma py_index_field j k v : py_index j k = Ok v -> field k j = v.
Proof.
  destruct j; try discriminate. cbn.
  destruct (dict_get fields k); [intros [= ->]; reflexivity|discriminate].
Qed.

Section Methods.
Variable W : world.
Variable E : env.

(** Printing [lines] in order. *)
Lemma print_lines_status lines :
  snd (cfor_each lines (print W)) =
    (if forallb (printable W) lines then Ok tt else Raise OtherException) /\
  printed (fst (cfor_each lines (print W))) = printable_prefix (printable W) lines.
Proof.
  induction lines as [|line rest [IHs IHp]]; cbn [cfor_each forallb printable_prefix];
    [split; reflexivity|].
  rewrite snd_cbind, fst_cbind, printed_app.
  set (tail := cfor_each rest (print W)) in *. unfold print.
  destruct (printable W line); cbn [fst snd andb]; [|split; reflexivity].
  rewrite IHs, IHp. split; reflexivity.
Qed.

Lemma collect_run_shape run y :
  value (collect_run E run) = Ok y ->
  exists info run_id details traces,
    py_index run "info" = Ok (JObj info) /\
    py_index (JObj info) "run_id" = Ok run_id /\
    fst y = JObj [("run_info", run); ("run_details", details); ("traces", JArr traces)].
Proof.
  intros H. unfold collect_run in H.
  apply value_bind_ok in H as (info & Hinfo & H).
  apply value_bind_ok in H as (run_id & Hid & H).
  apply value_bind_ok in H as (info2 & _ & H).
  apply value_bind_ok in H as (run_name & _ & H).
  apply value_bind_ok in H as (? & _ & H).
  apply value_bind_ok in H as (details & _ & H).
  apply value_bind_ok in H as (traces & _ & H).
  apply value_bind_ok in H as (? & _ & H).
  injection H as <-. rewrite value_lift in Hinfo. rewrite value_lift in Hid.
  destruct (py_index_dict _ _ _ Hid) as (d & ->).
  exists d, run_id, details, traces. repeat split; assumption.
Qed.

(** For a run entry of the document, the loop body prints its line. *)
Lemma print_run_line run info run_id details traces :
  py_index run "info" = Ok (JObj info) ->
  py_index (JObj info) "run_id" = Ok run_id ->
  let entry := JObj [("run_info", run); ("run_details", details);
                     ("traces", JArr traces)] in
  print_run W E entry = print W (run_line E entry).
Proof.
  intros Hinfo Hid entry. unfold print_run, run_line. subst entry.
  rewrite (cbind_clift_of _ run) by reflexivity.
  rewrite (cbind_clift_of _ (JObj info)) by exact Hinfo.
  cbn [py_get]. rewrite cbind_clift_ok.
  rewrite (cbind_clift_of _ run) by reflexivity.
  rewrite (cbind_clift_of _ (JObj info)) by exact Hinfo.
  rewrite (cbind_clift_of _ run_id) by exact Hid.
  rewrite (cbind_clift_of _ (JArr traces)) by reflexivity.
  rewrite (cbind_clift_of _ (length traces)) by reflexivity.
  change (field "run_info" (JObj [("run_info", run); ("run_details", details);
                                  ("traces", JArr traces)])) with run.
  change (field "traces" (JObj [("run_info", run); ("run_details", details);
                                ("traces", JArr traces)])) with (JArr traces).
  rewrite (py_index_field _ _ _ Hinfo), (py_index_field _ _ _ Hid).
  reflexivity.
Qed.

Lemma print_runs_lines runs :
  Forall (fun run => print_run W E run = print W (run_line E run)) runs ->
  cfor_each runs (print_run W E) = cfor_each (map (run_line E) runs) (print W).
Proof.
  induction 1 as [|run rest Hrun _ IH]; cbn [cfor_each map]; [reflexivity|].
  rewrite Hrun. apply cbind_ext. intros _. exact IH.
Qed.

Lemma print_metadata_line label traces key metadata v :
  py_index traces "metadata" = Ok metadata ->
  py_index metadata key = Ok v ->
  print_metadata W E label traces key = print W (label ++ py_str E v)%string.
Proof.
  intros Hm Hv. unfold print_metadata.
  rewrite (cbind_clift_of _ metadata) by exact Hm.
  rewrite (cbind_clift_of _ v) by exact Hv. reflexivity.
Qed.

(** For a document of the dump, the summary prints its lines in order. *)
Lemma print_summary_lines eid info name now n T runs output :
  Forall (fun run => print_run W E run = print W (run_line E run)) runs ->
  let doc := experiment_document E eid info name now n T runs in
  print_summary W E doc output = cfor_each (summary_lines E doc output) (print W).
Proof.
  intros Hruns doc.
  assert (Hlines : summary_lines E doc output =
    [summary_header;
     "Experiment ID: " ++ py_str E eid;
     "Experiment Name: " ++ py_str E name;
     "MLflow URL: " ++ py_str E (JStr (mlflow_url E));
     "Dump timestamp: " ++ py_str E (JStr now);
     "Total runs: " ++ py_str E (JInt (Z.of_nat n));
     "Total traces found: " ++ py_str E (JInt T);
     "Output file: " ++ output]%string
    ++ (if 0 <? T
        then (newline ++ "Trace breakdown by run:")%string :: map (run_line E) runs
        else [])).
  { unfold summary_lines. subst doc. cbn [py_positive].
    change (field "total_traces" (field "metadata" (experiment_document E eid info name now n T runs)))
      with (JInt T).
    cbn [py_positive]. destruct (0 <? T); reflexivity. }
  rewrite Hlines. cbn [app cfor_each]. unfold print_summary. subst doc.
  apply cbind_ext. intros _.
  erewrite print_metadata_line by reflexivity. apply cbind_ext. intros _.
  erewrite print_metadata_line by reflexivity. apply cbind_ext. intros _.
  erewrite print_metadata_line by reflexivity. apply cbind_ext. intros _.
  erewrite print_metadata_line by reflexivity. apply cbind_ext. intros _.
  erewrite print_metadata_line by reflexivity. apply cbind_ext. intros _.
  erewrite print_metadata_line by reflexivity. apply cbind_ext. intros _.
  apply cbind_ext. intros _.
  erewrite cbind_clift_of by reflexivity.
  rewrite (cbind_clift_of _ (JInt T)) by reflexivity.
  rewrite (cbind_clift_of _ (0 <? T)) by reflexivity.
  destruct (0 <? T); [|reflexivity].
  cbn [cfor_each]. apply cbind_ext. intros _.
  rewrite (cbind_clift_of _ (JArr runs)) by reflexivity.
  rewrite (cbind_clift_of _ runs) by reflexivity.
  apply print_runs_lines. exact Hruns.
Qed.

(** Whatever the dump returns, the summary prints the lines [main] attempts,
    and raises after the header for the empty dict. *)
Lemma print_summary_attempt eid out now doc output :
  value (ExperimentTraceDumper.dump_experiment_traces E eid out now) = Ok doc ->
  snd (print_summary W E doc output) =
    (if truthy doc && forallb (printable W) (summary_lines E doc output)
     then Ok tt else Raise OtherException) /\
  printed (fst (print_summary W E doc output)) =
    printable_prefix (printable W) (attempted_lines E doc output).
Proof.
  intros H. rewrite Phases.dump_two_phase in H.
  apply value_bind_ok in H as (g & Hg & H).
  destruct g as [[[[info name] n] ys]|]; cbn [finish] in H.
  2:{ injection H as <-. unfold attempted_lines. cbn [truthy andb].
      assert (Hempty : print_summary W E (JObj []) output =
                       cbind (print W summary_header)
                             (fun _ => ([], Raise OtherException))).
      { unfold print_summary. apply cbind_ext. intros _. reflexivity. }
      rewrite Hempty. unfold print. cbn [printable_prefix].
      destruct (printable W summary_header); split; reflexivity. }
  unfold deliver in H.
  apply value_bind_ok in H as (_ & _ & H).
  apply value_bind_ok in H as (_ & _ & H).
  injection H as <-.
  rewrite Phases.record_all_experiment_document.
  assert (Hruns : Forall (fun run => print_run W E run = print W (run_line E run))
                         ([] ++ map fst ys)).
  { unfold gather in Hg.
    apply value_bind_ok in Hg as (_ & _ & Hg).
    apply value_bind_ok in Hg as (info' & _ & Hg).
    destruct (negb (truthy info')).
    { apply value_bind_ok in Hg as (_ & _ & Hg). discriminate. }
    apply value_bind_ok in Hg as (name' & _ & Hg).
    apply value_bind_ok in Hg as (runs & _ & Hg).
    apply value_bind_ok in Hg as (n' & _ & Hg).
    apply value_bind_ok in Hg as (items & _ & Hg).
    apply value_bind_ok in Hg as (ys' & Hys & Hg).
    injection Hg as -> -> -> ->.
    apply map_m_ok in Hys. cbn [app]. clear -Hys.
    induction Hys as [|run y items ys Hy _ IH]; cbn [map]; constructor; [|exact IH].
    apply collect_run_shape in Hy as (d & run_id & details & traces & Hinfo & Hid & ->).
    exact (print_run_line run d run_id details traces Hinfo Hid). }
  rewrite (print_summary_lines _ _ _ _ _ _ _ output Hruns).
  unfold attempted_lines.
  change (truthy (experiment_document E eid info name now n _ _)) with true.
  cbv iota. cbn [andb].
  apply print_lines_status.
Qed.

End Methods.



End MainFacts.

(** ** The requests of get_trace_data *)

Module TraceDataRequests.
Import Laws PassFacts.

Lemma for_each_total {A S} (body : A -> S -> M S) (rq : A -> list request) items :
  (forall x s, In x items ->
     exists evs s', body x s = (evs, Ok s') /\ requests evs = rq x) ->
  forall s, exists evs s',
    for_each items body s = (evs, Ok s') /\ requests evs = flat_map rq items.
Proof.
  induction items as [|x rest IH]; intros Hbody s; cbn [for_each flat_map].
  - exists [], s. split; reflexivity.
  - destruct (Hbody x s (or_introl eq_refl)) as (evs1 & s1 & H1 & Hq1).
    destruct (IH (fun y t Hy => Hbody y t (or_intror Hy)) s1) as (evs2 & s2 & H2 & Hq2).
    exists (evs1 ++ evs2), s2. rewrite H1, bind_ok, H2. cbn [events value fst snd].
    rewrite ThreePasses.requests_app, Hq1, Hq2. split; reflexivity.
Qed.

Lemma flat_map_map {A B C} (f : B -> C) (g : A -> list B) (l : list A) :
  flat_map (fun x => map f (g x)) l = map f (flat_map g l).
Proof.
  induction l as [|x l IH]; cbn [flat_map map]; [reflexivity|].
  rewrite map_app, IH. reflexivity.
Qed.

Lemma session_get_answer E rq r :
  serve E rq = Answer r -> session_get E rq = ([Get rq], Ok r).
Proof. intros H. unfold session_get. rewrite H. reflexivity. Qed.

Lemma raise_for_status_200 r : status_code r = 200 -> raise_for_status r = ret tt.
Proof. intros H. unfold raise_for_status. rewrite H. reflexivity. Qed.

Lemma response_json_some r body : json_body r = Some body -> response_json r = ret body.
Proof. intros H. unfold response_json. rewrite H. reflexivity. Qed.

(** One step through a method whose requests are all answered. *)
Ltac walk :=
  repeat (first
    [ rewrite bind_ok | rewrite bind_ret_l | rewrite lift_ok
    | match goal with
      | H : serve ?E ?rq = Answer ?r |- context [session_get ?E ?rq] =>
          rewrite (session_get_answer E rq r H)
      | H : status_code ?r = 200 |- context [raise_for_status ?r] =>
          rewrite (raise_for_status_200 r H)
      | H : json_body ?r = Some ?b |- context [response_json ?r] =>
          rewrite (response_json_some r b H)
      | H : status_code ?r = 200 |- context [status_code ?r =? 200] =>
          rewrite H; change (200 =? 200) with true; cbv iota
      | H : (status_code ?r =? 200) = false |- context [status_code ?r =? 200] =>
          rewrite H
      | H : py_get ?a ?b ?c = Ok _ |- context [py_get ?a ?b ?c] => rewrite H
      end
    | progress cbn [events value fst snd py_get py_iter] ]).

Section Methods.
Variable E : env.

Lemma download_step_total run_id artifact trace_data :
  well_formed_artifact artifact = true ->
  exists evs trace_data',
    MLflowTraceDumper.download_step E run_id artifact trace_data = (evs, Ok trace_data') /\
    requests evs = map (ArtifactsDownload run_id)
                       (trace_path MLflowTraceDumper.trace_keywords artifact).
Proof.
  unfold well_formed_artifact, trace_path, MLflowTraceDumper.download_step.
  destruct (py_get artifact "path" (JStr "")) as [[| | | |path| |]|e] eqn:Hpath;
    try discriminate.
  intros _. rewrite lift_ok, bind_ret_l. cbn [py_lower]. rewrite lift_ok, bind_ret_l.
  destruct (any_in MLflowTraceDumper.trace_keywords (lower path)) eqn:Hk.
  - rewrite (Scenario.py_get_path_index artifact path Hpath Hk).
    rewrite !lift_ok, !bind_ret_l. unfold session_get.
    destruct (serve E (ArtifactsDownload run_id (JStr path))) as [|r].
    + do 2 eexists. split; reflexivity.
    + cbn. destruct (status_code r =? 200); do 2 eexists; split; reflexivity.
  - do 2 eexists. split; reflexivity.
Qed.

Lemma fallback_step_total run_id artifact traces :
  well_formed_artifact artifact = true ->
  exists evs traces',
    MLflowTraceDumper.fallback_step E run_id artifact traces = (evs, Ok traces') /\
    requests evs = map (ArtifactsDownload run_id)
                       (trace_path MLflowTraceDumper.trace_keywords artifact).
Proof.
  unfold well_formed_artifact, trace_path, MLflowTraceDumper.fallback_step.
  destruct (py_get artifact "path" (JStr "")) as [[| | | |path| |]|e] eqn:Hpath;
    try discriminate.
  intros _. rewrite lift_ok, bind_ret_l. cbn [py_lower]. rewrite lift_ok, bind_ret_l.
  destruct (any_in MLflowTraceDumper.trace_keywords (lower path)) eqn:Hk.
  - rewrite (Scenario.py_get_path_index artifact path Hpath Hk).
    rewrite !lift_ok, !bind_ret_l. unfold session_get.
    destruct (serve E (ArtifactsDownload run_id (JStr path))) as [|r].
    + do 2 eexists. split; reflexivity.
    + cbn. destruct (status_code r =? 200); do 2 eexists; split; reflexivity.
  - do 2 eexists. split; reflexivity.
Qed.

Lemma run_snapshot_total run_id files init :
  detail_served E run_id files ->
  forallb well_formed_artifact files = true ->
  exists evs trace_data,
    MLflowTraceDumper.run_snapshot E run_id init = (evs, Ok trace_data) /\
    requests evs =
      [RunsGet run_id; MetricsGetHistory run_id; RunsGet run_id; ArtifactsList run_id]
      ++ map (ArtifactsDownload run_id)
             (flat_map (trace_path MLflowTraceDumper.trace_keywords) files).
Proof.
  intros ((body & run_data & data & (r & Hr & Hs & Hb) & Hrun & Hdata)
          & Hmetrics & (abody & (ra & Hra & Hsa & Hba) & Hfiles)) Hwf.
  assert (Hloop : forall trace_data, exists evs trace_data',
    for_each files (MLflowTraceDumper.download_step E run_id) trace_data =
      (evs, Ok trace_data') /\
    requests evs = flat_map (fun artifact =>
      map (ArtifactsDownload run_id)
          (trace_path MLflowTraceDumper.trace_keywords artifact)) files).
  { apply for_each_total. intros x s Hx. apply download_step_total.
    rewrite forallb_forall in Hwf. apply Hwf. exact Hx. }
  unfold MLflowTraceDumper.run_snapshot.
  destruct Hmetrics as [(rm & Hm & Hsm)|(metrics & rm & Hm & Hsm & Hbm)];
    [apply Z.eqb_neq in Hsm|]; walk;
    match goal with |- context [for_each files _ ?td] =>
      destruct (Hloop td) as (evs & td' & -> & Hq) end;
    (do 2 eexists; split; [reflexivity|]);
    cbn [events value fst snd];
    rewrite !ThreePasses.requests_app, Hq, flat_map_map; reflexivity.
Qed.

End Methods.

(** X12.  For a run whose detail, metric history and artifact listing are
    served, [get_trace_data] fetches the run record twice, and downloads
    every artifact whose path holds a keyword; in mlflow_trace_dumper.py,
    when trace search does not answer 200, the artifacts are then listed and
    downloaded a second time by the fallback of [get_traces_for_run]. *)
Theorem trace_data_fetches_twice (E : env) (run_id : json) (files : list json) :
  detail_served E run_id files ->
  forallb well_formed_artifact files = true ->
  let downloads :=
    map (ArtifactsDownload run_id)
        (flat_map (trace_path MLflowTraceDumper.trace_keywords) files) in
  requests (events (MlflowDirTraceDumper.get_trace_data E run_id)) =
    [RunsGet run_id; MetricsGetHistory run_id; RunsGet run_id; ArtifactsList run_id]
    ++ downloads /\
  (declines E (TracesSearch run_id) ->
   requests (events (MLflowTraceDumper.get_trace_data E run_id)) =
     [RunsGet run_id; MetricsGetHistory run_id; RunsGet run_id; ArtifactsList run_id]
     ++ downloads
     ++ [TracesSearch run_id; ArtifactsList run_id] ++ downloads).
Proof.
  intros Hserved Hwf downloads. split.
  - unfold MlflowDirTraceDumper.get_trace_data.
    match goal with |- context [MLflowTraceDumper.run_snapshot E run_id ?init] =>
      destruct (run_snapshot_total E run_id files init Hserved Hwf)
        as (evs & td & -> & Hq) end.
    cbn [try_request events fst]. exact Hq.
  - intros (rt & Ht & Hst).
    unfold MLflowTraceDumper.get_trace_data.
    match goal with |- context [MLflowTraceDumper.run_snapshot E run_id ?init] =>
      destruct (run_snapshot_total E run_id files init Hserved Hwf)
        as (evs & td & -> & Hq) end.
    destruct Hserved as (_ & _ & (abody & (ra & Hra & Hsa & Hba) & Hfiles)).
    destruct (for_each_total (MLflowTraceDumper.fallback_step E run_id)
                (fun artifact => map (ArtifactsDownload run_id)
                   (trace_path MLflowTraceDumper.trace_keywords artifact)) files
                (fun x s Hx => fallback_step_total E run_id x s
                   (proj1 (forallb_forall _ _) Hwf x Hx)) [])
      as (evs2 & traces & Hloop & Hq2).
    unfold MLflowTraceDumper.get_traces_for_run.
    apply Z.eqb_neq in Hst. walk. rewrite Hloop. walk.
    cbn [try_request log ret bind events value fst snd].
    rewrite !ThreePasses.requests_app, Hq, Hq2, flat_map_map.
    subst downloads. cbn. rewrite ?app_nil_r. reflexivity.
Qed.

Lemma trace_data_fetches_twice_witness :
  let E := Examples.env_of (Examples.two_runs 404) in
  requests (events (MLflowTraceDumper.get_trace_data E (JStr "r1"))) =
    [RunsGet (JStr "r1"); MetricsGetHistory (JStr "r1"); RunsGet (JStr "r1");
     ArtifactsList (JStr "r1");
     ArtifactsDownload (JStr "r1") (JStr "run/trace.json");
     TracesSearch (JStr "r1"); ArtifactsList (JStr "r1");
     ArtifactsDownload (JStr "r1") (JStr "run/trace.json")].
Proof.
  cbv zeta.
  pose (E := Examples.env_of (Examples.two_runs 404)).
  pose (files := [JObj [("path", JStr "model/model.pkl")];
                  JObj [("path", JStr "run/trace.json")]]).
  assert (Hserved : detail_served E (JStr "r1") files).
  { split; [|split].
    - exists (JObj [("run", Examples.run_named "r1")]), (Examples.run_named "r1"), [].
      split; [eexists; repeat split; reflexivity|]. split; reflexivity.
    - right. exists [("metrics", JArr [])]. eexists. repeat split; reflexivity.
    - exists (JObj [("files", JArr files)]).
      split; [eexists; repeat split; reflexivity|reflexivity]. }
  destruct (trace_data_fetches_twice E (JStr "r1") files Hserved eq_refl) as [_ H].
  apply H. eexists. split; [reflexivity|]. cbn. discriminate.
Defined.

End TraceDataRequests.
